(** * IONOS Cloud Ansible modules: [volume] and [postgres_backup_info]

    A shallow embedding of [plugins/modules/volume.py] and
    [plugins/modules/postgres_backup_info.py].

    - Python values are the dynamically typed [pyval]; attribute access,
      truthiness, [==] and iteration are written out with the exceptions
      they raise.
    - A function that only computes (and may raise, or leave the module
      through [module.exit_json] / [module.fail_json]) returns an [outcome].
    - A function that talks to the vendor SDK lives in the monad [M]: it reads
      the history of SDK calls made so far and returns its outcome together
      with the calls it made itself.  The SDK is an arbitrary oracle
      ([VendorSdk]); the few interpreter built-ins whose behaviour is not
      repository code are the fields of [Python]. *)

From stdpp Require Import base option list gmap strings pretty.
From Stdlib Require Import ZArith Permutation.

Set Warnings "-register-all".
Set Default Proof Using "Type*".

(** ** Python values *)

Inductive pyval : Type :=
| PNone
| PBool (b : bool)
| PInt (z : Z)
| PStr (s : string)
| PList (items : list pyval)
| PTuple (items : list pyval)
| PDict (entries : list (string * pyval))
| PObj (cls : string) (attrs : list (string * pyval)).

(** Lookup in a dict literal or in the attributes of an object. *)
Fixpoint assoc {A : Type} (key : string) (entries : list (string * A)) : option A :=
  match entries with
  | [] => None
  | (k, v) :: rest => if String.eqb key k then Some v else assoc key rest
  end.

(** [obj.el = v] *)
Fixpoint assoc_set {A : Type} (key : string) (v : A) (entries : list (string * A))
  : list (string * A) :=
  match entries with
  | [] => [(key, v)]
  | (k, w) :: rest =>
      if String.eqb key k then (k, v) :: rest else (k, w) :: assoc_set key v rest
  end.

Definition type_name (v : pyval) : string :=
  match v with
  | PNone => "NoneType"
  | PBool _ => "bool"
  | PInt _ => "int"
  | PStr _ => "str"
  | PList _ => "list"
  | PTuple _ => "tuple"
  | PDict _ => "dict"
  | PObj cls _ => cls
  end.

(** [x is None] *)
Definition is_none (v : pyval) : bool :=
  match v with PNone => true | _ => false end.

(** Truth value of an object, as tested by [if v:] and [not v].  The SDK
    models define neither [__bool__] nor [__len__]: they are always true. *)
Definition truthy (v : pyval) : bool :=
  match v with
  | PNone => false
  | PBool b => b
  | PInt z => negb (z =? 0)%Z
  | PStr s => negb (String.eqb s "")
  | PList l | PTuple l => negb (Nat.eqb (length l) 0)
  | PDict d => negb (Nat.eqb (length d) 0)
  | PObj _ _ => true
  end.

(** [a == b].  [bool] is a subclass of [int]; a list never equals a tuple;
    dicts compare by keys and values whatever their order; two SDK models are
    equal when they are of the same class and their attributes agree (the
    generated [__eq__] compares [to_dict()]). *)
Fixpoint py_eq (a b : pyval) {struct a} : bool :=
  let seq_eq :=
    fix seq_eq (xs ys : list pyval) {struct xs} : bool :=
      match xs, ys with
      | [], [] => true
      | x :: xs', y :: ys' => py_eq x y && seq_eq xs' ys'
      | _, _ => false
      end in
  let map_le :=
    fix map_le (d1 d2 : list (string * pyval)) {struct d1} : bool :=
      match d1 with
      | [] => true
      | (k, v) :: d1' =>
          match assoc k d2 with
          | Some w => py_eq v w && map_le d1' d2
          | None => false
          end
      end in
  match a, b with
  | PNone, PNone => true
  | PBool x, PBool y => Bool.eqb x y
  | PBool x, PInt y => (Z.b2z x =? y)%Z
  | PInt x, PBool y => (x =? Z.b2z y)%Z
  | PInt x, PInt y => (x =? y)%Z
  | PStr x, PStr y => String.eqb x y
  | PList xs, PList ys => seq_eq xs ys
  | PTuple xs, PTuple ys => seq_eq xs ys
  | PDict d1, PDict d2 => Nat.eqb (length d1) (length d2) && map_le d1 d2
  | PObj c1 a1, PObj c2 a2 =>
      String.eqb c1 c2 && Nat.eqb (length a1) (length a2) && map_le a1 a2
  | _, _ => false
  end.

(** [x in l] for a list [l] *)
Definition py_in (x : pyval) (l : list pyval) : bool :=
  existsb (fun e => py_eq x e) l.

(** ** Exceptions and the ways a call can end *)

(** An exception, subclass of [Exception]: its class and its text, which is
    what [to_native(e)] (and [str(e)]) gives. *)
Record exn : Type := Exn { exn_class : string; to_native : string }.

Definition AttributeError (type el : string) : exn :=
  Exn "AttributeError" ("'" +:+ type +:+ "' object has no attribute '" +:+ el +:+ "'").
Definition TypeError (text : string) : exn := Exn "TypeError" text.
Definition ValueError (text : string) : exn := Exn "ValueError" text.
Definition KeyError (key : string) : exn := Exn "KeyError" ("'" +:+ key +:+ "'").
Definition IndexError (text : string) : exn := Exn "IndexError" text.
Definition ZeroDivisionError (text : string) : exn := Exn "ZeroDivisionError" text.

(** [module.exit_json] and [module.fail_json(msg=...)] print the
    result and leave the interpreter with [SystemExit], which no
    [except Exception] catches. *)
Inductive exit_call : Type :=
| ExitJson (kwargs : gmap string pyval)
| FailJson (msg : string).

Inductive outcome (A : Type) : Type :=
| Ret (a : A)
| Raise (e : exn)
| Exit (x : exit_call).
Arguments Ret {A} a.
Arguments Raise {A} e.
Arguments Exit {A} x.

Definition outcome_bind {A B : Type} (f : A -> outcome B) (o : outcome A) : outcome B :=
  match o with
  | Ret a => f a
  | Raise e => Raise e
  | Exit x => Exit x
  end.

#[export] Instance outcome_ret : MRet outcome := @Ret.
#[export] Instance outcome_mbind : MBind outcome := @outcome_bind.
#[export] Instance outcome_fmap : FMap outcome :=
  fun A B f => outcome_bind (fun a => Ret (f a)).

Definition is_Ret {A : Type} (o : outcome A) : Prop :=
  match o with Ret _ => True | _ => False end.

Definition exit_json {A : Type} (kwargs : gmap string pyval) : outcome A :=
  Exit (ExitJson kwargs).
Definition fail_json {A : Type} (msg : string) : outcome A :=
  Exit (FailJson msg).

(** [for x in xs: ys.append(f(x))] *)
Fixpoint for_append {A B : Type} (f : A -> outcome B) (xs : list A) : outcome (list B) :=
  match xs with
  | [] => Ret []
  | x :: xs' => y ← f x; ys ← for_append f xs'; Ret (y :: ys)
  end.

(** [list(filter(f, xs))] *)
Fixpoint py_filter {A : Type} (f : A -> outcome bool) (xs : list A) : outcome (list A) :=
  match xs with
  | [] => Ret []
  | x :: xs' =>
      keep ← f x; ys ← py_filter f xs'; Ret (if keep : bool then x :: ys else ys)
  end.

(** ** Built-ins *)

(** [getattr(o, el)].  Only data attributes of SDK models are looked up. *)
Definition getattr (o : pyval) (el : string) : outcome pyval :=
  match o with
  | PObj _ attrs =>
      match assoc el attrs with
      | Some v => Ret v
      | None => Raise (AttributeError (type_name o) el)
      end
  | _ => Raise (AttributeError (type_name o) el)
  end.

(** What [for x in v] (and [filter(f, v)]) goes through. *)
Definition py_iter (v : pyval) : outcome (list pyval) :=
  match v with
  | PList l | PTuple l => Ret l
  | PDict d => Ret (map (fun kv => PStr kv.1) d)
  | PStr s => Ret (map (fun c => PStr (String c EmptyString)) (String.list_ascii_of_string s))
  | _ => Raise (TypeError ("'" +:+ type_name v +:+ "' object is not iterable"))
  end.

(** The interpreter built-ins the modules use and that are taken as given:
    [str(v)], [fmt % v] on a [str] format, the order in which a set of
    integers is listed by [list(set(...))], and the class [\w] of [re]. *)
Class Python : Type := {
  py_str : pyval -> string;
  str_mod : string -> pyval -> exn + string;
  set_to_list : list Z -> list Z;
  re_w : Ascii.ascii -> bool;
}.

(** The [ansible.module_utils.basic.AnsibleModule] object, as far as the
    modules read it. *)
Record AnsibleModule : Type := {
  params : gmap string pyval;
  check_mode : bool;
}.

(** [module.params.get(key)] *)
Definition params_get (module : AnsibleModule) (key : string) : pyval :=
  default PNone (params module !! key).

(** ** [get_sdk_config] (both modules) *)

(** [sdk.Configuration] applied to the keyword arguments [conf]: the
    configuration object is its keyword arguments. *)
Inductive Configuration : Type :=
| sdk_Configuration (conf : gmap string pyval).

Definition get_sdk_config (module : AnsibleModule) : Configuration :=
  let username := params_get module "username" in
  let password := params_get module "password" in
  let token := params_get module "token" in
  let api_url := params_get module "api_url" in
  let conf : gmap string pyval :=
    if negb (is_none token)
    then {[ "token" := token ]}
    else <[ "password" := password ]> {[ "username" := username ]} in
  let conf :=
    if negb (is_none api_url)
    then <[ "server_index" := PNone ]> (<[ "host" := api_url ]> conf)
    else conf in
  sdk_Configuration conf.

(** ** Resource identity resolution (both modules) *)

Definition default_identity_paths : list (list string) :=
  [["id"]; ["properties"; "name"]].

(** [current = resource; for el in identity_path: current = getattr(current, el)] *)
Fixpoint getattr_path (current : pyval) (identity_path : list string) : outcome pyval :=
  match identity_path with
  | [] => Ret current
  | el :: rest => current' ← getattr current el; getattr_path current' rest
  end.

Definition check_identity_method (identity : pyval) (identity_paths : list (list string))
    (resource : pyval) : outcome bool :=
  resource_identity ← for_append (getattr_path resource) identity_paths;
  Ret (py_in identity resource_identity).

Definition _get_matched_resources (resource_list identity : pyval)
    (identity_paths : option (list (list string))) : outcome (list pyval) :=
  let identity_paths := default default_identity_paths identity_paths in
  items ← getattr resource_list "items";
  items ← py_iter items;
  py_filter (check_identity_method identity identity_paths) items.

Section resolution.
Context {py : Python}.

Definition get_resource (module : AnsibleModule) (resource_list identity : pyval)
    (identity_paths : option (list (list string))) : outcome pyval :=
  matched_resources ← _get_matched_resources resource_list identity identity_paths;
  if Nat.eqb (length matched_resources) 1 then
    match matched_resources with
    | r :: _ => Ret r
    | [] => Raise (IndexError "list index out of range")
    end
  else if Nat.ltb 1 (length matched_resources) then
    type ← getattr resource_list "id";
    fail_json ("found more resources of type " +:+ py_str type
               +:+ " for '" +:+ py_str identity +:+ "'")
  else Ret PNone.

Definition get_resource_id (module : AnsibleModule) (resource_list identity : pyval)
    (identity_paths : option (list (list string))) : outcome pyval :=
  resource ← get_resource module resource_list identity identity_paths;
  if negb (is_none resource) then getattr resource "id" else Ret PNone.
End resolution.

(** ** The vendor SDK and the monad of SDK calls *)

(** The API methods the modules invoke, with the arguments they pass. *)
Inductive sdk_call : Type :=
(* ionoscloud.DataCentersApi *)
| datacenters_get (depth : Z)
(* ionoscloud.VolumesApi *)
| datacenters_volumes_get (datacenter_id : pyval) (depth : Z)
| datacenters_volumes_find_by_id (datacenter_id volume_id : pyval) (depth : Z)
| datacenters_volumes_post_with_http_info (datacenter_id volume : pyval)
| datacenters_volumes_put_with_http_info (datacenter_id volume_id volume : pyval)
| datacenters_volumes_delete (datacenter_id volume_id : pyval)
(* ionoscloud.ServersApi *)
| datacenters_servers_get (datacenter_id : pyval) (depth : Z)
| datacenters_servers_volumes_post (datacenter_id server_id volume : pyval)
(* ionoscloud.ApiClient *)
| wait_for_completion (request_id timeout : pyval)
(* ionoscloud_dbaas_postgres.ClustersApi and BackupsApi *)
| clusters_get
| cluster_backups_get (cluster_id : pyval)
| clusters_backups_get.

(** One SDK call and how it ended: an exception or a returned value. *)
Definition event : Type := sdk_call * (exn + pyval).
Definition trace : Type := list event.

(** The SDK is opaque: what a call answers may depend on every call made
    before it.  [to_dict] is the method of the SDK models. *)
Class VendorSdk : Type := {
  api : trace -> sdk_call -> exn + pyval;
  to_dict : pyval -> exn + pyval;
}.

Definition of_result {A : Type} (r : exn + A) : outcome A :=
  match r with inl e => Raise e | inr v => Ret v end.

(** A computation reads the calls made so far and returns its outcome with
    the calls it made. *)
Record M (A : Type) : Type := Run { run : trace -> outcome A * trace }.
Arguments Run {A} run.
Arguments run {A} m history.

Definition M_ret {A : Type} (a : A) : M A := Run (fun _ => (Ret a, [])).

Definition M_bind {A B : Type} (f : A -> M B) (m : M A) : M B :=
  Run (fun history =>
    let '(o, made) := run m history in
    match o with
    | Ret a => let '(o', made') := run (f a) (history ++ made) in (o', made ++ made')
    | Raise e => (Raise e, made)
    | Exit x => (Exit x, made)
    end).

#[export] Instance M_mret : MRet M := @M_ret.
#[export] Instance M_mbind : MBind M := @M_bind.

(** A computation that makes no SDK call. *)
Definition lift {A : Type} (o : outcome A) : M A := Run (fun _ => (o, [])).

(** [try: body except Exception as e: handler(e)] *)
Definition try_except {A : Type} (body : M A) (handler : exn -> M A) : M A :=
  Run (fun history =>
    let '(o, made) := run body history in
    match o with
    | Raise e =>
        let '(o', made') := run (handler e) (history ++ made) in (o', made ++ made')
    | _ => (o, made)
    end).

(** A [for] loop whose body updates the local variables [s]. *)
Fixpoint for_each {X S : Type} (body : X -> S -> M S) (xs : list X) (s : S) : M S :=
  match xs with
  | [] => mret s
  | x :: xs' => s' ← body x s; for_each body xs' s'
  end.

Section sdk.
Context {sdk : VendorSdk}.

Definition call (c : sdk_call) : M pyval :=
  Run (fun history => let r := api history c in (of_result r, [(c, r)])).
End sdk.

(** ** Regular expressions of [volume.py] *)

(** [re.search('/requests/([-A-Fa-f0-9]+)/', s)]: the first group of the
    leftmost match.  ['/'] is outside the class, so the greedy run is the
    whole run of class characters and it must be followed by ['/']. *)
Definition is_request_id_char (c : Ascii.ascii) : bool :=
  let n := Ascii.nat_of_ascii c in
  Nat.eqb n 45
  || (Nat.leb 65 n && Nat.leb n 70)
  || (Nat.leb 97 n && Nat.leb n 102)
  || (Nat.leb 48 n && Nat.leb n 57).

Fixpoint strip_prefix (p s : string) : option string :=
  match p, s with
  | EmptyString, _ => Some s
  | String a p', String b s' => if Ascii.eqb a b then strip_prefix p' s' else None
  | String _ _, EmptyString => None
  end.

Fixpoint span (f : Ascii.ascii -> bool) (s : string) : string * string :=
  match s with
  | EmptyString => (EmptyString, EmptyString)
  | String c s' =>
      if f c then let '(r, rest) := span f s' in (String c r, rest)
      else (EmptyString, s)
  end.

Definition request_id_here (s : string) : option string :=
  rest ← strip_prefix "/requests/" s;
  let '(group, rest') := span is_request_id_char rest in
  match group, rest' with
  | String _ _, String c _ => if Ascii.eqb c (Ascii.ascii_of_nat 47) then Some group else None
  | _, _ => None
  end.

Fixpoint request_id_search (s : string) : option string :=
  match request_id_here s with
  | Some group => Some group
  | None =>
      match s with
      | EmptyString => None
      | String _ s' => request_id_search s'
      end
  end.

(** [uuid_match.match(s)] for
    [uuid_match = re.compile('[\w]{8}-[\w]{4}-[\w]{4}-[\w]{4}-[\w]{12}', re.I)]:
    anchored at the start only.  [w] is the class [\w]. *)
Fixpoint word_run (w : Ascii.ascii -> bool) (n : nat) (s : string) : option string :=
  match n, s with
  | O, _ => Some s
  | S n', String c s' => if w c then word_run w n' s' else None
  | S _, EmptyString => None
  end.

Definition uuid_match (w : Ascii.ascii -> bool) (s : string) : bool :=
  bool_decide (is_Some (
    s1 ← word_run w 8 s; s2 ← strip_prefix "-" s1;
    s3 ← word_run w 4 s2; s4 ← strip_prefix "-" s3;
    s5 ← word_run w 4 s4; s6 ← strip_prefix "-" s5;
    s7 ← word_run w 4 s6; s8 ← strip_prefix "-" s7;
    word_run w 12 s8)).

(** ** [plugins/modules/volume.py] *)

Module volume.

Definition STATES : list string := ["present"; "absent"; "update"].
Definition OBJECT_NAME : string := "Volume".

(** [OPTIONS], in the order of the dict: each option with its ['required']
    list ([[]] when the key is absent). *)
Definition OPTIONS : list (string * list string) :=
  [ ("datacenter", STATES); ("server", []); ("name", ["present"]); ("size", []);
    ("bus", []); ("image", []); ("image_password", []); ("ssh_keys", []);
    ("disk_type", []); ("licence_type", []); ("availability_zone", []);
    ("count", []); ("instance_ids", []); ("backupunit_id", []); ("user_data", []);
    ("cpu_hot_plug", []); ("ram_hot_plug", []); ("nic_hot_plug", []);
    ("nic_hot_unplug", []); ("disc_virtio_hot_plug", []);
    ("disc_virtio_hot_unplug", []); ("api_url", []); ("username", []);
    ("password", []); ("token", []); ("wait", []); ("wait_timeout", []);
    ("state", []) ].

(** The SDK models the module builds: a model is its class and its
    attributes. *)
Definition VolumeProperties (kwargs : list (string * pyval)) : pyval :=
  PObj "VolumeProperties" kwargs.

Definition Volume (id properties : pyval) : pyval :=
  PObj "Volume" [("id", id); ("type", PNone); ("href", PNone); ("metadata", PNone);
                 ("properties", properties)].

(** [obj.el = v] on a model *)
Definition setattr (o : pyval) (el : string) (v : pyval) : pyval :=
  match o with
  | PObj cls attrs => PObj cls (assoc_set el v attrs)
  | _ => o
  end.

(** [(a, _, c) = response] *)
Definition unpack3 (response : pyval) : outcome (pyval * pyval) :=
  match py_iter response with
  | Ret [a; _; c] => Ret (a, c)
  | Ret values =>
      if Nat.ltb (length values) 3
      then Raise (ValueError ("not enough values to unpack (expected 3, got "
                              +:+ pretty (length values) +:+ ")"))
      else Raise (ValueError "too many values to unpack (expected 3)")
  | _ => Raise (TypeError ("cannot unpack non-iterable " +:+ type_name response
                           +:+ " object"))
  end.

(** [headers[key]] for a [str] key.  The mapping of response headers is the
    dict of what its lookups answer. *)
Definition getitem (headers : pyval) (key : string) : outcome pyval :=
  match headers with
  | PDict entries =>
      match assoc key entries with
      | Some v => Ret v
      | None => Raise (KeyError key)
      end
  | PList _ => Raise (TypeError "list indices must be integers or slices, not str")
  | PTuple _ => Raise (TypeError "tuple indices must be integers or slices, not str")
  | PStr _ => Raise (TypeError "string indices must be integers")
  | _ => Raise (TypeError ("'" +:+ type_name headers +:+ "' object is not subscriptable"))
  end.

(** The [else] branch formats its message with [headers['location']] on a
    [str], which raises [TypeError] before the [Exception] is built. *)
Definition _get_request_id (headers : pyval) : outcome string :=
  match headers with
  | PStr s =>
      match request_id_search s with
      | Some group => Ret group
      | None => Raise (TypeError "string indices must be integers")
      end
  | _ => Raise (TypeError "expected string or bytes-like object")
  end.

Section functions.
Context {py : Python} {sdk : VendorSdk}.

Definition _create_volume (module : AnsibleModule) (datacenter name : pyval) : M pyval :=
  let size := params_get module "size" in
  let bus := params_get module "bus" in
  let image := params_get module "image" in
  let image_password := params_get module "image_password" in
  let ssh_keys := params_get module "ssh_keys" in
  let disk_type := params_get module "disk_type" in
  let availability_zone := params_get module "availability_zone" in
  let licence_type := params_get module "licence_type" in
  let cpu_hot_plug := params_get module "cpu_hot_plug" in
  let ram_hot_plug := params_get module "ram_hot_plug" in
  let nic_hot_plug := params_get module "nic_hot_plug" in
  let nic_hot_unplug := params_get module "nic_hot_unplug" in
  let disc_virtio_hot_plug := params_get module "disc_virtio_hot_plug" in
  let disc_virtio_hot_unplug := params_get module "disc_virtio_hot_unplug" in
  let backupunit_id := params_get module "backupunit_id" in
  let user_data := params_get module "user_data" in
  let wait_timeout := params_get module "wait_timeout" in
  let wait := params_get module "wait" in
  if check_mode module then lift (exit_json {[ "changed" := PBool true ]})
  else
    try_except
      (let volume_properties :=
         VolumeProperties
           [("name", name); ("type", disk_type); ("size", size);
            ("availability_zone", availability_zone);
            ("image_password", image_password); ("ssh_keys", ssh_keys);
            ("bus", bus); ("licence_type", licence_type);
            ("cpu_hot_plug", cpu_hot_plug); ("ram_hot_plug", ram_hot_plug);
            ("nic_hot_plug", nic_hot_plug); ("nic_hot_unplug", nic_hot_unplug);
            ("disc_virtio_hot_plug", disc_virtio_hot_plug);
            ("disc_virtio_hot_unplug", disc_virtio_hot_unplug);
            ("backupunit_id", backupunit_id); ("user_data", user_data)] in
       volume_properties ← lift (
         if truthy image then
           match image with
           | PStr s =>
               if uuid_match re_w s
               then Ret (setattr volume_properties "image" image)
               else Ret (setattr volume_properties "image_alias" image)
           | _ => Raise (TypeError "expected string or bytes-like object")
           end
         else Ret volume_properties);
       let volume := Volume PNone volume_properties in
       response ← call (datacenters_volumes_post_with_http_info datacenter volume);
       '(volume_response, headers) ← lift (unpack3 response);
       (if truthy wait then
          location ← lift (getitem headers "Location");
          request_id ← lift (_get_request_id location);
          call (wait_for_completion (PStr request_id) wait_timeout)
        else mret PNone);;
       mret volume_response)
      (fun e => lift (fail_json ("failed to create the volume: " +:+ to_native e))).

Definition _update_volume (module : AnsibleModule) (datacenter volume : pyval) : M pyval :=
  let name := params_get module "name" in
  let size := params_get module "size" in
  let bus := params_get module "bus" in
  let availability_zone := params_get module "availability_zone" in
  let cpu_hot_plug := params_get module "cpu_hot_plug" in
  let ram_hot_plug := params_get module "ram_hot_plug" in
  let nic_hot_plug := params_get module "nic_hot_plug" in
  let nic_hot_unplug := params_get module "nic_hot_unplug" in
  let disc_virtio_hot_plug := params_get module "disc_virtio_hot_plug" in
  let disc_virtio_hot_unplug := params_get module "disc_virtio_hot_unplug" in
  let wait_timeout := params_get module "wait_timeout" in
  let wait := params_get module "wait" in
  if check_mode module then lift (exit_json {[ "changed" := PBool true ]})
  else
    try_except
      (name' ← lift (if negb (is_none name) then Ret name else getattr volume "name");
       let volume_properties :=
         VolumeProperties
           [("name", name'); ("size", size);
            ("availability_zone", availability_zone); ("bus", bus);
            ("cpu_hot_plug", cpu_hot_plug); ("ram_hot_plug", ram_hot_plug);
            ("nic_hot_plug", nic_hot_plug); ("nic_hot_unplug", nic_hot_unplug);
            ("disc_virtio_hot_plug", disc_virtio_hot_plug);
            ("disc_virtio_hot_unplug", disc_virtio_hot_unplug)] in
       (* [volume] is rebound to the new model before [volume.id] is read *)
       let volume := Volume PNone volume_properties in
       volume_id ← lift (getattr volume "id");
       response ← call (datacenters_volumes_put_with_http_info datacenter volume_id volume);
       '(volume_response, headers) ← lift (unpack3 response);
       (if truthy wait then
          location ← lift (getitem headers "Location");
          request_id ← lift (_get_request_id location);
          call (wait_for_completion (PStr request_id) wait_timeout)
        else mret PNone);;
       mret volume_response)
      (fun e => lift (fail_json ("failed to update the volume: " +:+ to_native e))).

Definition _delete_volume (module : AnsibleModule) (datacenter volume : pyval) : M unit :=
  if check_mode module then lift (exit_json {[ "changed" := PBool true ]})
  else
    try_except
      (call (datacenters_volumes_delete datacenter volume);; mret tt)
      (fun e => lift (fail_json ("failed to remove the volume: " +:+ to_native e))).

Definition _attach_volume (module : AnsibleModule) (datacenter volume_id : pyval) : M pyval :=
  let server := params_get module "server" in
  if truthy server then
    server_list ← call (datacenters_servers_get datacenter 1);
    server_id ← lift (get_resource_id module server_list server None);
    try_except
      (let volume := Volume volume_id PNone in
       call (datacenters_servers_volumes_post datacenter server_id volume))
      (fun e => lift (fail_json ("failed to attach volume: " +:+ to_native e)))
  else mret PNone.

(** [count > 1] *)
Definition py_gt_1 (count : pyval) : outcome bool :=
  match count with
  | PInt c => Ret (1 <? c)%Z
  | PBool b => Ret (1 <? Z.b2z b)%Z
  | _ => Raise (TypeError ("'>' not supported between instances of '"
                           +:+ type_name count +:+ "' and 'int'"))
  end.

(** [name % 0] *)
Definition py_mod_0 (name : pyval) : outcome pyval :=
  match name with
  | PStr fmt => PStr <$> of_result (str_mod fmt (PInt 0))
  | PInt _ | PBool _ => Raise (ZeroDivisionError "integer division or modulo by zero")
  | _ => Raise (TypeError ("unsupported operand type(s) for %: '"
                           +:+ type_name name +:+ "' and 'int'"))
  end.

(** [xrange(lo, hi)] *)
Definition xrange (lo hi : Z) : list Z :=
  map (fun i => (lo + Z.of_nat i)%Z) (seq 0 (Z.to_nat (hi - lo))).

(** Lines 460 to 480 of [create_volume]: the names of the volumes.  An
    exception has no [message] attribute: [hasattr(e, 'message')] is
    false and reading [e.message] raises [AttributeError]. *)
Definition create_volume_names (module : AnsibleModule) (name count : pyval)
    : outcome (list pyval) :=
  many ← py_gt_1 count;
  if many : bool then
    let numbers : list Z := [] in
    let count_offset := 1%Z in
    name ←
      match py_mod_0 name with
      | Raise e =>
          if String.eqb (exn_class e) "TypeError" then
            if String.prefix "not all" (to_native e)
            then Ret (match name with
                      | PStr s => s +:+ "%d"
                      | _ => py_str name +:+ "%d"
                      end)
            else Raise (AttributeError "TypeError" "message")
          else Raise e
      | Exit x => Exit x
      | Ret _ => match name with PStr s => Ret s | _ => Ret (py_str name) end
      end;
    let count := match count with PInt c => c | PBool b => Z.b2z b | _ => 0%Z end in
    let number_range :=
      xrange count_offset (count_offset + count + Z.of_nat (length numbers)) in
    let available_numbers := set_to_list (list_difference number_range numbers) in
    let numbers_to_use := take (Z.to_nat count) available_numbers in
    for_append (fun number => PStr <$> of_result (str_mod name (PInt number)))
               numbers_to_use
  else Ret [name].

Definition create_volume (module : AnsibleModule) : M (gmap string pyval) :=
  let datacenter := params_get module "datacenter" in
  let name := params_get module "name" in
  let count := params_get module "count" in
  datacenter_list ← call (datacenters_get 1);
  datacenter_id ← lift (get_resource_id module datacenter_list datacenter None);
  (if is_none datacenter_id
   then lift (fail_json "datacenter could not be found.") else mret tt);;
  names ← lift (create_volume_names module name count);
  volume_list ← call (datacenters_volumes_get datacenter_id 1);
  '(volumes, instance_ids, changed) ←
    for_each
      (fun name '(volumes, instance_ids, changed) =>
         existing_volume_id ← lift (get_resource_id module volume_list name None);
         if negb (is_none existing_volume_id) then
           create_response ←
             call (datacenters_volumes_find_by_id datacenter_id existing_volume_id 1);
           _attach_volume module datacenter_id existing_volume_id;;
           mret (volumes ++ [create_response],
                 instance_ids ++ [existing_volume_id], changed)
         else
           create_response ←
             _create_volume module (PStr (py_str datacenter_id)) name;
           id ← lift (getattr create_response "id");
           _attach_volume module datacenter_id id;;
           mret (volumes ++ [create_response], instance_ids ++ [id], true))
      names ([], [], false);
  dicts ← lift (for_append (fun v => of_result (to_dict v)) volumes);
  mret (<[ "changed" := PBool changed ]> (<[ "failed" := PBool false ]>
        (<[ "volumes" := PList dicts ]> (<[ "action" := PStr "create" ]>
        {[ "instance_ids" := PList instance_ids ]})))).

(** [isinstance(v, list)] and, for a list, [len(v)] *)
Definition is_list (v : pyval) : bool :=
  match v with PList _ => true | _ => false end.
Definition len (v : pyval) : nat :=
  match v with PList l => length l | _ => 0 end.

Definition update_volume (module : AnsibleModule) : M (gmap string pyval) :=
  let datacenter := params_get module "datacenter" in
  let instance_ids := params_get module "instance_ids" in
  let name := params_get module "name" in
  (if is_none name then
     if negb (is_list instance_ids) || Nat.ltb (len instance_ids) 1
     then lift (fail_json
                  "instance_ids should be a list of volume ids or names, aborting")
     else mret tt
   else
     if is_list instance_ids && Nat.ltb 1 (len instance_ids)
     then lift (fail_json "when renaming, instance_ids can only have one id at most")
     else mret tt);;
  datacenter_list ← call (datacenters_get 2);
  datacenter_id ← lift (get_resource_id module datacenter_list datacenter None);
  (if is_none datacenter_id
   then lift (fail_json "datacenter could not be found.") else mret tt);;
  volume_list ← call (datacenters_volumes_get datacenter_id 1);
  (* Fail early if one of the ids provided doesn't match any volume *)
  instances ← lift (py_iter instance_ids);
  checked_instances ← lift (
    for_append
      (fun instance =>
         volume ← get_resource module volume_list instance None;
         if is_none volume
         then fail_json ("Volume '" +:+ py_str instance +:+ "' not found.")
         else Ret volume)
      instances);
  '(updated_volumes, changed) ←
    for_each
      (fun instance '(updated_volumes, changed) =>
         existing_volume_by_name ← lift (
           if is_none name then Ret PNone
           else get_resource_id module volume_list name None);
         (if negb (is_none existing_volume_by_name)
          then lift (fail_json ("A volume with the name " +:+ py_str name
                                +:+ " already exists."))
          else mret tt);;
         volume ← lift (get_resource module volume_list instance None);
         if negb (is_none volume) then
           update_response ← _update_volume module datacenter_id volume;
           mret (updated_volumes ++ [update_response], true)
         else mret (updated_volumes, changed))
      checked_instances ([], false);
  dicts ← lift (for_append (fun v => of_result (to_dict v)) updated_volumes);
  mret (<[ "changed" := PBool changed ]> (<[ "failed" := PBool false ]>
        (<[ "volume" := PList dicts ]> {[ "action" := PStr "update" ]}))).

Definition delete_volume (module : AnsibleModule) : M (gmap string pyval) :=
  (if negb (is_list (params_get module "instance_ids"))
      || Nat.ltb (len (params_get module "instance_ids")) 1
   then lift (fail_json
                "instance_ids should be a list of volume ids or names, aborting")
   else mret tt);;
  let datacenter := params_get module "datacenter" in
  let instance_ids := params_get module "instance_ids" in
  (* Locate UUID for Datacenter *)
  datacenter_list ← call (datacenters_get 2);
  datacenter_id ← lift (get_resource_id module datacenter_list datacenter None);
  volumes ← call (datacenters_volumes_get datacenter_id 1);
  instances ← lift (py_iter instance_ids);
  '(changed, volume_id) ←
    for_each
      (fun n '(changed, _) =>
         volume_id ← lift (get_resource_id module volumes n None);
         if negb (is_none volume_id) then
           _delete_volume module datacenter_id volume_id;;
           mret (true, volume_id)
         else mret (changed, volume_id))
      instances (false, PNone);
  mret (<[ "action" := PStr "delete" ]> (<[ "changed" := PBool changed ]>
        {[ "id" := volume_id ]})).

Definition check_required_arguments (module : AnsibleModule) (state : pyval)
    (object_name : string) : outcome unit :=
  (if negb (truthy (params_get module "token"))
      && negb (truthy (params_get module "username")
               && truthy (params_get module "password"))
   then fail_json ("Token or username & password are required for "
                   +:+ object_name +:+ " state " +:+ py_str state)
   else Ret tt);;
  for_append
    (fun '(option_name, required) =>
       if py_in state (PStr <$> required)
          && negb (truthy (params_get module option_name))
       then fail_json (option_name +:+ " parameter is required for "
                       +:+ object_name +:+ " state " +:+ py_str state)
       else Ret tt)
    OPTIONS;;
  Ret tt.

(** [main], given whether the SDK could be imported.  Building the
    configuration and the [ApiClient] sends no request. *)
Definition main (HAS_SDK : bool) (module : AnsibleModule) : M unit :=
  (if negb HAS_SDK
   then lift (fail_json
                "ionoscloud is required for this module, run `pip install ionoscloud`")
   else mret tt);;
  let state := params_get module "state" in
  let api_client := get_sdk_config module in
  lift (check_required_arguments module state OBJECT_NAME);;
  try_except
    (if py_eq state (PStr "absent") then
       result ← delete_volume module; lift (exit_json result)
     else if py_eq state (PStr "present") then
       result ← create_volume module; lift (exit_json result)
     else if py_eq state (PStr "update") then
       result ← update_volume module; lift (exit_json result)
     else mret tt)
    (fun e => lift (fail_json ("failed to set " +:+ OBJECT_NAME +:+ " state "
                               +:+ py_str state +:+ ": " +:+ to_native e))).
End functions.
End volume.

(** ** [plugins/modules/postgres_backup_info.py] *)

Module postgres_backup_info.

Definition STATES : list string := ["info"].
Definition OBJECT_NAME : string := "Postgres Cluster Backups".

(** [OPTIONS]: no option has a ['required'] list. *)
Definition OPTIONS : list (string * list string) :=
  [ ("postgres_cluster", []); ("api_url", []); ("username", []);
    ("password", []); ("token", []) ].

Section functions.
Context {py : Python} {sdk : VendorSdk}.

Definition check_required_arguments (module : AnsibleModule) (object_name : string)
    : outcome unit :=
  (if negb (truthy (params_get module "token"))
      && negb (truthy (params_get module "username")
               && truthy (params_get module "password"))
   then fail_json ("Token or username & password are required for " +:+ object_name)
   else Ret tt);;
  for_append
    (fun '(option_name, required) =>
       if py_in (PStr "info") (PStr <$> required)
          && negb (truthy (params_get module option_name))
       then fail_json (option_name +:+ " parameter is required for retrieving "
                       +:+ object_name)
       else Ret tt)
    OPTIONS;;
  Ret tt.

Definition main (HAS_SDK : bool) (module : AnsibleModule) : M unit :=
  (if negb HAS_SDK
   then lift (fail_json
          "ionoscloud_dbaas_postgres is required for this module, run `pip install ionoscloud_dbaas_postgres`")
   else mret tt);;
  let dbaas_postgres_api_client := get_sdk_config module in
  lift (check_required_arguments module OBJECT_NAME);;
  try_except
    (let postgres_cluster := params_get module "postgres_cluster" in
     backups ←
       (if truthy postgres_cluster then
          clusters ← call clusters_get;
          postgres_cluster_id ← lift (
            get_resource_id module clusters postgres_cluster
              (Some [["id"]; ["properties"; "display_name"]]));
          response ← call (cluster_backups_get postgres_cluster_id);
          lift (getattr response "items")
        else
          response ← call clusters_backups_get;
          lift (getattr response "items"));
     backups ← lift (py_iter backups);
     results ← lift (for_append (fun cluster => of_result (to_dict cluster)) backups);
     lift (exit_json {[ "result" := PList results ]}))
    (fun e => lift (fail_json ("failed to retrieve " +:+ OBJECT_NAME +:+ ": "
                               +:+ to_native e))).
End functions.
End postgres_backup_info.

(** ** Argument specification and documentation (both modules)

    [transform_for_documentation] and [get_module_arguments] read the
    module's globals [OPTIONS] and [STATES]; here they are parameters. *)

(** [len(v)] *)
Definition py_len (v : pyval) : outcome nat :=
  match v with
  | PStr s => Ret (String.length s)
  | PList l | PTuple l => Ret (length l)
  | PDict d => Ret (length d)
  | _ => Raise (TypeError ("object of type '" +:+ type_name v +:+ "' has no len()"))
  end.

(** [d[key]] and [del d[key]] on a dict with [str] keys *)
Definition dict_getitem (d : gmap string pyval) (key : string) : outcome pyval :=
  match d !! key with
  | Some v => Ret v
  | None => Raise (KeyError key)
  end.

Definition dict_del (d : gmap string pyval) (key : string) : outcome (gmap string pyval) :=
  match d !! key with
  | Some _ => Ret (delete key d)
  | None => Raise (KeyError key)
  end.

(** [for x in xs: s = body(x, s)] without SDK calls *)
Fixpoint for_fold {X S : Type} (body : X -> S -> outcome S) (xs : list X) (s : S)
    : outcome S :=
  match xs with
  | [] => Ret s
  | x :: xs' => s' ← body x s; for_fold body xs' s'
  end.

(** [val] is changed in place and returned. *)
Definition transform_for_documentation (STATES : list string) (val : gmap string pyval)
    : outcome (gmap string pyval) :=
  n ← py_len (default (PList []) (val !! "required"));
  let val := <[ "required" := PBool (Nat.eqb n (length STATES)) ]> val in
  val ← dict_del val "available";
  val ← dict_del val "type";
  Ret val.

(** [ansible.module_utils.basic.env_fallback], a function. *)
Definition env_fallback : pyval := PObj "function" [("__name__", PStr "env_fallback")].

(** [OPTIONS] is given in the order of the dict. *)
Definition get_module_arguments (OPTIONS : list (string * gmap string pyval))
    (STATES : list string) : outcome (gmap string (gmap string pyval)) :=
  for_fold
    (fun '(option_name, option) arguments =>
       type ← dict_getitem option "type";
       let argument : gmap string pyval := {[ "type" := type ]} in
       let argument :=
         foldl (fun argument key =>
                  if negb (is_none (default PNone (option !! key)))
                  then <[ key := default PNone (option !! key) ]> argument
                  else argument)
               argument ["choices"; "default"; "aliases"; "no_log"; "elements"] in
       argument ←
         (if truthy (default PNone (option !! "env_fallback")) then
            fallback ← dict_getitem option "env_fallback";
            Ret (<[ "fallback" := PTuple [env_fallback; PList [fallback]] ]> argument)
          else Ret argument);
       n ← py_len (default (PList []) (option !! "required"));
       let argument :=
         if Nat.eqb n (length STATES)
         then <[ "required" := PBool true ]> argument
         else argument in
       Ret (<[ option_name := argument ]> arguments))
    OPTIONS ∅.

(** ** A reference interpreter and scripted SDKs

    Concrete instances on which the functions above can be run: the
    reference interpreter knows [str()] on scalars and the conversions
    [%d], [%s] and [%%] of the [%] operator; a scripted SDK answers each
    call from a table. *)

Definition percent : Ascii.ascii := Ascii.ascii_of_nat 37.

Definition ref_str (v : pyval) : string :=
  match v with
  | PNone => "None"
  | PBool true => "True"
  | PBool false => "False"
  | PInt z => pretty z
  | PStr s => s
  | _ => "<" +:+ type_name v +:+ ">"
  end.

(** Formats [fmt] with the single argument [arg] ([None] once it has been
    consumed); returns the text and what is left of the argument. *)
Fixpoint ref_format (fmt : string) (arg : option pyval) : exn + (string * option pyval) :=
  match fmt with
  | EmptyString => inr (EmptyString, arg)
  | String c rest =>
      if Ascii.eqb c percent then
        match rest with
        | EmptyString => inl (ValueError "incomplete format")
        | String k rest' =>
            if Ascii.eqb k percent then
              match ref_format rest' arg with
              | inr (out, arg') => inr (String percent out, arg')
              | inl e => inl e
              end
            else if Ascii.eqb k (Ascii.ascii_of_nat 100) || Ascii.eqb k (Ascii.ascii_of_nat 115)
            then
              match arg with
              | None => inl (TypeError "not enough arguments for format string")
              | Some v =>
                  if Ascii.eqb k (Ascii.ascii_of_nat 100)
                     && negb (match v with PInt _ | PBool _ => true | _ => false end)
                  then inl (TypeError "%d format: a real number is required")
                  else
                    match ref_format rest' None with
                    | inr (out, arg') =>
                        inr (match v with
                             | PBool b =>
                                 if Ascii.eqb k (Ascii.ascii_of_nat 100)
                                 then pretty (Z.b2z b) else ref_str v
                             | _ => ref_str v
                             end +:+ out, arg')
                    | inl e => inl e
                    end
              end
            else inl (ValueError "unsupported format character")
        end
      else
        match ref_format rest arg with
        | inr (out, arg') => inr (String c out, arg')
        | inl e => inl e
        end
  end.

Definition ref_str_mod (fmt : string) (v : pyval) : exn + string :=
  match ref_format fmt (Some v) with
  | inr (out, None) => inr out
  | inr (_, Some _) =>
      inl (TypeError "not all arguments converted during string formatting")
  | inl e => inl e
  end.

(** [\w] on ASCII *)
Definition ref_re_w (c : Ascii.ascii) : bool :=
  let n := Ascii.nat_of_ascii c in
  (Nat.leb 48 n && Nat.leb n 57) || (Nat.leb 65 n && Nat.leb n 90)
  || Nat.eqb n 95 || (Nat.leb 97 n && Nat.leb n 122).

Definition ref_python : Python :=
  {| py_str := ref_str; str_mod := ref_str_mod; set_to_list := fun l => l;
     re_w := ref_re_w |}.

(** [to_dict] of a model: its attributes, models among them converted. *)
Fixpoint ref_to_dict_value (v : pyval) : pyval :=
  match v with
  | PObj _ attrs => PDict (map (fun kv => (kv.1, ref_to_dict_value kv.2)) attrs)
  | PList l => PList (map ref_to_dict_value l)
  | _ => v
  end.

Definition ref_to_dict (v : pyval) : exn + pyval :=
  match v with
  | PObj _ _ => inr (ref_to_dict_value v)
  | _ => inl (AttributeError (type_name v) "to_dict")
  end.

(** An SDK that answers each call from [answers], whatever came before. *)
Definition scripted_sdk (answers : sdk_call -> exn + pyval) : VendorSdk :=
  {| api := fun _ c => answers c; to_dict := ref_to_dict |}.

(** A resource with an id and a name, and a collection of resources. *)
Definition a_resource (cls id name : string) : pyval :=
  PObj cls [("id", PStr id); ("properties", PObj (cls +:+ "Properties") [("name", PStr name)])].

Definition a_collection (id : string) (items : list pyval) : pyval :=
  PObj "Collection" [("id", PStr id); ("items", PList items)].

Definition a_module (check : bool) (entries : list (string * pyval)) : AnsibleModule :=
  {| params := list_to_map entries; check_mode := check |}.

(** A small account: the datacenter "Tardis One" with the volume "vol01";
    deleting answers nothing, every other request is refused. *)
Definition tardis (c : sdk_call) : exn + pyval :=
  match c with
  | datacenters_get _ =>
      inr (a_collection "datacenters" [a_resource "Datacenter" "dc-1" "Tardis One"])
  | datacenters_volumes_get _ _ =>
      inr (a_collection "volumes" [a_resource "Volume" "v-1" "vol01"])
  | datacenters_volumes_delete _ _ => inr PNone
  | _ => inl (Exn "ApiException" "(422) Unprocessable Entity")
  end.

(** An SDK whose every request is refused, and one whose every request is
    accepted with a [Location] header that names no request. *)
Definition refusing (c : sdk_call) : exn + pyval :=
  inl (Exn "ApiException" "(422) Unprocessable Entity").

Definition without_request_id (c : sdk_call) : exn + pyval :=
  inr (PTuple [a_resource "Volume" "v-9" "data"; PInt 202;
               PDict [("Location", PStr "https://api.ionos.com/cloudapi/v6/status")]]).

Definition credentials : list (string * pyval) :=
  [("token", PStr "jwt"); ("datacenter", PStr "Tardis One");
   ("wait", PBool true); ("wait_timeout", PInt 600)].

(** An account that accepts every request: a request for a volume is
    answered with a response whose [Location] header names the request
    "abc-123". *)
Definition accepting (c : sdk_call) : exn + pyval :=
  match c with
  | datacenters_volumes_post_with_http_info _ _
  | datacenters_volumes_put_with_http_info _ _ _ =>
      inr (PTuple [a_resource "Volume" "v-2" "vol02"; PInt 202;
                   PDict [("Location",
                           PStr "https://api.ionos.com/cloudapi/v6/requests/abc-123/status")]])
  | datacenters_volumes_find_by_id _ _ _ => inr (a_resource "Volume" "v-1" "vol01")
  | datacenters_servers_get _ _ =>
      inr (a_collection "servers" [a_resource "Server" "s-1" "web"])
  | datacenters_servers_volumes_post _ _ volume => inr volume
  | wait_for_completion _ _ => inr PNone
  | _ => tardis c
  end.

(** Parameters that name a datacenter the account does not have. *)
Definition unknown_datacenter : list (string * pyval) :=
  [("token", PStr "jwt"); ("datacenter", PStr "Gallifrey"); ("name", PStr "data");
   ("instance_ids", PList [PStr "vol01"])].

(** Two clusters of a Postgres account. *)
Definition two_clusters : pyval :=
  a_collection "clusters"
    [PObj "ClusterResponse"
       [("id", PStr "c-1");
        ("properties", PObj "ClusterProperties" [("display_name", PStr "orders")])];
     PObj "ClusterResponse"
       [("id", PStr "c-2");
        ("properties", PObj "ClusterProperties" [("display_name", PStr "billing")])]].

(** Three of the [OPTIONS] of [volume.py]. *)
Definition three_options : list (string * gmap string pyval) :=
  [ ("datacenter",
     list_to_map
       [("description", PList [PStr "The datacenter in which to create the volumes."]);
        ("available", PList [PStr "present"; PStr "absent"; PStr "update"]);
        ("required", PList [PStr "present"; PStr "absent"; PStr "update"]);
        ("type", PStr "str")]);
    ("name",
     list_to_map
       [("description",
         PList [PStr "The name of the volumes. Names are enumerated if count > 1."]);
        ("required", PList [PStr "present"]);
        ("available", PList [PStr "present"; PStr "absent"; PStr "update"]);
        ("type", PStr "str")]);
    ("token",
     list_to_map
       [("description",
         PList [PStr "The Ionos token. Overrides the IONOS_TOKEN environment variable."]);
        ("available", PList [PStr "present"; PStr "absent"; PStr "update"]);
        ("no_log", PBool true);
        ("env_fallback", PStr "IONOS_TOKEN");
        ("type", PStr "str")]) ].

(** ** What is assumed of the interpreter *)

(** The format holds no [%]. *)
Fixpoint no_percent (s : string) : bool :=
  match s with
  | EmptyString => true
  | String c s' => negb (Ascii.eqb c percent) && no_percent s'
  end.

(** Three facts about the built-ins: formatting a value with a format that
    has no conversion fails with "not all arguments converted", a trailing
    [%d] appends the decimal digits of an integer, and listing a set yields
    its elements, each once, in some order. *)
Class PythonLaws {py : Python} : Prop := {
  str_mod_no_conversion (s : string) (v : pyval) :
    no_percent s = true ->
    str_mod s v = inl (TypeError "not all arguments converted during string formatting");
  str_mod_trailing_d (s : string) (n : Z) :
    no_percent s = true ->
    str_mod (s +:+ "%d") (PInt n) = inr (s +:+ pretty n);
  set_to_list_permutation (l : list Z) :
    NoDup l -> Permutation (set_to_list l) l;
}.

(** ** Fields of a resource *)

(** The resource has the field at [path] and it is the string [identity]. *)
Definition field_is (path : list string) (identity : string) (resource : pyval) : bool :=
  match getattr_path resource path with
  | Ret (PStr s) => String.eqb identity s
  | _ => false
  end.

(** The resource has an [id] and a [properties.name]. *)
Definition has_id_and_name (resource : pyval) : Prop :=
  is_Ret (getattr_path resource ["id"]) /\ is_Ret (getattr_path resource ["properties"; "name"]).

(** ** Reading a trace *)

(** The arguments of the [wait_for_completion] calls of a trace. *)
Definition waits (t : trace) : list (pyval * pyval) :=
  omap (fun ev : event =>
          match ev.1 with
          | wait_for_completion request_id timeout => Some (request_id, timeout)
          | _ => None
          end) t.

(** The request id that [_create_volume] and [_update_volume] read from the
    [Location] header of a response. *)
Definition location_request_id (response : pyval) : outcome string :=
  '(_, headers) ← volume.unpack3 response;
  location ← volume.getitem headers "Location";
  volume._get_request_id location.

(** The [wait_for_completion] calls that the first call of a run calls
    for: none unless that call returned a response, [wait] is true and the
    [Location] header of the response holds a request id; otherwise one,
    for that request id and with the timeout [wait_timeout]. *)
Definition expected_waits (module : AnsibleModule) (made : trace) : list (pyval * pyval) :=
  match made with
  | (_, inr response) :: _ =>
      if truthy (params_get module "wait") then
        match location_request_id response with
        | Ret request_id => [(PStr request_id, params_get module "wait_timeout")]
        | _ => []
        end
      else []
  | _ => []
  end.

(** Kinds of SDK calls. *)
Definition is_create (c : sdk_call) : bool :=
  match c with datacenters_volumes_post_with_http_info _ _ => true | _ => false end.
Definition is_update (c : sdk_call) : bool :=
  match c with datacenters_volumes_put_with_http_info _ _ _ => true | _ => false end.
Definition is_delete (c : sdk_call) : bool :=
  match c with datacenters_volumes_delete _ _ => true | _ => false end.

(** The first call of a trace, if any, is of the kind [kind]. *)
Definition starts_with (kind : sdk_call -> bool) (made : trace) : Prop :=
  match made with
  | ev :: _ => kind ev.1 = true
  | [] => True
  end.

(** The number of calls of a kind in a trace. *)
Definition count_calls (kind : sdk_call -> bool) (made : trace) : nat :=
  length (List.filter (fun ev : event => kind ev.1) made).

(** The call returned. *)
Definition returned (ev : event) : Prop :=
  match ev.2 with inr _ => True | inl _ => False end.

(** Every call of the trace returned. *)
Definition clean (made : trace) : Prop := Forall returned made.

(** [text] occurs in [msg]. *)
Definition contains (text msg : string) : Prop :=
  exists before after, msg = before +:+ text +:+ after.

(** The outcome carries the exception [e]: it is [e] itself on its way up,
    or a failure of the module whose message contains the text of [e]. *)
Definition reports {A : Type} (e : exn) (o : outcome A) : Prop :=
  match o with
  | Raise e' => e' = e
  | Exit (FailJson msg) => contains (to_native e) msg
  | _ => False
  end.

(** No call raised, or the last one did, no other, and the outcome carries
    its exception. *)
Definition sound {A : Type} (o : outcome A) (made : trace) : Prop :=
  clean made
  \/ exists before c e, made = before ++ [(c, inl e)] /\ clean before /\ reports e o.

(** [m] is sound after every history. *)
Definition sound_m {sdk : VendorSdk} {A : Type} (m : M A) : Prop :=
  forall history, sound (run m history).1 (run m history).2.

(** No exception leaves [m]. *)
Definition never_raises {sdk : VendorSdk} {A : Type} (m : M A) : Prop :=
  forall history e, (run m history).1 <> Raise e.

(** The outcome of a [main]: no exception, and every exception raised by an
    SDK call is in the message of a failure of the module. *)
Definition reports_sdk_exceptions (run_of_main : outcome unit * trace) : Prop :=
  (forall e, run_of_main.1 <> Raise e)
  /\ forall c e, (c, inl e) ∈ run_of_main.2 ->
       exists msg, run_of_main.1 = Exit (FailJson msg) /\ contains (to_native e) msg.

(** ** How a run may end, and how many operations it makes *)

(** A computation without SDK calls leaves the module only by failing. *)
Definition fails_only {A : Type} (o : outcome A) : Prop :=
  forall kwargs, o <> Exit (ExitJson kwargs).

(** The module leaves from inside an operation only by failing or, in
    check mode, with [changed=True] alone. *)
Definition guarded_exit (module : AnsibleModule) (x : exit_call) : Prop :=
  match x with
  | FailJson _ => True
  | ExitJson kwargs => check_mode module = true /\ kwargs = {[ "changed" := PBool true ]}
  end.

(** The outcome is a value that satisfies [R], an exception, or an exit that
    satisfies [E]. *)
Definition ends {A : Type} (E : exit_call -> Prop) (R : A -> Prop) (o : outcome A) : Prop :=
  match o with
  | Ret a => R a
  | Raise _ => True
  | Exit x => E x
  end.

Definition ends_m {sdk : VendorSdk} {A : Type} (E : exit_call -> Prop) (R : A -> Prop)
    (m : M A) : Prop :=
  forall history, ends E R (run m history).1.

(** The result of an operation: a dict with [changed] and with [action]
    naming the operation. *)
Definition operation_result (action : string) (result : gmap string pyval) : Prop :=
  (exists b, result !! "changed" = Some (PBool b))
  /\ result !! "action" = Some (PStr action).

(** The action that [main] performs for a state. *)
Definition action_name (state : pyval) : string :=
  if py_eq state (PStr "absent") then "delete"
  else if py_eq state (PStr "present") then "create"
  else "update".

(** How [volume.main] may end: by failing, in check mode with
    [changed=True] alone, or with the result of the operation. *)
Definition volume_exit (module : AnsibleModule) (x : exit_call) : Prop :=
  match x with
  | FailJson _ => True
  | ExitJson kwargs =>
      (check_mode module = true /\ kwargs = {[ "changed" := PBool true ]})
      \/ operation_result (action_name (params_get module "state")) kwargs
  end.

Definition anything {A : Type} (_ : A) : Prop := True.

(** How [postgres_backup_info.main] may end: by failing, or with [result]
    the list of the [to_dict()] of the backups that the last SDK call
    returned. *)
Definition backups_result {sdk : VendorSdk} (run_of_main : outcome unit * trace) : Prop :=
  match run_of_main.1 with
  | Exit (FailJson _) => True
  | Exit (ExitJson kwargs) =>
      exists c response items backups results,
        last run_of_main.2 = Some (c, inr response)
        /\ (c = clusters_backups_get \/ exists id, c = cluster_backups_get id)
        /\ getattr response "items" = Ret items
        /\ py_iter items = Ret backups
        /\ for_append (fun cluster => of_result (to_dict cluster)) backups = Ret results
        /\ kwargs = {[ "result" := PList results ]}
  | _ => False
  end.

(** A create, update or delete request for a volume. *)
Definition is_operation (c : sdk_call) : bool := is_create c || is_update c || is_delete c.

(** [m] makes at most [n] operations. *)
Definition at_most {sdk : VendorSdk} {A : Type} (n : nat) (m : M A) : Prop :=
  forall history, count_calls is_operation (run m history).2 <= n.

(** The number of elements that a loop over [v] visits. *)
Definition entries (v : pyval) : nat :=
  match py_iter v with Ret l => length l | _ => 0 end.

(** The number of targets of an invocation: the names of the volumes to
    create, or the entries of [instance_ids] to update or delete. *)
Definition targets {py : Python} (module : AnsibleModule) : nat :=
  if py_eq (params_get module "state") (PStr "present") then
    match volume.create_volume_names module (params_get module "name")
            (params_get module "count") with
    | Ret names => length names
    | _ => 0
    end
  else entries (params_get module "instance_ids").

(** What a delete request deletes, and the name of the volume that a create
    request creates. *)
Definition deleted (ev : event) : option (pyval * pyval) :=
  match ev.1 with
  | datacenters_volumes_delete datacenter_id volume_id => Some (datacenter_id, volume_id)
  | _ => None
  end.

Definition created (ev : event) : option (outcome pyval) :=
  match ev.1 with
  | datacenters_volumes_post_with_http_info _ volume =>
      Some (getattr_path volume ["properties"; "name"])
  | _ => None
  end.

(** The deletions that the entries of [instance_ids] call for, in order:
    one for each entry that resolves to a volume of the list. *)
Definition deletions_for {py : Python} (module : AnsibleModule)
    (datacenter_id volumes : pyval) (instances : list pyval) : list (pyval * pyval) :=
  instances ≫= fun n =>
    match get_resource_id module volumes n None with
    | Ret volume_id => if is_none volume_id then [] else [(datacenter_id, volume_id)]
    | _ => []
    end.

(** The creations that the names call for, in order: one for each name that
    resolves to no volume of the list. *)
Definition creations_for {py : Python} (module : AnsibleModule)
    (volume_list : pyval) (names : list pyval) : list (outcome pyval) :=
  names ≫= fun name =>
    match get_resource_id module volume_list name None with
    | Ret existing_volume_id => if is_none existing_volume_id then [Ret name] else []
    | _ => []
    end.

(** ** Strings *)

(** Every character of [s] is in the class [f]. *)
Fixpoint all_chars (f : Ascii.ascii -> bool) (s : string) : bool :=
  match s with
  | EmptyString => true
  | String c s' => f c && all_chars f s'
  end.

(** [text] occurs in [msg], decided. *)
Fixpoint occurs (text msg : string) : bool :=
  match strip_prefix text msg with
  | Some _ => true
  | None => match msg with EmptyString => false | String _ msg' => occurs text msg' end
  end.

(** [a] is a group of [n] characters of the class [w]. *)
Definition is_group (w : Ascii.ascii -> bool) (n : nat) (a : string) : Prop :=
  String.length a = n /\ all_chars w a = true.

(** ** Resources and their identities *)

(** An SDK model, and its attribute [el] if it has one. *)
Definition is_model (v : pyval) : bool :=
  match v with PObj _ _ => true | _ => false end.

Definition attr (o : pyval) (el : string) : option pyval :=
  match o with PObj _ attrs => assoc el attrs | _ => None end.

(** The items of a list of resources. *)
Definition items_of (resource_list : pyval) : outcome (list pyval) :=
  items ← getattr resource_list "items"; py_iter items.

(** The resource has every field of the identity paths. *)
Definition has_fields (identity_paths : list (list string)) (resource : pyval) : Prop :=
  Forall (fun path => is_Ret (getattr_path resource path)) identity_paths.

(** One of the fields of the resource equals the identity. *)
Definition matches (identity : pyval) (identity_paths : list (list string))
    (resource : pyval) : bool :=
  existsb (fun path =>
             match getattr_path resource path with
             | Ret v => py_eq identity v
             | _ => false
             end) identity_paths.

(** No resource of the list has a model as [id] or as [properties.name]:
    the identities are the strings of the API. *)
Definition plain_identities (resource_list : pyval) : Prop :=
  forall items r path v,
    items_of resource_list = Ret items -> r ∈ items ->
    path ∈ default_identity_paths -> getattr_path r path = Ret v -> is_model v = false.

(** ** Parameters and calls of an invocation *)

(** [module.params] holds a token, or a username and a password. *)
Definition has_credentials (module : AnsibleModule) : bool :=
  truthy (params_get module "token")
  || (truthy (params_get module "username") && truthy (params_get module "password")).

(** How the calls of [volume.main] begin: with the list of the datacenters
    and then, if it returned, with the list of the volumes of the datacenter
    that the parameter [datacenter] resolves to in it; nothing follows a
    list of volumes that did not return. *)
Definition lists_first {py : Python} (module : AnsibleModule) (made : trace) : Prop :=
  match made with
  | [] => True
  | [(c, _)] => exists depth, c = datacenters_get depth
  | (c1, r1) :: (c2, r2) :: rest =>
      exists depth datacenter_list datacenter_id,
        c1 = datacenters_get depth /\ r1 = inr datacenter_list
        /\ get_resource_id module datacenter_list (params_get module "datacenter") None
           = Ret datacenter_id
        /\ c2 = datacenters_volumes_get datacenter_id 1
        /\ (rest <> [] -> exists volume_list, r2 = inr volume_list)
  end.

(** The calls of [postgres_backup_info.main]: none, or the list of all
    backups when no cluster is named; with a cluster, the list of the
    clusters and then the backups of the cluster that [postgres_cluster]
    resolves to. *)
Definition backups_calls {py : Python} (module : AnsibleModule) (made : trace) : Prop :=
  made = []
  \/ if truthy (params_get module "postgres_cluster") then
       (exists r, made = [(clusters_get, r)])
       \/ exists clusters postgres_cluster_id r,
            made = [(clusters_get, inr clusters);
                    (cluster_backups_get postgres_cluster_id, r)]
            /\ get_resource_id module clusters (params_get module "postgres_cluster")
                 (Some [["id"]; ["properties"; "display_name"]]) = Ret postgres_cluster_id
     else exists r, made = [(clusters_backups_get, r)].

(** ** The argument specification of an option *)

(** The keys of an option that the argument specification copies. *)
Definition copied_keys : list string :=
  ["choices"; "default"; "aliases"; "no_log"; "elements"].

(** What the argument specification keeps of an option: its type; the
    copied keys that are not [None]; [fallback] for an [env_fallback];
    [required] when the option is required in as many states as there are;
    nothing else. *)
Definition argument_of (STATES : list string) (option argument : gmap string pyval) : Prop :=
  argument !! "type" = option !! "type"
  /\ (forall key, key ∈ copied_keys ->
        argument !! key = (v ← option !! key; if is_none v then None else Some v))
  /\ argument !! "fallback"
     = (v ← option !! "env_fallback";
        if truthy v then Some (PTuple [env_fallback; PList [v]]) else None)
  /\ argument !! "required"
     = match py_len (default (PList []) (option !! "required")) with
       | Ret n => if Nat.eqb n (length STATES) then Some (PBool true) else None
       | _ => None
       end
  /\ forall key, is_Some (argument !! key) ->
       key ∈ "type" :: "fallback" :: "required" :: copied_keys.

(** ** A logic of runs *)

(** [post m history Q]: run after [history], [m] ends with an outcome and
    with calls that satisfy [Q]. *)
Definition post {A : Type} (m : M A) (history : trace)
    (Q : outcome A -> trace -> Prop) : Prop :=
  Q (run m history).1 (run m history).2.

(** * Properties *)

(** ** Running computations *)

Lemma run_ret {A : Type} (a : A) history : run (mret a) history = (Ret a, []).
Proof. reflexivity. Qed.

Lemma run_lift {A : Type} (o : outcome A) history : run (lift o) history = (o, []).
Proof. reflexivity. Qed.

Lemma run_bind {A B : Type} (m : M A) (f : A -> M B) history :
  run (m ≫= f) history =
    match (run m history).1 with
    | Ret a =>
        ((run (f a) (history ++ (run m history).2)).1,
         (run m history).2 ++ (run (f a) (history ++ (run m history).2)).2)
    | Raise e => (Raise e, (run m history).2)
    | Exit x => (Exit x, (run m history).2)
    end.
Proof.
  unfold mbind, M_mbind, M_bind. cbn [run].
  destruct (run m history) as [[a|e|x] made]; cbn [fst snd]; try reflexivity.
  destruct (run (f a) (history ++ made)); reflexivity.
Qed.

Lemma run_bind_exit {A B : Type} (m : M A) (f : A -> M B) history x made :
  run m history = (Exit x, made) -> run (m ≫= f) history = (Exit x, made).
Proof. intros Hm. rewrite run_bind, Hm. reflexivity. Qed.

Lemma run_try_except {A : Type} (body : M A) (handler : exn -> M A) history :
  run (try_except body handler) history =
    match (run body history).1 with
    | Raise e =>
        ((run (handler e) (history ++ (run body history).2)).1,
         (run body history).2 ++ (run (handler e) (history ++ (run body history).2)).2)
    | o => (o, (run body history).2)
    end.
Proof.
  unfold try_except. cbn [run].
  destruct (run body history) as [[a|e|x] made]; cbn [fst snd]; try reflexivity.
  destruct (run (handler e) (history ++ made)); reflexivity.
Qed.

Section logic.
Context {sdk : VendorSdk}.

Lemma post_ret {A : Type} (a : A) history (Q : outcome A -> trace -> Prop) :
  Q (Ret a) [] -> post (mret a) history Q.
Proof. exact id. Qed.

Lemma post_lift {A : Type} (o : outcome A) history (Q : outcome A -> trace -> Prop) :
  Q o [] -> post (lift o) history Q.
Proof. exact id. Qed.

Lemma post_call (c : sdk_call) history (Q : outcome pyval -> trace -> Prop) :
  (forall r, Q (of_result r) [(c, r)]) -> post (call c) history Q.
Proof. intros HQ. apply HQ. Qed.

Lemma post_bind {A B : Type} (m : M A) (f : A -> M B) history
    (Q : outcome B -> trace -> Prop) :
  post m history (fun o made =>
    match o with
    | Ret a => post (f a) (history ++ made) (fun o' made' => Q o' (made ++ made'))
    | Raise e => Q (Raise e) made
    | Exit x => Q (Exit x) made
    end) ->
  post (m ≫= f) history Q.
Proof.
  unfold post. rewrite run_bind. destruct (run m history).1; exact id.
Qed.

Lemma post_try_except {A : Type} (body : M A) (handler : exn -> M A) history
    (Q : outcome A -> trace -> Prop) :
  post body history (fun o made =>
    match o with
    | Raise e => post (handler e) (history ++ made) (fun o' made' => Q o' (made ++ made'))
    | _ => Q o made
    end) ->
  post (try_except body handler) history Q.
Proof.
  unfold post. rewrite run_try_except. destruct (run body history).1; exact id.
Qed.

Lemma post_mono {A : Type} (m : M A) history (Q Q' : outcome A -> trace -> Prop) :
  post m history Q -> (forall o made, Q o made -> Q' o made) -> post m history Q'.
Proof. unfold post. auto. Qed.

End logic.

(** One step of symbolic execution, and the case analysis that the next
    step waits for. *)
Ltac step :=
  first [ apply post_bind | apply post_try_except
        | apply post_call; intros [?|?]; cbn [of_result]
        | apply post_lift | apply post_ret ].

Ltac run_case :=
  match goal with
  | |- match ?o with _ => _ end => destruct o eqn:?
  | |- post (if ?b then _ else _) _ _ => destruct b eqn:?
  | |- post (match ?o with _ => _ end) _ _ => destruct o eqn:?
  | |- post ((if ?b then _ else _) ≫= _) _ _ => destruct b eqn:?
  end.

Ltac run_all := repeat first [step | run_case].

(** ** Comparing with a string *)

Lemma py_eq_str (s : string) (v : pyval) : py_eq (PStr s) v = true <-> v = PStr s.
Proof.
  destruct v; cbn; try (split; [discriminate | discriminate]).
  rewrite String.eqb_eq. split; [intros ->; reflexivity | intros [= ->]; reflexivity].
Qed.

(** ** Resource identity resolution *)

Lemma field_is_py_eq path identity resource v :
  getattr_path resource path = Ret v ->
  py_eq (PStr identity) v = field_is path identity resource.
Proof.
  intros Hv. unfold field_is. rewrite Hv. destruct v; reflexivity.
Qed.

Lemma check_identity_default identity resource :
  has_id_and_name resource ->
  check_identity_method (PStr identity) default_identity_paths resource =
    Ret (field_is ["id"] identity resource || field_is ["properties"; "name"] identity resource).
Proof.
  intros [Hid Hname]. unfold check_identity_method, default_identity_paths.
  destruct (getattr_path resource ["id"]) as [i| |] eqn:Ei; try contradiction.
  destruct (getattr_path resource ["properties"; "name"]) as [n| |] eqn:En; try contradiction.
  cbn [for_append]. rewrite Ei, En. unfold py_in. cbn -[py_eq].
  rewrite (field_is_py_eq _ _ _ _ Ei), (field_is_py_eq _ _ _ _ En).
  rewrite orb_false_r. reflexivity.
Qed.

Lemma py_filter_default identity items :
  Forall has_id_and_name items ->
  py_filter (check_identity_method (PStr identity) default_identity_paths) items =
    Ret (List.filter
           (fun r => field_is ["id"] identity r || field_is ["properties"; "name"] identity r)
           items).
Proof.
  induction 1 as [|r rs Hr _ IH]; [reflexivity|].
  cbn [py_filter List.filter]. rewrite (check_identity_default _ _ Hr), IH.
  cbn [mbind outcome_mbind outcome_bind].
  destruct (field_is ["id"] identity r || field_is ["properties"; "name"] identity r);
    reflexivity.
Qed.

(** C3: with the default identity paths, the matched resources are the
    resources of the list whose [id] is the identity or whose
    [properties.name] is the identity, in the order of the list. *)
Theorem matched_resources_default_paths (resource_list : pyval) (items : list pyval)
    (identity : string) :
  getattr resource_list "items" = Ret (PList items) ->
  Forall has_id_and_name items ->
  _get_matched_resources resource_list (PStr identity) None =
    Ret (List.filter
           (fun r => field_is ["id"] identity r || field_is ["properties"; "name"] identity r)
           items).
Proof.
  intros Hitems Hfields. unfold _get_matched_resources. rewrite Hitems.
  cbn [mbind outcome_mbind outcome_bind py_iter default].
  apply py_filter_default, Hfields.
Qed.

Lemma matched_resources_default_paths_witness :
  _get_matched_resources
    (a_collection "volumes"
       [a_resource "Volume" "v-1" "data"; a_resource "Volume" "v-2" "logs";
        a_resource "Volume" "data" "spare"])
    (PStr "data") None =
  Ret [a_resource "Volume" "v-1" "data"; a_resource "Volume" "data" "spare"].
Proof.
  apply (matched_resources_default_paths _
           [a_resource "Volume" "v-1" "data"; a_resource "Volume" "v-2" "logs";
            a_resource "Volume" "data" "spare"] "data").
  - reflexivity.
  - repeat constructor.
Defined.

(** C1: when more than one resource matches the identity, [get_resource]
    returns no resource: it fails the module, with a message that names the
    type of the list and the identity. *)
Theorem get_resource_ambiguous_fails {py : Python} (module : AnsibleModule)
    (resource_list identity : pyval) (identity_paths : option (list (list string)))
    (matched : list pyval) :
  _get_matched_resources resource_list identity identity_paths = Ret matched ->
  1 < length matched ->
  (forall r, get_resource module resource_list identity identity_paths <> Ret r)
  /\ (forall type, getattr resource_list "id" = Ret type ->
        get_resource module resource_list identity identity_paths =
          Exit (FailJson ("found more resources of type " +:+ py_str type
                          +:+ " for '" +:+ py_str identity +:+ "'"))).
Proof.
  intros Hm Hlen. unfold get_resource. rewrite Hm.
  cbn [mbind outcome_mbind outcome_bind].
  destruct matched as [|a [|b rest]]; cbn in Hlen; try lia.
  cbn [length Nat.eqb Nat.ltb Nat.leb]. split.
  - intros r. destruct (getattr resource_list "id"); discriminate.
  - intros type ->. reflexivity.
Qed.

Lemma get_resource_ambiguous_fails_witness :
  get_resource (py := ref_python) (a_module false [])
    (a_collection "volumes"
       [a_resource "Volume" "v-1" "data"; a_resource "Volume" "v-2" "data"])
    (PStr "data") None =
  Exit (FailJson "found more resources of type volumes for 'data'").
Proof.
  refine (proj2 (get_resource_ambiguous_fails (py := ref_python) (a_module false [])
                   (a_collection "volumes"
                      [a_resource "Volume" "v-1" "data"; a_resource "Volume" "v-2" "data"])
                   (PStr "data") None
                   [a_resource "Volume" "v-1" "data"; a_resource "Volume" "v-2" "data"]
                   eq_refl _) (PStr "volumes") eq_refl).
  cbn. lia.
Defined.

(** C2, as the code has it: when no resource matches the identity,
    [get_resource] and [get_resource_id] return [None] and do not fail; what
    a missing resource means is left to the caller. *)
Theorem get_resource_no_match_returns_none {py : Python} (module : AnsibleModule)
    (resource_list identity : pyval) (identity_paths : option (list (list string))) :
  _get_matched_resources resource_list identity identity_paths = Ret [] ->
  get_resource module resource_list identity identity_paths = Ret PNone
  /\ get_resource_id module resource_list identity identity_paths = Ret PNone.
Proof.
  intros Hm. assert (get_resource module resource_list identity identity_paths = Ret PNone) as Hr.
  { unfold get_resource. rewrite Hm. reflexivity. }
  split; [exact Hr|]. unfold get_resource_id. rewrite Hr. reflexivity.
Qed.

Lemma get_resource_no_match_returns_none_witness :
  get_resource (py := ref_python) (a_module false [])
    (a_collection "volumes" [a_resource "Volume" "v-1" "data"]) (PStr "logs") None
    = Ret PNone
  /\ get_resource_id (py := ref_python) (a_module false [])
       (a_collection "volumes" [a_resource "Volume" "v-1" "data"]) (PStr "logs") None
     = Ret PNone.
Proof.
  apply (get_resource_no_match_returns_none (py := ref_python)). reflexivity.
Defined.

(** C2 as stated does not hold: with no match, neither function fails. *)
Lemma get_resource_no_match_does_not_fail :
  let volumes := a_collection "volumes" [a_resource "Volume" "v-1" "data"] in
  _get_matched_resources volumes (PStr "logs") None = Ret []
  /\ ~ (exists msg, get_resource (py := ref_python) (a_module false []) volumes
                      (PStr "logs") None = Exit (FailJson msg))
  /\ ~ (exists msg, get_resource_id (py := ref_python) (a_module false []) volumes
                      (PStr "logs") None = Exit (FailJson msg)).
Proof.
  cbn zeta. split; [reflexivity|]. split; intros [msg Hmsg]; discriminate Hmsg.
Qed.

(** ** SDK configuration *)

(** C8: [get_sdk_config] gives the token precedence.  With a token, the
    configuration holds the token and neither username nor password; without
    one it holds the username and the password and no token; in both cases
    an [api_url] becomes the host. *)
Theorem get_sdk_config_token_precedence (module : AnsibleModule) :
  let 'sdk_Configuration conf := get_sdk_config module in
  (params_get module "token" <> PNone ->
     conf !! "token" = Some (params_get module "token")
     /\ conf !! "username" = None /\ conf !! "password" = None)
  /\ (params_get module "token" = PNone ->
        conf !! "username" = Some (params_get module "username")
        /\ conf !! "password" = Some (params_get module "password")
        /\ conf !! "token" = None)
  /\ (params_get module "api_url" <> PNone ->
        conf !! "host" = Some (params_get module "api_url"))
  /\ (params_get module "api_url" = PNone -> conf !! "host" = None).
Proof.
  unfold get_sdk_config.
  destruct (params_get module "token") eqn:Et, (params_get module "api_url") eqn:Eu;
    cbn [is_none negb];
    (split; [intros Ht | split; [intros Ht | split; intros Hu]]);
    try congruence; try (exfalso; congruence);
    repeat split; by simplify_map_eq.
Qed.

Lemma get_sdk_config_token_precedence_witness :
  let 'sdk_Configuration conf :=
    get_sdk_config
      (a_module false [("token", PStr "jwt"); ("username", PStr "ada");
                       ("password", PStr "secret"); ("api_url", PStr "https://api.test")]) in
  conf !! "token" = Some (PStr "jwt")
  /\ conf !! "username" = None /\ conf !! "password" = None
  /\ conf !! "host" = Some (PStr "https://api.test").
Proof.
  pose proof (get_sdk_config_token_precedence
    (a_module false [("token", PStr "jwt"); ("username", PStr "ada");
                     ("password", PStr "secret"); ("api_url", PStr "https://api.test")]))
    as Hc.
  destruct (get_sdk_config _) as [conf].
  destruct Hc as (Htoken & _ & Hhost & _).
  destruct (Htoken ltac:(vm_compute; discriminate)) as (? & ? & ?).
  repeat split; try assumption. apply Hhost. vm_compute. discriminate.
Defined.

(** ** Guards of [update_volume] *)

(** C10: [update_volume] fails before any SDK call (datacenter or volume
    lookup, update) when a name is given together with more than one
    instance id, and when no name is given and [instance_ids] is not a
    non-empty list. *)
Theorem update_volume_rejects_instance_ids {py : Python} {sdk : VendorSdk}
    (module : AnsibleModule) (history : trace) :
  (params_get module "name" <> PNone ->
   forall ids, params_get module "instance_ids" = PList ids -> 1 < length ids ->
   run (volume.update_volume module) history =
     (Exit (FailJson "when renaming, instance_ids can only have one id at most"), []))
  /\ (params_get module "name" = PNone ->
      (forall id ids, params_get module "instance_ids" <> PList (id :: ids)) ->
      run (volume.update_volume module) history =
        (Exit (FailJson "instance_ids should be a list of volume ids or names, aborting"),
         [])).
Proof.
  split.
  - intros Hname ids Hids Hlen. unfold volume.update_volume.
    apply run_bind_exit. rewrite Hids.
    destruct (params_get module "name"); try congruence;
      destruct ids as [|id1 [|id2 ids]]; cbn in Hlen; try lia; reflexivity.
  - intros Hname Hids. unfold volume.update_volume.
    apply run_bind_exit. rewrite Hname.
    destruct (params_get module "instance_ids") as [| | | |[|id ids]| | |];
      try reflexivity.
    exfalso. exact (Hids id ids eq_refl).
Qed.

Lemma update_volume_rejects_instance_ids_witness :
  run (volume.update_volume (py := ref_python) (sdk := scripted_sdk (fun _ => inr PNone))
         (a_module false [("name", PStr "renamed");
                          ("instance_ids", PList [PStr "v-1"; PStr "v-2"])])) [] =
    (Exit (FailJson "when renaming, instance_ids can only have one id at most"), [])
  /\ run (volume.update_volume (py := ref_python) (sdk := scripted_sdk (fun _ => inr PNone))
            (a_module false [("instance_ids", PList [])])) [] =
       (Exit (FailJson "instance_ids should be a list of volume ids or names, aborting"),
        []).
Proof.
  split.
  - apply (proj1 (update_volume_rejects_instance_ids
                    (py := ref_python) (sdk := scripted_sdk (fun _ => inr PNone))
                    (a_module false [("name", PStr "renamed");
                                     ("instance_ids", PList [PStr "v-1"; PStr "v-2"])]) []))
      with (ids := [PStr "v-1"; PStr "v-2"]).
    + vm_compute. discriminate.
    + reflexivity.
    + cbn. lia.
  - apply (proj2 (update_volume_rejects_instance_ids
                    (py := ref_python) (sdk := scripted_sdk (fun _ => inr PNone))
                    (a_module false [("instance_ids", PList [])]) [])).
    + reflexivity.
    + intros id ids. vm_compute. discriminate.
Defined.

(** ** Names of the volumes to create *)

Lemma xrange_from_1 (count : Z) :
  volume.xrange 1 (1 + count + Z.of_nat 0) = Z.of_nat <$> seq 1 (Z.to_nat count).
Proof.
  unfold volume.xrange. replace (1 + count + Z.of_nat 0 - 1)%Z with count by lia.
  rewrite <- seq_shift, <- list_fmap_compose. apply list_fmap_ext.
  intros _ i _. cbn. lia.
Qed.

Lemma list_difference_nil_r (l : list Z) : list_difference l [] = l.
Proof.
  induction l as [|x l IH]; [reflexivity|]. cbn.
  destruct (decide_rel _ _ _) as [Hin|_]; [inversion Hin | by rewrite IH].
Qed.

Lemma for_append_trailing_d {py : Python} {laws : PythonLaws} (s : string) (numbers : list Z) :
  no_percent s = true ->
  for_append (fun number => PStr <$> of_result (str_mod (s +:+ "%d") (PInt number))) numbers
    = Ret ((fun i => PStr (s +:+ pretty i)) <$> numbers).
Proof.
  intros Hs. induction numbers as [|n numbers IH]; [reflexivity|].
  cbn [for_append]. rewrite (str_mod_trailing_d _ _ Hs), IH. reflexivity.
Qed.


(** The reference interpreter satisfies the three facts. *)

Lemma string_app_empty_r (s : string) : s +:+ "" = s.
Proof.
  induction s as [|c s IH]; [reflexivity|].
  change (String c (s +:+ "") = String c s). by rewrite IH.
Qed.

Lemma ref_format_no_percent (s : string) (arg : option pyval) :
  no_percent s = true -> ref_format s arg = inr (s, arg).
Proof.
  induction s as [|c s IH]; [reflexivity|]. cbn [no_percent ref_format].
  intros [Hc Hs]%andb_prop. apply negb_true_iff in Hc. rewrite Hc, (IH Hs). reflexivity.
Qed.

Lemma ref_format_trailing_d (s : string) (n : Z) :
  no_percent s = true ->
  ref_format (s +:+ "%d") (Some (PInt n)) = inr (s +:+ pretty n, None).
Proof.
  induction s as [|c s IH].
  - intros _.
    change (@inr exn (string * option pyval) (pretty n +:+ "", None) = inr (pretty n, None)).
    by rewrite string_app_empty_r.
  - cbn [no_percent]. intros [Hc Hs]%andb_prop. apply negb_true_iff in Hc.
    change (String c s +:+ "%d") with (String c (s +:+ "%d")).
    cbn [ref_format]. rewrite Hc, (IH Hs). reflexivity.
Qed.

Lemma ref_python_laws : PythonLaws (py := ref_python).
Proof.
  split.
  - intros s v Hs. cbn. unfold ref_str_mod. by rewrite (ref_format_no_percent _ _ Hs).
  - intros s n Hs. cbn. unfold ref_str_mod. by rewrite (ref_format_trailing_d _ _ Hs).
  - intros l _. reflexivity.
Qed.


(** ** Waiting for completion *)

Ltac rewrite_outcomes :=
  repeat match goal with
         | H : volume.unpack3 _ = _ |- _ => rewrite H
         | H : volume.getitem _ _ = _ |- _ => rewrite H
         | H : volume._get_request_id _ = _ |- _ => rewrite H
         | H : truthy _ = _ |- _ => rewrite H
         end.

Ltac solve_waits :=
  cbn [app run lift fst snd]; unfold expected_waits, location_request_id, waits;
  repeat first
    [ progress cbn [omap list_omap fst snd mbind outcome_mbind outcome_bind]
    | progress rewrite_outcomes ];
  first [ reflexivity
        | match goal with |- context [truthy ?v] => destruct (truthy v) end; reflexivity ].

Lemma _create_volume_waits {py : Python} {sdk : VendorSdk} module datacenter name history :
  post (volume._create_volume module datacenter name) history
    (fun _ made => starts_with is_create made /\ waits made = expected_waits module made).
Proof.
  unfold volume._create_volume. destruct (check_mode module); [by step|].
  do 3 step. match goal with |- match ?o with _ => _ end => destruct o end;
    [|by run_all ..].
  run_all; (split; [by cbn|solve_waits]).
Qed.

Lemma _update_volume_waits {py : Python} {sdk : VendorSdk} module datacenter volume history :
  post (volume._update_volume module datacenter volume) history
    (fun _ made => starts_with is_update made /\ waits made = expected_waits module made).
Proof.
  unfold volume._update_volume. destruct (check_mode module); [by step|].
  do 3 step. match goal with |- match ?o with _ => _ end => destruct o end;
    [|by run_all ..].
  run_all; (split; [by cbn|solve_waits]).
Qed.



(** ** Soundness of the traces: exceptions of the SDK *)

Lemma clean_app (t1 t2 : trace) : clean t1 -> clean t2 -> clean (t1 ++ t2).
Proof. apply Forall_app_2. Qed.

Lemma contains_suffix (prefix text : string) : contains text (prefix +:+ text).
Proof.
  exists prefix, "". induction prefix as [|c prefix IH].
  - change (text = "" +:+ text +:+ ""). by rewrite string_app_empty_r.
  - change (String c (prefix +:+ text) = String c (prefix +:+ text +:+ "")).
    by rewrite <- IH.
Qed.

Lemma contains_app_r (prefix text msg : string) :
  contains text msg -> contains text (prefix +:+ msg).
Proof.
  intros (before & after & ->). exists (prefix +:+ before), after.
  induction prefix as [|c prefix IH]; [reflexivity|].
  change (String c (prefix +:+ before +:+ text +:+ after)
          = String c ((prefix +:+ before) +:+ text +:+ after)).
  by rewrite IH.
Qed.

Ltac solve_contains :=
  repeat first [ apply contains_suffix | apply contains_app_r ].

Lemma sound_clean {A : Type} (o : outcome A) made : clean made -> sound o made.
Proof. by left. Qed.

(** The calls made before are prepended to a sound run. *)
Lemma sound_app {A : Type} (o : outcome A) made made' :
  clean made -> sound o made' -> sound o (made ++ made').
Proof.
  intros Hmade [Hclean | (before & c & e & -> & Hbefore & Hreports)].
  - left. by apply clean_app.
  - right. exists (made ++ before), c, e. rewrite app_assoc.
    split; [reflexivity|]. split; [by apply clean_app | exact Hreports].
Qed.

(** A sound run that returned made only calls that returned. *)
Lemma sound_Ret {A : Type} (a : A) made : sound (Ret a) made -> clean made.
Proof. intros [Hclean | (? & ? & ? & _ & _ & [])]. exact Hclean. Qed.

Section soundness.
Context {sdk : VendorSdk}.

Lemma sound_ret {A : Type} (a : A) : sound_m (mret a).
Proof. intros history. left. constructor. Qed.

Lemma sound_lift {A : Type} (o : outcome A) : sound_m (lift o).
Proof. intros history. left. constructor. Qed.

Lemma sound_call (c : sdk_call) : sound_m (call c).
Proof.
  intros history. cbn. destruct (api history c) as [e|v].
  - right. exists [], c, e. split; [reflexivity|]. split; [constructor | reflexivity].
  - left. repeat constructor.
Qed.

Lemma sound_bind {A B : Type} (m : M A) (f : A -> M B) :
  sound_m m -> (forall a, sound_m (f a)) -> sound_m (m ≫= f).
Proof.
  intros Hm Hf history. rewrite run_bind. specialize (Hm history).
  destruct (run m history) as [[a|e|x] made]; cbn [fst snd] in *.
  - apply sound_app; [by eapply sound_Ret | apply Hf].
  - exact Hm.
  - exact Hm.
Qed.

(** A handler that fails the module with a message ending in the text of
    the exception keeps the run sound. *)
Lemma sound_try_except {A : Type} (body : M A) (msg : exn -> string) :
  (forall e, contains (to_native e) (msg e)) ->
  sound_m body ->
  sound_m (try_except body (fun e => lift (fail_json (msg e)))).
Proof.
  intros Hmsg Hbody history. rewrite run_try_except. specialize (Hbody history).
  destruct (run body history) as [[a|e|x] made]; cbn [fst snd run lift] in *;
    try exact Hbody.
  rewrite app_nil_r.
  destruct Hbody as [Hclean | (before & c & e' & -> & Hbefore & Hreports)].
  - by left.
  - right. exists before, c, e'. split; [reflexivity|]. split; [exact Hbefore|].
    cbn in Hreports. subst e'. apply Hmsg.
Qed.

Lemma sound_for_each {X S : Type} (body : X -> S -> M S) (xs : list X) (s : S) :
  (forall x s', sound_m (body x s')) -> sound_m (for_each body xs s).
Proof.
  intros Hbody. revert s. induction xs as [|x xs IH]; intros s; cbn [for_each].
  - apply sound_ret.
  - apply sound_bind; [apply Hbody | intros s'; apply IH].
Qed.

End soundness.

Ltac sound_step :=
  first
    [ apply sound_ret | apply sound_lift | apply sound_call
    | apply sound_try_except; [intros ?; solve_contains|]
    | apply sound_for_each; intros ? ?
    | apply sound_bind; [|intros ?]
    | match goal with
      | |- sound_m (if ?b then _ else _) => destruct b
      | |- sound_m (let '(_, _) := ?p in _) => destruct p
      | |- sound_m (match ?o with _ => _ end) => destruct o
      end ].

Section sound_modules.
Context {py : Python} {sdk : VendorSdk}.

Lemma sound__create_volume module datacenter name :
  sound_m (volume._create_volume module datacenter name).
Proof. unfold volume._create_volume. repeat sound_step. Qed.

Lemma sound__update_volume module datacenter volume :
  sound_m (volume._update_volume module datacenter volume).
Proof. unfold volume._update_volume. repeat sound_step. Qed.

Lemma sound__delete_volume module datacenter volume :
  sound_m (volume._delete_volume module datacenter volume).
Proof. unfold volume._delete_volume. repeat sound_step. Qed.

Lemma sound__attach_volume module datacenter volume_id :
  sound_m (volume._attach_volume module datacenter volume_id).
Proof. unfold volume._attach_volume. repeat sound_step. Qed.

Lemma sound_create_volume module : sound_m (volume.create_volume module).
Proof.
  unfold volume.create_volume.
  repeat first [ apply sound__create_volume | apply sound__attach_volume | sound_step ].
Qed.

Lemma sound_update_volume module : sound_m (volume.update_volume module).
Proof.
  unfold volume.update_volume.
  repeat first [ apply sound__update_volume | sound_step ].
Qed.

Lemma sound_delete_volume module : sound_m (volume.delete_volume module).
Proof.
  unfold volume.delete_volume.
  repeat first [ apply sound__delete_volume | sound_step ].
Qed.

Lemma sound_volume_main HAS_SDK module : sound_m (volume.main HAS_SDK module).
Proof.
  unfold volume.main.
  repeat first [ apply sound_create_volume | apply sound_update_volume
               | apply sound_delete_volume | sound_step ].
Qed.

Lemma sound_postgres_main HAS_SDK module : sound_m (postgres_backup_info.main HAS_SDK module).
Proof. unfold postgres_backup_info.main. repeat sound_step. Qed.

End sound_modules.

(** ** No exception leaves [main] *)

Section never_raises.
Context {py : Python} {sdk : VendorSdk}.

Lemma never_raises_lift {A : Type} (o : outcome A) :
  (forall e, o <> Raise e) -> never_raises (lift o).
Proof. intros Ho history e. apply Ho. Qed.

Lemma never_raises_bind {A B : Type} (m : M A) (f : A -> M B) :
  never_raises m -> (forall a, never_raises (f a)) -> never_raises (m ≫= f).
Proof.
  intros Hm Hf history e. rewrite run_bind. specialize (Hm history).
  destruct (run m history) as [[a|e'|x] made]; cbn [fst snd] in *.
  - apply Hf.
  - destruct (Hm e' eq_refl).
  - discriminate.
Qed.

Lemma never_raises_try_except {A : Type} (body : M A) (msg : exn -> string) :
  never_raises (try_except body (fun e => lift (fail_json (msg e)))).
Proof.
  intros history e. rewrite run_try_except.
  destruct (run body history) as [[a|e'|x] made]; discriminate.
Qed.

Lemma for_append_no_raise {A B : Type} (f : A -> outcome B) (xs : list A) :
  (forall x e, f x <> Raise e) -> forall e, for_append f xs <> Raise e.
Proof.
  intros Hf. induction xs as [|x xs IH]; intros e; [discriminate|].
  cbn [for_append]. specialize (Hf x). destruct (f x) as [b|e'|ex]; cbn.
  - specialize (IH e). destruct (for_append f xs); [discriminate | | discriminate].
    intros [= ->]. by apply IH.
  - destruct (Hf e' eq_refl).
  - discriminate.
Qed.

Lemma bind_no_raise {A B : Type} (o : outcome A) (f : A -> outcome B) :
  (forall e, o <> Raise e) -> (forall a e, f a <> Raise e) ->
  forall e, o ≫= f <> Raise e.
Proof.
  intros Ho Hf e. destruct o as [a|e'|x]; cbn.
  - apply Hf.
  - destruct (Ho e' eq_refl).
  - discriminate.
Qed.

Lemma volume_check_required_arguments_no_raise module state object_name e :
  volume.check_required_arguments module state object_name <> Raise e.
Proof.
  unfold volume.check_required_arguments.
  apply bind_no_raise; [intros e'; destruct (_ && _); discriminate|].
  intros _. apply bind_no_raise; [|discriminate].
  apply for_append_no_raise.
  intros [option_name required] e'. destruct (_ && _); discriminate.
Qed.

Lemma postgres_check_required_arguments_no_raise module object_name e :
  postgres_backup_info.check_required_arguments module object_name <> Raise e.
Proof.
  unfold postgres_backup_info.check_required_arguments.
  apply bind_no_raise; [intros e'; destruct (_ && _); discriminate|].
  intros _. apply bind_no_raise; [|discriminate].
  apply for_append_no_raise.
  intros [option_name required] e'. destruct (_ && _); discriminate.
Qed.

Lemma volume_main_never_raises HAS_SDK module :
  never_raises (volume.main HAS_SDK module).
Proof.
  unfold volume.main.
  apply never_raises_bind; [destruct (negb HAS_SDK); by apply never_raises_lift|].
  intros _. apply never_raises_bind.
  - apply never_raises_lift, volume_check_required_arguments_no_raise.
  - intros _. apply never_raises_try_except.
Qed.

Lemma postgres_main_never_raises HAS_SDK module :
  never_raises (postgres_backup_info.main HAS_SDK module).
Proof.
  unfold postgres_backup_info.main.
  apply never_raises_bind; [destruct (negb HAS_SDK); by apply never_raises_lift|].
  intros _. apply never_raises_bind.
  - apply never_raises_lift, postgres_check_required_arguments_no_raise.
  - intros _. apply never_raises_try_except.
Qed.

End never_raises.

(** In a sound trace a call that raised is the last one. *)
Lemma sound_failed_last {A : Type} (o : outcome A) made before c e after :
  sound o made -> made = before ++ (c, inl e) :: after ->
  after = [] /\ clean before /\ reports e o.
Proof.
  intros [Hclean | (before' & c' & e' & Hmade & Hbefore & Hreports)] ->.
  - apply Forall_app in Hclean as [_ Hclean]. inversion Hclean as [|? ? Hr]. destruct Hr.
  - destruct after as [|ev after _] using rev_ind.
    + apply app_inj_tail in Hmade as [-> [= -> ->]]. done.
    + rewrite app_comm_cons, app_assoc in Hmade.
      apply app_inj_tail in Hmade as [<- _].
      apply Forall_app in Hbefore as [_ Hbefore]. inversion Hbefore as [|? ? Hr]. destruct Hr.
Qed.

Lemma sound_reports {A : Type} (o : outcome A) made c e :
  sound o made -> (c, inl e) ∈ made -> reports e o.
Proof.
  intros Hsound (before & after & Hmade)%list_elem_of_split.
  by destruct (sound_failed_last _ _ _ _ _ _ Hsound Hmade) as (_ & _ & ?).
Qed.

Lemma sound_reports_sdk_exceptions (o : outcome unit) (made : trace) :
  sound o made -> (forall e, o <> Raise e) -> reports_sdk_exceptions (o, made).
Proof.
  intros Hsound Hraise. split; [exact Hraise|]. intros c e Hin. cbn [fst snd] in *.
  pose proof (sound_reports _ _ _ _ Hsound Hin) as Hreports.
  destruct o as [[]|e'|[kwargs|msg]]; cbn in Hreports; try done.
  - destruct (Hraise e' eq_refl).
  - by exists msg.
Qed.

(** C4: whatever the SDK does, no exception leaves [main], and when an SDK
    call raises, the module fails with a message that contains the text of
    the exception. *)
Theorem sdk_exceptions_are_reported {py : Python} {sdk : VendorSdk}
    (HAS_SDK : bool) (module : AnsibleModule) (history : trace) :
  reports_sdk_exceptions (run (volume.main HAS_SDK module) history)
  /\ reports_sdk_exceptions (run (postgres_backup_info.main HAS_SDK module) history).
Proof.
  split.
  - pose proof (sound_volume_main HAS_SDK module history) as Hsound.
    pose proof (volume_main_never_raises HAS_SDK module history) as Hraise.
    destruct (run _ _) as [o made]. by apply sound_reports_sdk_exceptions.
  - pose proof (sound_postgres_main HAS_SDK module history) as Hsound.
    pose proof (postgres_main_never_raises HAS_SDK module history) as Hraise.
    destruct (run _ _) as [o made]. by apply sound_reports_sdk_exceptions.
Qed.

(** ** How the modules exit *)

Lemma fails_only_bind {A B : Type} (o : outcome A) (f : A -> outcome B) :
  fails_only o -> (forall a, fails_only (f a)) -> fails_only (o ≫= f).
Proof.
  intros Ho Hf kwargs. destruct o as [a|e|x]; cbn; [apply Hf | discriminate |].
  intros [= ->]. by apply (Ho kwargs).
Qed.

Lemma fails_only_fmap {A B : Type} (o : outcome A) (f : A -> B) :
  fails_only o -> fails_only (f <$> o).
Proof. intros Ho kwargs. destruct o as [a|e|x]; cbn; [discriminate..|]. intros [= ->]. by apply (Ho kwargs). Qed.

Lemma fails_only_for_append {A B : Type} (f : A -> outcome B) (xs : list A) :
  (forall x, fails_only (f x)) -> fails_only (for_append f xs).
Proof.
  intros Hf. induction xs as [|x xs IH]; [discriminate|]. cbn [for_append].
  apply fails_only_bind; [apply Hf|]. intros y.
  apply fails_only_bind; [apply IH|]. discriminate.
Qed.

Lemma fails_only_py_filter {A : Type} (f : A -> outcome bool) (xs : list A) :
  (forall x, fails_only (f x)) -> fails_only (py_filter f xs).
Proof.
  intros Hf. induction xs as [|x xs IH]; [discriminate|]. cbn [py_filter].
  apply fails_only_bind; [apply Hf|]. intros keep.
  apply fails_only_bind; [apply IH|]. discriminate.
Qed.

Lemma fails_only_getattr o el : fails_only (getattr o el).
Proof. intros kwargs. unfold getattr. destruct o; try discriminate. destruct (assoc _ _); discriminate. Qed.

Lemma fails_only_getattr_path o path : fails_only (getattr_path o path).
Proof.
  revert o. induction path as [|el path IH]; intros o; [discriminate|].
  cbn [getattr_path]. apply fails_only_bind; [apply fails_only_getattr | apply IH].
Qed.

Lemma fails_only_py_iter v : fails_only (py_iter v).
Proof. destruct v; discriminate. Qed.

Lemma fails_only_of_result {A : Type} (r : exn + A) : fails_only (of_result r).
Proof. destruct r; discriminate. Qed.

Ltac fails_only_step :=
  first
    [ apply fails_only_getattr | apply fails_only_getattr_path | apply fails_only_py_iter
    | apply fails_only_of_result
    | apply fails_only_for_append; intros ?
    | apply fails_only_py_filter; intros ?
    | apply fails_only_fmap
    | apply fails_only_bind; [|intros ?]
    | match goal with
      | |- fails_only (if ?b then _ else _) => destruct b
      | |- fails_only (let '(_, _) := ?p in _) => destruct p
      | |- fails_only (match ?o with _ => _ end) => destruct o
      end
    | discriminate ].

Lemma fails_only__get_matched_resources resource_list identity identity_paths :
  fails_only (_get_matched_resources resource_list identity identity_paths).
Proof. unfold _get_matched_resources, check_identity_method. repeat fails_only_step. Qed.

Section exits.
Context {py : Python}.

Lemma fails_only_get_resource module resource_list identity identity_paths :
  fails_only (get_resource module resource_list identity identity_paths).
Proof.
  unfold get_resource.
  repeat first [ apply fails_only__get_matched_resources | fails_only_step ].
Qed.

Lemma fails_only_get_resource_id module resource_list identity identity_paths :
  fails_only (get_resource_id module resource_list identity identity_paths).
Proof.
  unfold get_resource_id. repeat first [ apply fails_only_get_resource | fails_only_step ].
Qed.

Lemma fails_only_py_mod_0 name : fails_only (volume.py_mod_0 name).
Proof. unfold volume.py_mod_0. repeat fails_only_step. Qed.

Lemma fails_only_create_volume_names module name count :
  fails_only (volume.create_volume_names module name count).
Proof.
  unfold volume.create_volume_names.
  apply fails_only_bind; [unfold volume.py_gt_1; repeat fails_only_step|].
  intros [|]; [|discriminate].
  apply fails_only_bind; [|intros ?; repeat fails_only_step].
  pose proof (fails_only_py_mod_0 name) as Hmod.
  destruct (volume.py_mod_0 name) as [v|e|x]; [repeat fails_only_step..|].
  intros kwargs [= ->]. by apply (Hmod kwargs).
Qed.

Lemma fails_only_volume_check_required_arguments module state object_name :
  fails_only (volume.check_required_arguments module state object_name).
Proof. unfold volume.check_required_arguments. repeat fails_only_step. Qed.

Lemma fails_only_postgres_check_required_arguments module object_name :
  fails_only (postgres_backup_info.check_required_arguments module object_name).
Proof. unfold postgres_backup_info.check_required_arguments. repeat fails_only_step. Qed.

End exits.

Section ends.
Context {sdk : VendorSdk}.

Lemma ends_mono {A : Type} (E E' : exit_call -> Prop) (R R' : A -> Prop) (m : M A) :
  (forall x, E x -> E' x) -> (forall a, R a -> R' a) -> ends_m E R m -> ends_m E' R' m.
Proof.
  intros HE HR Hm history. specialize (Hm history).
  destruct (run m history).1; cbn in *; auto.
Qed.

Lemma ends_ret {A : Type} E (R : A -> Prop) (a : A) : R a -> ends_m E R (mret a).
Proof. intros Ha history. exact Ha. Qed.

Lemma ends_lift {A : Type} E (R : A -> Prop) (o : outcome A) :
  ends E R o -> ends_m E R (lift o).
Proof. intros Ho history. exact Ho. Qed.

Lemma ends_lift_fails_only {A : Type} E (o : outcome A) :
  (forall msg, E (FailJson msg)) -> fails_only o -> ends_m E anything (lift o).
Proof.
  intros HE Ho history. cbn. destruct o as [a|e|[kwargs|msg]]; cbn; try done.
  by destruct (Ho kwargs).
Qed.

Lemma ends_call E (c : sdk_call) : ends_m E anything (call c).
Proof. intros history. cbn. by destruct (api history c). Qed.

Lemma ends_bind {A B : Type} E (R1 : A -> Prop) (R : B -> Prop) (m : M A) (f : A -> M B) :
  ends_m E R1 m -> (forall a, R1 a -> ends_m E R (f a)) -> ends_m E R (m ≫= f).
Proof.
  intros Hm Hf history. rewrite run_bind. specialize (Hm history).
  destruct (run m history) as [[a|e|x] made]; cbn [fst snd] in *; try done.
  by apply Hf.
Qed.

Lemma ends_try_except {A : Type} E (R : A -> Prop) (body : M A) (msg : exn -> string) :
  (forall text, E (FailJson text)) -> ends_m E R body ->
  ends_m E R (try_except body (fun e => lift (fail_json (msg e)))).
Proof.
  intros HE Hbody history. rewrite run_try_except. specialize (Hbody history).
  destruct (run body history) as [[a|e|x] made]; cbn [fst snd run lift] in *; try done.
  apply HE.
Qed.

Lemma ends_for_each {X S : Type} E (body : X -> S -> M S) (xs : list X) (s : S) :
  (forall x s', ends_m E anything (body x s')) -> ends_m E anything (for_each body xs s).
Proof.
  intros Hbody. revert s. induction xs as [|x xs IH]; intros s; cbn [for_each].
  - by apply ends_ret.
  - eapply ends_bind; [apply Hbody | intros s' _; apply IH].
Qed.

End ends.

Ltac ends_step :=
  first
    [ apply ends_ret; exact I
    | apply ends_call
    | apply ends_lift_fails_only;
        [ intros ?; exact I
        | first [ apply fails_only_get_resource | apply fails_only_get_resource_id
                | apply fails_only_create_volume_names
                | apply fails_only_volume_check_required_arguments
                | apply fails_only_postgres_check_required_arguments
                | solve [repeat fails_only_step] ] ]
    | apply ends_try_except; [intros ?; exact I|]
    | apply ends_for_each; intros ? ?
    | eapply ends_bind with (R1 := anything); [|intros ? _]
    | match goal with
      | |- ends_m _ _ (if ?b then _ else _) => destruct b eqn:?
      | |- ends_m _ _ (let '(_, _) := ?p in _) => destruct p
      | |- ends_m _ _ (match ?o with _ => _ end) => destruct o
      end ].

Section ends_volume.
Context {py : Python} {sdk : VendorSdk}.

Lemma ends__create_volume module datacenter name :
  ends_m (guarded_exit module) anything (volume._create_volume module datacenter name).
Proof.
  unfold volume._create_volume. destruct (check_mode module) eqn:Hcheck.
  - by apply ends_lift.
  - unfold volume.unpack3, volume.getitem, volume._get_request_id. repeat ends_step.
Qed.

Lemma ends__update_volume module datacenter volume :
  ends_m (guarded_exit module) anything (volume._update_volume module datacenter volume).
Proof.
  unfold volume._update_volume. destruct (check_mode module) eqn:Hcheck.
  - by apply ends_lift.
  - unfold volume.unpack3, volume.getitem, volume._get_request_id. repeat ends_step.
Qed.

Lemma ends__delete_volume module datacenter volume :
  ends_m (guarded_exit module) anything (volume._delete_volume module datacenter volume).
Proof.
  unfold volume._delete_volume. destruct (check_mode module) eqn:Hcheck.
  - by apply ends_lift.
  - repeat ends_step.
Qed.

Lemma ends__attach_volume module datacenter volume_id :
  ends_m (guarded_exit module) anything (volume._attach_volume module datacenter volume_id).
Proof. unfold volume._attach_volume. repeat ends_step. Qed.

Lemma ends_lift_fail {A : Type} E (R : A -> Prop) msg :
  E (FailJson msg) -> ends_m E R (lift (fail_json msg)).
Proof. intros HE history. exact HE. Qed.

Lemma ends_create_volume module :
  ends_m (guarded_exit module) (operation_result "create") (volume.create_volume module).
Proof.
  unfold volume.create_volume.
  do 6 (eapply ends_bind with (R1 := anything);
        [repeat first [ apply ends__create_volume | apply ends__attach_volume | ends_step ]
        |intros ? _]).
  match goal with |- ends_m _ _ (let '(_, _) := ?p in _) => destruct p as [[? ?] changed] end.
  eapply ends_bind with (R1 := anything); [repeat ends_step | intros dicts _].
  apply ends_ret. split; [exists changed|]; by simplify_map_eq.
Qed.

Lemma ends_update_volume module :
  ends_m (guarded_exit module) (operation_result "update") (volume.update_volume module).
Proof.
  unfold volume.update_volume.
  do 8 (eapply ends_bind with (R1 := anything);
        [repeat first [ apply ends__update_volume | ends_step ] | intros ? _]).
  match goal with |- ends_m _ _ (let '(_, _) := ?p in _) => destruct p as [? changed] end.
  eapply ends_bind with (R1 := anything); [repeat ends_step | intros dicts _].
  apply ends_ret. split; [exists changed|]; by simplify_map_eq.
Qed.

Lemma ends_delete_volume module :
  ends_m (guarded_exit module) (operation_result "delete") (volume.delete_volume module).
Proof.
  unfold volume.delete_volume.
  do 6 (eapply ends_bind with (R1 := anything);
        [repeat first [ apply ends__delete_volume | ends_step ] | intros ? _]).
  match goal with |- ends_m _ _ (let '(_, _) := ?p in _) => destruct p as [changed ?] end.
  apply ends_ret. split; [exists changed|]; by simplify_map_eq.
Qed.

End ends_volume.

Lemma py_eq_str_r (v : pyval) (s : string) : py_eq v (PStr s) = true <-> v = PStr s.
Proof.
  destruct v; cbn; try (split; discriminate).
  rewrite String.eqb_eq. split; [intros ->; reflexivity | intros [= ->]; reflexivity].
Qed.

Section main_exits.
Context {py : Python} {sdk : VendorSdk}.

Lemma guarded_exit_volume_exit module x : guarded_exit module x -> volume_exit module x.
Proof. destruct x; cbn; [by left | done]. Qed.

Lemma ends_volume_main HAS_SDK module :
  params_get module "state" ∈ PStr <$> volume.STATES ->
  ends_m (volume_exit module) (fun _ => False) (volume.main HAS_SDK module).
Proof.
  intros Hstate. unfold volume.main.
  eapply ends_bind with (R1 := anything); [repeat ends_step | intros _ _].
  eapply ends_bind with (R1 := anything); [repeat ends_step | intros _ _].
  apply ends_try_except; [intros ?; exact I|].
  destruct (py_eq (params_get module "state") (PStr "absent")) eqn:Habsent;
    [|destruct (py_eq (params_get module "state") (PStr "present")) eqn:Hpresent;
      [|destruct (py_eq (params_get module "state") (PStr "update")) eqn:Hupdate]].
  - apply ends_bind with (R1 := operation_result "delete").
    { eapply ends_mono; [apply guarded_exit_volume_exit | | apply ends_delete_volume]; auto. }
    intros result Hresult. apply ends_lift. cbn. right.
    unfold action_name. rewrite ?Habsent, ?Hpresent. exact Hresult.
  - apply ends_bind with (R1 := operation_result "create").
    { eapply ends_mono; [apply guarded_exit_volume_exit | | apply ends_create_volume]; auto. }
    intros result Hresult. apply ends_lift. cbn. right.
    unfold action_name. rewrite ?Habsent, ?Hpresent. exact Hresult.
  - apply ends_bind with (R1 := operation_result "update").
    { eapply ends_mono; [apply guarded_exit_volume_exit | | apply ends_update_volume]; auto. }
    intros result Hresult. apply ends_lift. cbn. right.
    unfold action_name. rewrite ?Habsent, ?Hpresent. exact Hresult.
  - exfalso. unfold volume.STATES in Hstate. cbn in Hstate.
    rewrite !elem_of_cons, elem_of_nil in Hstate.
    destruct Hstate as [H|[H|[H|[]]]]; apply py_eq_str_r in H; congruence.
Qed.

End main_exits.

Ltac exit_leaf :=
  match goal with
  | H : ?o = Exit ?x |- backups_result (Exit ?x, _) =>
      let F := fresh in
      assert (fails_only o) as F
        by first [ apply fails_only_get_resource_id
                 | apply fails_only_postgres_check_required_arguments
                 | solve [repeat fails_only_step] ];
      destruct x as [kwargs|msg]; [destruct (F kwargs H) | exact I]
  end.

Lemma postgres_main_backups_result {py : Python} {sdk : VendorSdk} HAS_SDK module history :
  post (postgres_backup_info.main HAS_SDK module) history
    (fun o made => backups_result (o, made)).
Proof.
  unfold postgres_backup_info.main.
  pose proof (postgres_check_required_arguments_no_raise module
                postgres_backup_info.OBJECT_NAME) as Hraise.
  run_all; try discriminate; try exact I; try exit_leaf;
    try match goal with H : _ = Raise ?e |- _ => by destruct (Hraise e) end.
  all: match goal with H : exit_json _ = Exit _ |- _ => injection H as <- end.
  all: cbn; do 5 eexists; repeat split; eauto.
Qed.

(** ** Counting the operations *)

Lemma count_calls_app kind (t1 t2 : trace) :
  count_calls kind (t1 ++ t2) = count_calls kind t1 + count_calls kind t2.
Proof. unfold count_calls. by rewrite List.filter_app, length_app. Qed.

Section counting.
Context {sdk : VendorSdk}.

Lemma at_most_mono {A : Type} (n n' : nat) (m : M A) :
  n <= n' -> at_most n m -> at_most n' m.
Proof. intros Hn Hm history. specialize (Hm history). lia. Qed.

Lemma at_most_ret {A : Type} (a : A) n : at_most n (mret a).
Proof. intros history. cbn. lia. Qed.

Lemma at_most_lift {A : Type} (o : outcome A) n : at_most n (lift o).
Proof. intros history. cbn. lia. Qed.

Lemma at_most_call_other (c : sdk_call) n : is_operation c = false -> at_most n (call c).
Proof. intros Hc history. cbn. unfold count_calls. cbn. rewrite Hc. cbn. lia. Qed.

Lemma at_most_call (c : sdk_call) : at_most 1 (call c).
Proof. intros history. cbn. unfold count_calls. cbn. destruct (is_operation c); cbn; lia. Qed.

Lemma at_most_bind {A B : Type} (n1 n2 : nat) (m : M A) (f : A -> M B) :
  at_most n1 m -> (forall a, at_most n2 (f a)) -> at_most (n1 + n2) (m ≫= f).
Proof.
  intros Hm Hf history. rewrite run_bind. specialize (Hm history).
  destruct (run m history) as [[a|e|x] made]; cbn [fst snd] in *; try lia.
  rewrite count_calls_app. specialize (Hf a (history ++ made)). lia.
Qed.

(** The continuation is bounded for the values that the pure computation
    can return. *)
Lemma at_most_bind_lift {A B : Type} (n : nat) (o : outcome A) (f : A -> M B) :
  (forall a, o = Ret a -> at_most n (f a)) -> at_most n (lift o ≫= f).
Proof.
  intros Hf history. rewrite run_bind. cbn [run lift fst snd].
  destruct o as [a|e|x]; cbn; try lia.
  rewrite app_nil_r. apply (Hf a eq_refl).
Qed.

Lemma at_most_try_except {A : Type} (n : nat) (body : M A) (msg : exn -> string) :
  at_most n body -> at_most n (try_except body (fun e => lift (fail_json (msg e)))).
Proof.
  intros Hbody history. rewrite run_try_except. specialize (Hbody history).
  destruct (run body history) as [[a|e|x] made]; cbn [fst snd run lift] in *; try lia.
  by rewrite app_nil_r.
Qed.

Lemma at_most_for_each {X S : Type} (k : nat) (body : X -> S -> M S) (xs : list X) (s : S) :
  (forall x s', at_most k (body x s')) -> at_most (length xs * k) (for_each body xs s).
Proof.
  intros Hbody. revert s. induction xs as [|x xs IH]; intros s; cbn [for_each length].
  - apply at_most_ret.
  - apply (at_most_bind k (length xs * k)); [apply Hbody | intros s'; apply IH].
Qed.

End counting.

(** No operation at all: every step is a pure one or another kind of call.
    [known] closes the goals about computations already dealt with. *)
Ltac no_operation known :=
  repeat first
    [ known
    | apply at_most_ret | apply at_most_lift
    | apply at_most_call_other; reflexivity
    | apply at_most_try_except
    | apply (at_most_for_each 0); intros ? ?
    | apply (at_most_bind 0 0); [|intros ?]
    | match goal with
      | |- at_most _ (if ?b then _ else _) => destruct b
      | |- at_most _ (let '(_, _) := ?p in _) => destruct p
      | |- at_most _ (match ?o with _ => _ end) => destruct o
      end ].

(** At most [n] operations: in a sequence, either the first part makes
    none, or what follows it makes none. *)
Ltac operations known :=
  repeat first
    [ known
    | apply at_most_ret | apply at_most_lift | apply at_most_call
    | apply at_most_call_other; reflexivity
    | apply at_most_try_except
    | match goal with
      | |- at_most ?n (_ ≫= _) =>
          first [ apply (at_most_bind 0 n); [solve [no_operation known] | intros ?]
                | apply (at_most_mono (n + 0) n); [lia|];
                  apply (at_most_bind n 0); [|intros ?; solve [no_operation known]] ]
      | |- at_most _ (if ?b then _ else _) => destruct b
      | |- at_most _ (let '(_, _) := ?p in _) => destruct p
      | |- at_most _ (match ?o with _ => _ end) => destruct o
      end ].

Section counting_volume.
Context {py : Python} {sdk : VendorSdk}.

Lemma at_most__attach_volume module datacenter volume_id n :
  at_most n (volume._attach_volume module datacenter volume_id).
Proof.
  apply (at_most_mono 0); [lia|]. unfold volume._attach_volume. no_operation fail.
Qed.

Lemma at_most__create_volume module datacenter name :
  at_most 1 (volume._create_volume module datacenter name).
Proof. unfold volume._create_volume. operations fail. Qed.

Lemma at_most__update_volume module datacenter volume :
  at_most 1 (volume._update_volume module datacenter volume).
Proof. unfold volume._update_volume. operations fail. Qed.

Lemma at_most__delete_volume module datacenter volume :
  at_most 1 (volume._delete_volume module datacenter volume).
Proof. unfold volume._delete_volume. operations fail. Qed.

Ltac known_volume :=
  first [ apply at_most__attach_volume | apply at_most__create_volume
        | apply at_most__update_volume | apply at_most__delete_volume ].

Lemma for_append_length {A B : Type} (f : A -> outcome B) (xs : list A) (ys : list B) :
  for_append f xs = Ret ys -> length ys = length xs.
Proof.
  revert ys. induction xs as [|x xs IH]; intros ys; cbn [for_append].
  - by intros [= <-].
  - destruct (f x) as [y| |]; cbn; try discriminate.
    destruct (for_append f xs) as [ys'| |]; cbn; try discriminate.
    intros [= <-]. cbn. by rewrite (IH ys').
Qed.

Lemma at_most_create_volume module :
  at_most (match volume.create_volume_names module (params_get module "name")
                   (params_get module "count") with
           | Ret names => length names
           | _ => 0
           end)
          (volume.create_volume module).
Proof.
  unfold volume.create_volume.
  remember (match volume.create_volume_names _ _ _ with Ret _ => _ | _ => _ end)
    as bound eqn:Hbound.
  do 3 (apply (at_most_bind 0 _); [solve [no_operation fail] | intros ?]).
  apply at_most_bind_lift. intros names Hnames.
  rewrite Hnames in Hbound.
  apply (at_most_bind 0 _); [solve [no_operation fail] | intros volume_list].
  apply (at_most_mono (length names * 1 + 0)); [lia|].
  apply at_most_bind; [|intros ?; solve [no_operation fail]].
  apply at_most_for_each. intros name [[volumes instance_ids] changed].
  operations known_volume.
Qed.

Lemma at_most_update_volume module :
  at_most (entries (params_get module "instance_ids")) (volume.update_volume module).
Proof.
  unfold volume.update_volume. remember (entries _) as bound eqn:Hbound.
  do 5 (apply (at_most_bind 0 _); [solve [no_operation fail] | intros ?]).
  apply at_most_bind_lift. intros instances Hinstances.
  apply at_most_bind_lift. intros checked_instances Hchecked%for_append_length.
  unfold entries in Hbound. rewrite Hinstances, <- Hchecked in Hbound.
  apply (at_most_mono (length checked_instances * 1 + 0)); [lia|].
  apply at_most_bind; [|intros ?; solve [no_operation fail]].
  apply at_most_for_each. intros instance [updated_volumes changed].
  operations known_volume.
Qed.

Lemma at_most_delete_volume module :
  at_most (entries (params_get module "instance_ids")) (volume.delete_volume module).
Proof.
  unfold volume.delete_volume. remember (entries _) as bound eqn:Hbound.
  do 4 (apply (at_most_bind 0 _); [solve [no_operation fail] | intros ?]).
  apply at_most_bind_lift. intros instances Hinstances.
  unfold entries in Hbound. rewrite Hinstances in Hbound.
  apply (at_most_mono (length instances * 1 + 0)); [lia|].
  apply at_most_bind; [|intros ?; solve [no_operation fail]].
  apply at_most_for_each. intros n [changed volume_id].
  operations known_volume.
Qed.

Lemma at_most_volume_main HAS_SDK module :
  at_most (targets module) (volume.main HAS_SDK module).
Proof.
  unfold volume.main. remember (targets module) as bound eqn:Hbound.
  unfold targets in Hbound.
  do 2 (apply (at_most_bind 0 _); [solve [no_operation fail] | intros ?]).
  apply at_most_try_except.
  destruct (py_eq (params_get module "state") (PStr "absent")) eqn:Habsent.
  { apply py_eq_str_r in Habsent. rewrite Habsent in Hbound.
    change (py_eq (PStr "absent") (PStr "present")) with false in Hbound.
    apply (at_most_mono (bound + 0)); [lia|]. subst bound.
    apply at_most_bind; [apply at_most_delete_volume | intros ?; apply at_most_lift]. }
  destruct (py_eq (params_get module "state") (PStr "present")) eqn:Hpresent.
  { apply (at_most_mono (bound + 0)); [lia|]. subst bound.
    apply at_most_bind; [apply at_most_create_volume | intros ?; apply at_most_lift]. }
  destruct (py_eq (params_get module "state") (PStr "update")) eqn:Hupdate.
  { apply (at_most_mono (bound + 0)); [lia|]. subst bound.
    apply at_most_bind; [apply at_most_update_volume | intros ?; apply at_most_lift]. }
  apply at_most_ret.
Qed.

End counting_volume.

(** ** One request per target *)

Section requests.
Context {sdk : VendorSdk} {T : Type} (view : event -> option T).

(** A loop whose body makes, for [x], the requests [request x], or a prefix
    of them when it does not return, makes a prefix of the requests of its
    list. *)
Lemma for_each_requests {X S : Type} (request : X -> list T) (body : X -> S -> M S)
    (xs : list X) (s : S) history :
  (forall x s' h, post (body x s') h (fun o made =>
     omap view made `prefix_of` request x
     /\ (is_Ret o -> omap view made = request x))) ->
  post (for_each body xs s) history (fun _ made =>
    omap view made `prefix_of` (xs ≫= request)).
Proof.
  intros Hbody. revert s history.
  induction xs as [|x xs IH]; intros s history; cbn [for_each].
  { apply post_ret. apply prefix_nil. }
  change ((x :: xs) ≫= request) with (request x ++ (xs ≫= request)).
  apply post_bind. eapply post_mono; [apply Hbody|].
  intros o made [Hprefix Hret]. destruct o as [s'|e|ex].
  - eapply post_mono; [apply IH|]. intros o' made' Hmade'.
    rewrite omap_app, (Hret I). by apply prefix_app.
  - by apply prefix_app_r.
  - by apply prefix_app_r.
Qed.

End requests.

Section requests_volume.
Context {py : Python} {sdk : VendorSdk}.

Lemma _delete_volume_requests module datacenter_id volume_id history :
  post (volume._delete_volume module datacenter_id volume_id) history (fun o made =>
    omap deleted made `prefix_of` [(datacenter_id, volume_id)]
    /\ (is_Ret o -> omap deleted made = [(datacenter_id, volume_id)])).
Proof.
  unfold volume._delete_volume.
  run_all; try discriminate; cbn; (split; [|done]);
    first [apply prefix_nil | reflexivity].
Qed.

Lemma delete_volume_requests module history :
  post (volume.delete_volume module) history (fun _ made =>
    forall ev datacenter_id volumes rest instances,
      made = ev :: (datacenters_volumes_get datacenter_id 1, inr volumes) :: rest ->
      py_iter (params_get module "instance_ids") = Ret instances ->
      omap deleted made `prefix_of` deletions_for module datacenter_id volumes instances).
Proof.
  unfold volume.delete_volume.
  run_all; try discriminate; try (intros ? ? ? ? ? Heq ?; discriminate).
  match goal with
  | |- context [(datacenters_volumes_get ?datacenter_id 1, inr ?volumes)] =>
      eapply post_mono;
        [apply (for_each_requests deleted
                  (fun n => match get_resource_id module volumes n None with
                            | Ret volume_id =>
                                if is_none volume_id then [] else [(datacenter_id, volume_id)]
                            | _ => []
                            end))|]
  end.
  - intros n [changed id] h. do 2 step.
    destruct (get_resource_id module _ n None) as [v|e|x];
      [|split; [apply prefix_nil | intros []]..].
    destruct (is_none v); cbn [negb].
    + step. by split.
    + step. eapply post_mono; [apply _delete_volume_requests|].
      intros o made [Hprefix Hret]. destruct o as [[]|e|x]; [|by split..].
      step. rewrite app_nil_r. by split.
  - intros o made Hmade.
    destruct o as [[changed id]|e|x]; [step|..];
      intros ev dc volumes rest instances [= <- <- <- <-] [= <-];
      cbn [app omap list_omap deleted fst]; fold (omap (M := list) deleted);
      rewrite ?app_nil_r; exact Hmade.
Qed.

Lemma _attach_volume_requests module datacenter volume_id history :
  post (volume._attach_volume module datacenter volume_id) history (fun _ made =>
    omap created made = []).
Proof. unfold volume._attach_volume. run_all; reflexivity. Qed.

Lemma _create_volume_requests module datacenter name history :
  post (volume._create_volume module datacenter name) history (fun o made =>
    omap created made `prefix_of` [Ret name]
    /\ (is_Ret o -> omap created made = [Ret name])).
Proof.
  unfold volume._create_volume.
  destruct (truthy (params_get module "image"));
    [destruct (params_get module "image") as [| | |s| | | |];
     try destruct (uuid_match re_w s)|];
    run_all; try discriminate;
    repeat match goal with H : Ret _ = Ret _ |- _ => injection H as <- end;
    cbn; (split; [|done]); first [apply prefix_nil | reflexivity].
Qed.

Lemma create_volume_requests module history :
  post (volume.create_volume module) history (fun _ made =>
    forall ev datacenter_id volume_list rest names,
      made = ev :: (datacenters_volumes_get datacenter_id 1, inr volume_list) :: rest ->
      volume.create_volume_names module (params_get module "name")
        (params_get module "count") = Ret names ->
      omap created made `prefix_of` creations_for module volume_list names).
Proof.
  unfold volume.create_volume.
  run_all; try discriminate; try (intros ? ? ? ? ? Heq ?; discriminate).
  match goal with
  | |- context [(datacenters_volumes_get _ 1, inr ?volume_list)] =>
      eapply post_mono;
        [apply (for_each_requests created
                  (fun name => match get_resource_id module volume_list name None with
                               | Ret existing_volume_id =>
                                   if is_none existing_volume_id then [Ret name] else []
                               | _ => []
                               end))|]
  end.
  - intros name [[volumes instance_ids] changed] h. do 2 step.
    destruct (get_resource_id module _ name None) as [v|e|x];
      [|split; [apply prefix_nil | intros []]..].
    destruct (is_none v); cbn [negb].
    + step. eapply post_mono; [apply _create_volume_requests|].
      intros o made [Hprefix Hret]. destruct o as [create_response|e|x]; [|by split..].
      do 2 step. destruct (getattr create_response "id") as [id|e|x];
        [|rewrite app_nil_r; split; [exact Hprefix | intros []]..].
      step. eapply post_mono; [apply _attach_volume_requests|].
      intros o made' Hmade'.
      destruct o as [?|e|x]; [step|..]; cbn [app];
        rewrite ?app_nil_r, !omap_app, Hmade', (Hret I), ?app_nil_r; by split.
    + step. step; [by split|]. step.
      eapply post_mono; [apply _attach_volume_requests|]. intros o made' Hmade'.
      destruct o as [?|e|x]; [step|..]; cbn [app omap list_omap created fst];
        fold (omap (M := list) created); rewrite ?app_nil_r, Hmade'; by split.
  - intros o made Hmade.
    destruct o as [[[volumes instance_ids] changed]|e|x]; [run_all|..];
      intros ev dc volumes' rest names' [= <- <- <- <-] [= <-];
      cbn [app omap list_omap created fst]; fold (omap (M := list) created);
      rewrite ?app_nil_r; exact Hmade.
Qed.

End requests_volume.

(** ** The claims about whole invocations *)






(** The theorems above at work on the small account. *)

Lemma sdk_exceptions_are_reported_witness :
  let module := a_module false (("state", PStr "present") :: ("name", PStr "data")
                                :: ("count", PInt 1) :: credentials) in
  exists msg,
    (run (volume.main (py := ref_python) (sdk := scripted_sdk tardis) true module) []).1
      = Exit (FailJson msg)
    /\ contains "(422) Unprocessable Entity" msg.
Proof.
  cbv zeta.
  destruct (sdk_exceptions_are_reported (py := ref_python) (sdk := scripted_sdk tardis) true
              (a_module false (("state", PStr "present") :: ("name", PStr "data")
                               :: ("count", PInt 1) :: credentials)) [])
    as [[_ Hreported] _].
  apply (Hreported
           (datacenters_volumes_post_with_http_info (PStr "dc-1")
              (volume.Volume PNone
                 (volume.VolumeProperties
                    [("name", PStr "data"); ("type", PNone); ("size", PNone);
                     ("availability_zone", PNone); ("image_password", PNone);
                     ("ssh_keys", PNone); ("bus", PNone); ("licence_type", PNone);
                     ("cpu_hot_plug", PNone); ("ram_hot_plug", PNone);
                     ("nic_hot_plug", PNone); ("nic_hot_unplug", PNone);
                     ("disc_virtio_hot_plug", PNone); ("disc_virtio_hot_unplug", PNone);
                     ("backupunit_id", PNone); ("user_data", PNone)])))
           (Exn "ApiException" "(422) Unprocessable Entity")).
  vm_compute. do 2 apply list_elem_of_further. apply list_elem_of_here.
Defined.


(** * Further properties of the code *)

(** ** Regular expressions *)

Lemma string_cons_app (c : Ascii.ascii) (a b : string) :
  String c a +:+ b = String c (a +:+ b).
Proof. reflexivity. Qed.

Lemma string_nil_app (a : string) : "" +:+ a = a.
Proof. reflexivity. Qed.

Lemma string_app_assoc_r (a b c : string) : (a +:+ b) +:+ c = a +:+ (b +:+ c).
Proof.
  induction a as [|x a IH]; [reflexivity|]. rewrite !string_cons_app. by rewrite IH.
Qed.

Lemma string_length_app (a b : string) :
  String.length (a +:+ b) = String.length a + String.length b.
Proof.
  induction a as [|x a IH]; [reflexivity|]. rewrite string_cons_app. cbn. by rewrite IH.
Qed.

Lemma strip_prefix_Some (p s r : string) : strip_prefix p s = Some r <-> s = p +:+ r.
Proof.
  revert s. induction p as [|a p IH]; intros s; cbn [strip_prefix].
  - rewrite string_nil_app. split; [intros [= ->]; reflexivity | intros ->; reflexivity].
  - rewrite string_cons_app. destruct s as [|b s]; [split; discriminate|].
    destruct (Ascii.eqb_spec a b) as [->|Hab].
    + rewrite IH. split; [intros ->; reflexivity | intros [= ->]; reflexivity].
    + split; [discriminate | intros [= ? _]; congruence].
Qed.

Lemma strip_prefix_app (p a b r : string) :
  strip_prefix p (a +:+ b) = Some r -> String.length p <= String.length a ->
  exists r', a = p +:+ r'.
Proof.
  revert a. induction p as [|x p IH]; intros a.
  - intros _ _. by exists a.
  - destruct a as [|y a]; [cbn; lia|]. rewrite string_cons_app. cbn [strip_prefix String.length].
    destruct (Ascii.eqb_spec x y) as [->|]; [|discriminate].
    intros Hr Hlen. destruct (IH a Hr) as [r' ->]; [lia|]. by exists r'.
Qed.

Lemma span_spec (f : Ascii.ascii -> bool) (s : string) :
  s = (span f s).1 +:+ (span f s).2
  /\ all_chars f (span f s).1 = true
  /\ match (span f s).2 with String c _ => f c = false | EmptyString => True end.
Proof.
  induction s as [|c s (IH1 & IH2 & IH3)]; cbn [span]; [done|].
  destruct (f c) eqn:Hc; cbn [fst snd all_chars]; [|by rewrite Hc].
  destruct (span f s) as [r rest]; cbn [fst snd all_chars] in *.
  rewrite string_cons_app, Hc, IH2, <- IH1. done.
Qed.

Lemma span_app (f : Ascii.ascii -> bool) (g rest : string) :
  all_chars f g = true ->
  match rest with String c _ => f c = false | EmptyString => True end ->
  span f (g +:+ rest) = (g, rest).
Proof.
  intros Hg Hrest. induction g as [|c g IH].
  - rewrite string_nil_app. destruct rest as [|c rest]; [reflexivity|]. cbn. by rewrite Hrest.
  - cbn [all_chars] in Hg. apply andb_true_iff in Hg as [Hc Hg].
    rewrite string_cons_app. cbn [span]. by rewrite Hc, (IH Hg).
Qed.

Lemma request_id_here_Some (s g : string) :
  request_id_here s = Some g ->
  g <> "" /\ all_chars is_request_id_char g = true
  /\ exists after, s = "/requests/" +:+ g +:+ "/" +:+ after.
Proof.
  unfold request_id_here. destruct (strip_prefix "/requests/" s) as [rest|] eqn:Hs; [|discriminate].
  apply strip_prefix_Some in Hs. cbn [mbind option_bind].
  destruct (span_spec is_request_id_char rest) as (Hrest & Hall & _).
  destruct (span is_request_id_char rest) as [group rest']. cbn [fst snd] in *.
  destruct group as [|c group]; [discriminate|].
  destruct rest' as [|c' rest']; [discriminate|].
  destruct (Ascii.eqb_spec c' (Ascii.ascii_of_nat 47)) as [->|]; [|discriminate].
  intros [= <-]. split; [discriminate|]. split; [exact Hall|].
  exists rest'. rewrite Hs, Hrest. reflexivity.
Qed.

(** X1: a request id that [_get_request_id] returns is not empty, is made of
    hexadecimal digits and dashes only, and stands in the header between
    [/requests/] and [/]; the header is a [str]. *)
Theorem _get_request_id_sound (headers : pyval) (request_id : string) :
  volume._get_request_id headers = Ret request_id ->
  request_id <> "" /\ all_chars is_request_id_char request_id = true
  /\ exists location, headers = PStr location
       /\ contains ("/requests/" +:+ request_id +:+ "/") location.
Proof.
  unfold volume._get_request_id. destruct headers as [| | |s| | | |]; try discriminate.
  destruct (request_id_search s) as [g|] eqn:Hsearch; [|discriminate].
  intros [= <-].
  assert (g <> "" /\ all_chars is_request_id_char g = true
          /\ contains ("/requests/" +:+ g +:+ "/") s) as (H1 & H2 & H3); [|eauto].
  clear -Hsearch. induction s as [|c s IH].
  - cbn in Hsearch. discriminate.
  - cbn [request_id_search] in Hsearch.
    destruct (request_id_here (String c s)) as [g'|] eqn:Hhere.
    + injection Hsearch as ->. destruct (request_id_here_Some _ _ Hhere) as (H1 & H2 & after & H3).
      split; [done|]. split; [done|]. exists "", after. rewrite H3, string_nil_app.
      by rewrite !string_app_assoc_r.
    + destruct (IH Hsearch) as (H1 & H2 & before & after & ->).
      split; [done|]. split; [done|]. by exists (String c before), after.
Qed.

(** X2: [_get_request_id] returns the request id of a location
    [<before>/requests/<id>/<after>], for a non-empty id of hexadecimal digits
    and dashes, when [/requests/] does not occur earlier in the location. *)
Theorem _get_request_id_finds (before request_id after : string) :
  request_id <> "" -> all_chars is_request_id_char request_id = true ->
  ~ contains "/requests/" (before +:+ "/requests") ->
  volume._get_request_id (PStr (before +:+ "/requests/" +:+ request_id +:+ "/" +:+ after))
    = Ret request_id.
Proof.
  intros Hne Hall Hfirst. unfold volume._get_request_id.
  enough (request_id_search (before +:+ "/requests/" +:+ request_id +:+ "/" +:+ after)
          = Some request_id) as -> by reflexivity.
  induction before as [|c before IH].
  - destruct request_id as [|c g]; [done|].
    rewrite string_nil_app.
    destruct ("/requests/" +:+ String c g +:+ "/" +:+ after) as [|c0 s0] eqn:Hs; [discriminate|].
    cbn [request_id_search]. rewrite <- Hs. clear Hs. unfold request_id_here.
    change (strip_prefix "/requests/" ("/requests/" +:+ String c g +:+ "/" +:+ after))
      with (Some (String c g +:+ "/" +:+ after)).
    cbn [mbind option_bind].
    rewrite (span_app is_request_id_char (String c g) ("/" +:+ after) Hall eq_refl).
    reflexivity.
  - rewrite string_cons_app. cbn [request_id_search].
    destruct (request_id_here (String c (before +:+ "/requests/" +:+ request_id +:+ "/" +:+ after)))
      as [g|] eqn:Hhere.
    + exfalso. apply Hfirst. unfold request_id_here in Hhere.
      destruct (strip_prefix "/requests/" _) as [rest|] eqn:Hs; [|discriminate].
      change (String c (before +:+ "/requests/" +:+ request_id +:+ "/" +:+ after))
        with (String c before +:+ ("/requests/" +:+ request_id +:+ "/" +:+ after)) in Hs.
      change ("/requests/" +:+ request_id +:+ "/" +:+ after)
        with ("/requests" +:+ ("/" +:+ request_id +:+ "/" +:+ after)) in Hs.
      rewrite <- string_app_assoc_r in Hs.
      apply strip_prefix_app in Hs as [r' Hr'].
      * exists "", r'. exact Hr'.
      * rewrite string_length_app. cbn. lia.
    + apply IH. intros (a & b & Hab). apply Hfirst. exists (String c a), b.
      rewrite !string_cons_app. by rewrite Hab.
Qed.

Lemma contains_occurs (text msg : string) : contains text msg -> occurs text msg = true.
Proof.
  intros (before & after & ->). induction before as [|c before IH].
  - rewrite string_nil_app.
    destruct (text +:+ after) as [|c s] eqn:Hs; cbn [occurs]; rewrite <- Hs;
      by rewrite (proj2 (strip_prefix_Some text (text +:+ after) after) eq_refl).
  - rewrite string_cons_app. cbn [occurs]. rewrite IH. by destruct (strip_prefix _ _).
Qed.

Lemma _get_request_id_sound_witness :
  "abc-123" <> "" /\ all_chars is_request_id_char "abc-123" = true
  /\ exists location,
       PStr "https://api.ionos.com/cloudapi/v6/requests/abc-123/status" = PStr location
       /\ contains ("/requests/" +:+ "abc-123" +:+ "/") location.
Proof.
  apply (_get_request_id_sound
           (PStr "https://api.ionos.com/cloudapi/v6/requests/abc-123/status") "abc-123").
  reflexivity.
Defined.

Lemma _get_request_id_finds_witness :
  volume._get_request_id
    (PStr ("https://api.ionos.com/cloudapi/v6" +:+ "/requests/" +:+ "abc-123" +:+ "/"
           +:+ "status")) = Ret "abc-123".
Proof.
  apply (_get_request_id_finds "https://api.ionos.com/cloudapi/v6" "abc-123" "status").
  - discriminate.
  - reflexivity.
  - intros H%contains_occurs. vm_compute in H. discriminate.
Defined.

Lemma word_run_Some (w : Ascii.ascii -> bool) (n : nat) (s r : string) :
  word_run w n s = Some r <->
  exists a, s = a +:+ r /\ String.length a = n /\ all_chars w a = true.
Proof.
  revert s. induction n as [|n IH]; intros s; cbn [word_run].
  - split.
    + intros [= ->]. by exists "".
    + intros (a & -> & Hlen & _). destruct a; [reflexivity | discriminate].
  - destruct s as [|c s].
    + split; [discriminate|]. intros ([|c a] & Hs & Hlen & _); discriminate.
    + destruct (w c) eqn:Hc.
      * rewrite IH. split.
        -- intros (a & -> & <- & Ha). exists (String c a). cbn [all_chars]. by rewrite Hc.
        -- intros ([|c' a] & Hs & Hlen & Ha); [discriminate|].
           rewrite string_cons_app in Hs. injection Hs as <- ->. injection Hlen as <-.
           cbn [all_chars] in Ha. apply andb_true_iff in Ha as [_ Ha]. by exists a.
      * split; [discriminate|]. intros ([|c' a] & Hs & Hlen & Ha); [discriminate|].
        rewrite string_cons_app in Hs. injection Hs as <- ->.
        cbn [all_chars] in Ha. rewrite Hc in Ha. discriminate.
Qed.

(** X3: [uuid_match] accepts exactly the strings that begin with five groups
    of 8, 4, 4, 4 and 12 word characters separated by dashes; what follows the
    last group is not looked at. *)
Theorem uuid_match_shape (w : Ascii.ascii -> bool) (s : string) :
  uuid_match w s = true <->
  exists a b c d e rest,
    s = a +:+ "-" +:+ b +:+ "-" +:+ c +:+ "-" +:+ d +:+ "-" +:+ e +:+ rest
    /\ is_group w 8 a /\ is_group w 4 b /\ is_group w 4 c /\ is_group w 4 d
    /\ is_group w 12 e.
Proof.
  unfold uuid_match, is_group. rewrite bool_decide_eq_true. split.
  - intros [r Hr].
    repeat match type of Hr with
    | (?o ≫= _) = Some _ =>
        let E := fresh "E" in destruct o eqn:E; [cbn [mbind option_bind] in Hr | discriminate]
    end.
    repeat match goal with
    | H : word_run _ _ _ = Some _ |- _ => apply word_run_Some in H as (? & -> & ? & ?)
    | H : strip_prefix _ _ = Some _ |- _ => apply strip_prefix_Some in H as ->
    end.
    eexists _, _, _, _, _, _. split; [reflexivity | done].
  - intros (a & b & c & d & e & rest & -> & [? ?] & [? ?] & [? ?] & [? ?] & [? ?]).
    exists rest.
    repeat first
      [ rewrite (proj2 (word_run_Some w _ (_ +:+ _) _)) by eauto; cbn [mbind option_bind]
      | rewrite (proj2 (strip_prefix_Some "-" ("-" +:+ _) _)) by eauto; cbn [mbind option_bind] ].
    reflexivity.
Qed.

Lemma uuid_match_shape_witness :
  uuid_match ref_re_w "0b1e1c4a-7f3d-4c2b-9a6e-5d8f7e6c5b4a-snapshot" = true.
Proof.
  apply (uuid_match_shape ref_re_w "0b1e1c4a-7f3d-4c2b-9a6e-5d8f7e6c5b4a-snapshot").
  exists "0b1e1c4a", "7f3d", "4c2b", "9a6e", "5d8f7e6c5b4a", "-snapshot".
  repeat split.
Defined.

(** ** Required arguments *)

(** X4: of all the options of [volume.py], [check_required_arguments] checks
    three things, in this order: the credentials (a token, or a username and a
    password), [datacenter] in each of the three states, and [name] in the
    state [present]; it fails with the message of the first that is missing
    and returns otherwise. *)
Theorem volume_check_required_arguments_cases {py : Python} (module : AnsibleModule)
    (state : pyval) (object_name : string) :
  volume.check_required_arguments module state object_name =
    if negb (has_credentials module) then
      fail_json ("Token or username & password are required for "
                 +:+ object_name +:+ " state " +:+ py_str state)
    else if py_in state (PStr <$> volume.STATES)
            && negb (truthy (params_get module "datacenter")) then
      fail_json ("datacenter parameter is required for "
                 +:+ object_name +:+ " state " +:+ py_str state)
    else if py_eq state (PStr "present") && negb (truthy (params_get module "name")) then
      fail_json ("name parameter is required for "
                 +:+ object_name +:+ " state " +:+ py_str state)
    else Ret tt.
Proof.
  unfold volume.check_required_arguments, has_credentials.
  destruct (truthy (params_get module "token")); cbn [negb andb orb];
    [|destruct (truthy (params_get module "username") && truthy (params_get module "password"));
      cbn [negb]; [|reflexivity]].
  all: cbn [mbind outcome_mbind outcome_bind volume.OPTIONS for_append].
  all: destruct (py_in state (PStr <$> volume.STATES)
                 && negb (truthy (params_get module "datacenter"))); [reflexivity|].
  all: cbn [mbind outcome_mbind outcome_bind fmap list_fmap py_in existsb andb orb].
  all: rewrite orb_false_r.
  all: destruct (py_eq state (PStr "present") && negb (truthy (params_get module "name")));
    reflexivity.
Qed.

(** X5: [check_required_arguments] of [postgres_backup_info.py] fails exactly
    when the credentials are missing: no option of the module is required. *)
Theorem postgres_check_required_arguments_cases (module : AnsibleModule)
    (object_name : string) :
  postgres_backup_info.check_required_arguments module object_name =
    if negb (has_credentials module) then
      fail_json ("Token or username & password are required for " +:+ object_name)
    else Ret tt.
Proof.
  unfold postgres_backup_info.check_required_arguments, has_credentials.
  destruct (truthy (params_get module "token")); cbn [negb andb orb];
    [|destruct (truthy (params_get module "username") && truthy (params_get module "password"));
      cbn [negb]]; reflexivity.
Qed.

Section validation.
Context {py : Python} {sdk : VendorSdk}.

Lemma volume_main_validates_first HAS_SDK module history :
  (run (volume.main HAS_SDK module) history).2 <> [] ->
  HAS_SDK = true
  /\ volume.check_required_arguments module (params_get module "state") volume.OBJECT_NAME
     = Ret tt.
Proof.
  unfold volume.main. rewrite run_bind.
  destruct HAS_SDK; cbn [negb run lift mret M_mret M_ret fst snd]; [|done].
  rewrite run_bind. cbn [run lift fst snd].
  destruct (volume.check_required_arguments _ _ _) as [[]|e|x]; cbn [app]; done.
Qed.

Lemma postgres_main_validates_first HAS_SDK module history :
  (run (postgres_backup_info.main HAS_SDK module) history).2 <> [] ->
  HAS_SDK = true
  /\ postgres_backup_info.check_required_arguments module postgres_backup_info.OBJECT_NAME
     = Ret tt.
Proof.
  unfold postgres_backup_info.main. rewrite run_bind.
  destruct HAS_SDK; cbn [negb run lift mret M_mret M_ret fst snd]; [|done].
  rewrite run_bind. cbn [run lift fst snd].
  destruct (postgres_backup_info.check_required_arguments _ _) as [[]|e|x]; cbn [app]; done.
Qed.

End validation.

(** X6: neither module makes an SDK call unless the SDK could be imported and
    [check_required_arguments] passed. *)
Theorem main_validates_first {py : Python} {sdk : VendorSdk}
    (HAS_SDK : bool) (module : AnsibleModule) (history : trace) :
  ((run (volume.main HAS_SDK module) history).2 <> [] ->
   HAS_SDK = true
   /\ volume.check_required_arguments module (params_get module "state")
        volume.OBJECT_NAME = Ret tt)
  /\ ((run (postgres_backup_info.main HAS_SDK module) history).2 <> [] ->
      HAS_SDK = true
      /\ postgres_backup_info.check_required_arguments module
           postgres_backup_info.OBJECT_NAME = Ret tt).
Proof.
  split; [apply volume_main_validates_first | apply postgres_main_validates_first].
Qed.

Lemma main_validates_first_witness :
  true = true
  /\ volume.check_required_arguments (py := ref_python)
       (a_module false (("state", PStr "absent")
                        :: ("instance_ids", PList [PStr "vol01"]) :: credentials))
       (PStr "absent") volume.OBJECT_NAME = Ret tt.
Proof.
  apply (proj1 (main_validates_first (py := ref_python) (sdk := scripted_sdk tardis) true
                  (a_module false (("state", PStr "absent")
                                   :: ("instance_ids", PList [PStr "vol01"])
                                   :: credentials)) [])).
  vm_compute. discriminate.
Defined.

(** ** In check mode *)

Section check_mode.
Context {py : Python} {sdk : VendorSdk}.

Lemma at_most__create_volume_check module datacenter name :
  check_mode module = true -> at_most 0 (volume._create_volume module datacenter name).
Proof. intros Hcheck. unfold volume._create_volume. rewrite Hcheck. apply at_most_lift. Qed.

Lemma at_most__update_volume_check module datacenter volume :
  check_mode module = true -> at_most 0 (volume._update_volume module datacenter volume).
Proof. intros Hcheck. unfold volume._update_volume. rewrite Hcheck. apply at_most_lift. Qed.

Lemma at_most__delete_volume_check module datacenter volume :
  check_mode module = true -> at_most 0 (volume._delete_volume module datacenter volume).
Proof. intros Hcheck. unfold volume._delete_volume. rewrite Hcheck. apply at_most_lift. Qed.

Lemma at_most_for_each_0 {X S : Type} (body : X -> S -> M S) (xs : list X) (s : S) :
  (forall x s', at_most 0 (body x s')) -> at_most 0 (for_each body xs s).
Proof.
  intros Hbody. apply (at_most_mono (length xs * 0)); [lia|].
  by apply at_most_for_each.
Qed.

(** The computations that make no operation in check mode. *)
Ltac known_check :=
  first [ apply at_most__attach_volume
        | apply at_most_for_each_0; intros ? ?
        | apply at_most__create_volume_check; assumption
        | apply at_most__update_volume_check; assumption
        | apply at_most__delete_volume_check; assumption ].

(** X7: in check mode an invocation of [volume] makes no create, update or
    delete request, whatever the SDK answers. *)
Theorem check_mode_makes_no_operation HAS_SDK module history :
  check_mode module = true ->
  count_calls is_operation (run (volume.main HAS_SDK module) history).2 = 0.
Proof.
  intros Hcheck.
  enough (at_most 0 (volume.main HAS_SDK module)) as Hmain
    by (specialize (Hmain history); lia).
  unfold volume.main, volume.create_volume, volume.update_volume, volume.delete_volume.
  no_operation known_check.
Qed.

End check_mode.

Lemma check_mode_makes_no_operation_witness :
  count_calls is_operation
    (run (volume.main (py := ref_python) (sdk := scripted_sdk tardis) true
            (a_module true (("state", PStr "absent")
                            :: ("instance_ids", PList [PStr "vol01"]) :: credentials))) []).2
  = 0.
Proof.
  apply (check_mode_makes_no_operation (py := ref_python) (sdk := scripted_sdk tardis)).
  reflexivity.
Defined.

(** ** The order of the calls, and the datacenter *)

(** Symbolic execution steps over a loop: whatever it does comes after the
    calls made before it. *)
Ltac skip_loop :=
  match goal with
  | |- post (for_each _ _ _) _ _ =>
      unfold post at 1; destruct (run (for_each _ _ _) _) as [[?|?|?] ?]; cbn [fst snd]
  end.

Section calls_order.
Context {py : Python} {sdk : VendorSdk}.

(** X8: the SDK calls of an invocation of [volume] begin with the list of the
    datacenters, followed, if that call returned, by the list of the volumes
    of the datacenter id that the parameter [datacenter] resolves to in it; no
    other call is made before these two returned. *)
Theorem volume_main_lists_first HAS_SDK module history :
  lists_first module (run (volume.main HAS_SDK module) history).2.
Proof.
  change (post (volume.main HAS_SDK module) history (fun _ made => lists_first module made)).
  unfold volume.main, volume.create_volume, volume.update_volume, volume.delete_volume.
  repeat first [step | run_case | skip_loop].
  all: cbn [app lists_first]; try exact I; try (eexists; reflexivity).
  all: try (eexists _, _, _; repeat split; first [eassumption | done | eauto]).
Qed.

(** X9: when the parameter [datacenter] resolves to nothing in the list of
    the datacenters, [create_volume] and [update_volume] fail with
    "datacenter could not be found." and make no further SDK call. *)
Theorem unknown_datacenter_fails module history :
  let datacenter := params_get module "datacenter" in
  (forall depth datacenter_list rest,
     (run (volume.create_volume module) history).2
       = (datacenters_get depth, inr datacenter_list) :: rest ->
     get_resource_id module datacenter_list datacenter None = Ret PNone ->
     run (volume.create_volume module) history
       = (Exit (FailJson "datacenter could not be found."),
          [(datacenters_get depth, inr datacenter_list)]))
  /\ (forall depth datacenter_list rest,
        (run (volume.update_volume module) history).2
          = (datacenters_get depth, inr datacenter_list) :: rest ->
        get_resource_id module datacenter_list datacenter None = Ret PNone ->
        run (volume.update_volume module) history
          = (Exit (FailJson "datacenter could not be found."),
             [(datacenters_get depth, inr datacenter_list)])).
Proof.
  cbv zeta. split.
  - enough (post (volume.create_volume module) history (fun o made =>
      forall depth datacenter_list rest,
        made = (datacenters_get depth, inr datacenter_list) :: rest ->
        get_resource_id module datacenter_list (params_get module "datacenter") None
          = Ret PNone ->
        (o, made) = (Exit (FailJson "datacenter could not be found."),
                     [(datacenters_get depth, inr datacenter_list)]))) as Hpost.
    { intros depth dl rest Hmade Hres. rewrite <- (Hpost depth dl rest Hmade Hres).
      by destruct (run _ _). }
    unfold volume.create_volume.
    repeat first [step | run_case | skip_loop].
    all: cbn [app]; intros depth dl rest Hmade Hres; try discriminate.
    all: injection Hmade as <- <- <-; try congruence.
    all: rewrite Hres in *; simplify_eq; try discriminate.
    unfold fail_json in *. by simplify_eq.
  - enough (post (volume.update_volume module) history (fun o made =>
      forall depth datacenter_list rest,
        made = (datacenters_get depth, inr datacenter_list) :: rest ->
        get_resource_id module datacenter_list (params_get module "datacenter") None
          = Ret PNone ->
        (o, made) = (Exit (FailJson "datacenter could not be found."),
                     [(datacenters_get depth, inr datacenter_list)]))) as Hpost.
    { intros depth dl rest Hmade Hres. rewrite <- (Hpost depth dl rest Hmade Hres).
      by destruct (run _ _). }
    unfold volume.update_volume.
    repeat first [step | run_case | skip_loop].
    all: cbn [app]; intros depth dl rest Hmade Hres; try discriminate.
    all: injection Hmade as <- <- <-; try congruence.
    all: rewrite Hres in *; simplify_eq; try discriminate.
    all: unfold fail_json in *; by simplify_eq.
Qed.

(** X10: [delete_volume] has no such check: when [datacenter] resolves to
    nothing, it goes on to ask for the volumes of the datacenter [None]. *)
Theorem delete_volume_unknown_datacenter module history :
  forall depth datacenter_list rest,
    (run (volume.delete_volume module) history).2
      = (datacenters_get depth, inr datacenter_list) :: rest ->
    get_resource_id module datacenter_list (params_get module "datacenter") None
      = Ret PNone ->
    exists r rest', rest = (datacenters_volumes_get PNone 1, r) :: rest'.
Proof.
  change (post (volume.delete_volume module) history (fun _ made =>
    forall depth datacenter_list rest,
      made = (datacenters_get depth, inr datacenter_list) :: rest ->
      get_resource_id module datacenter_list (params_get module "datacenter") None
        = Ret PNone ->
      exists r rest', rest = (datacenters_volumes_get PNone 1, r) :: rest')).
  unfold volume.delete_volume.
  repeat first [step | run_case | skip_loop].
  all: cbn [app]; intros depth dl rest Hmade Hres; try discriminate.
  all: injection Hmade as <- <- <-; try congruence.
  all: rewrite Hres in *; simplify_eq; eauto.
Qed.

(** X11: [delete_volume] fails before any SDK call when [instance_ids] is not
    a non-empty list. *)
Theorem delete_volume_rejects_instance_ids module history :
  (forall id ids, params_get module "instance_ids" <> PList (id :: ids)) ->
  run (volume.delete_volume module) history =
    (Exit (FailJson "instance_ids should be a list of volume ids or names, aborting"), []).
Proof.
  intros Hids. unfold volume.delete_volume. apply run_bind_exit.
  destruct (params_get module "instance_ids") as [| | | |[|id ids]| | |];
    try reflexivity.
  exfalso. exact (Hids id ids eq_refl).
Qed.
End calls_order.

Lemma unknown_datacenter_fails_witness :
  run (volume.create_volume (py := ref_python) (sdk := scripted_sdk tardis)
         (a_module false unknown_datacenter)) []
  = (Exit (FailJson "datacenter could not be found."),
     [(datacenters_get 1,
       inr (a_collection "datacenters" [a_resource "Datacenter" "dc-1" "Tardis One"]))]).
Proof.
  apply (proj1 (unknown_datacenter_fails (py := ref_python) (sdk := scripted_sdk tardis)
                  (a_module false unknown_datacenter) [])) with (rest := []);
    reflexivity.
Defined.

Lemma delete_volume_unknown_datacenter_witness :
  exists r rest',
    ([(datacenters_volumes_get PNone 1,
       inr (a_collection "volumes" [a_resource "Volume" "v-1" "vol01"]));
      (datacenters_volumes_delete PNone (PStr "v-1"), inr PNone)] : trace)
    = (datacenters_volumes_get PNone 1, r) :: rest'.
Proof.
  apply (delete_volume_unknown_datacenter (py := ref_python) (sdk := scripted_sdk tardis)
           (a_module false unknown_datacenter) [] 2
           (a_collection "datacenters" [a_resource "Datacenter" "dc-1" "Tardis One"]));
    reflexivity.
Defined.

Lemma delete_volume_rejects_instance_ids_witness :
  run (volume.delete_volume (py := ref_python) (sdk := scripted_sdk tardis)
         (a_module false [("instance_ids", PStr "vol01")])) []
  = (Exit (FailJson "instance_ids should be a list of volume ids or names, aborting"), []).
Proof.
  apply (delete_volume_rejects_instance_ids (py := ref_python) (sdk := scripted_sdk tardis)).
  intros id ids. vm_compute. discriminate.
Defined.

(** ** The results of the operations *)

Section loops.
Context {sdk : VendorSdk}.

(** A loop keeps an invariant [I] of the elements visited, the local
    variables and the calls made; when it does not return, the calls made
    satisfy [T]. *)
Lemma post_for_each {X S : Type} (I : list X -> S -> trace -> Prop) (T : trace -> Prop)
    (body : X -> S -> M S) (xs : list X) :
  (forall visited x s h made, x ∈ xs -> I visited s made ->
     post (body x s) h (fun o made' =>
       match o with
       | Ret s' => I (visited ++ [x]) s' (made ++ made')
       | _ => T (made ++ made')
       end)) ->
  forall visited s h made, I visited s made ->
    post (for_each body xs s) h (fun o made' =>
      match o with
      | Ret s' => I (visited ++ xs) s' (made ++ made')
      | _ => T (made ++ made')
      end).
Proof.
  induction xs as [|x xs IH]; intros Hbody visited s h made HI; cbn [for_each].
  - apply post_ret. by rewrite !app_nil_r.
  - apply post_bind. eapply post_mono; [apply (Hbody visited x s h made); [left|exact HI]|].
    intros [s'|e|ex] made' Hmade'; try exact Hmade'.
    eapply post_mono.
    + apply (IH (fun visited x s h made Hx =>
                   Hbody visited x s h made (list_elem_of_further _ _ _ Hx))
               (visited ++ [x]) s' _ (made ++ made') Hmade').
    + intros o made''. rewrite <- !app_assoc. cbn [app]. exact id.
Qed.

End loops.

Section results.
Context {py : Python} {sdk : VendorSdk}.

Lemma _delete_volume_deletes module datacenter_id volume_id history :
  post (volume._delete_volume module datacenter_id volume_id) history (fun o made =>
    is_Ret o -> count_calls is_delete made = 1).
Proof. unfold volume._delete_volume. run_all; cbn; first [done | intros []]. Qed.

(** X12: the result of [delete_volume] has [action] "delete"; its [changed] is
    true exactly when a delete request was made; its [id] is what the last
    entry of [instance_ids] resolves to in the list of the volumes ([None]
    when that entry names no volume, whatever was deleted before). *)
Theorem delete_volume_result module history result :
  (run (volume.delete_volume module) history).1 = Ret result ->
  let made := (run (volume.delete_volume module) history).2 in
  result !! "action" = Some (PStr "delete")
  /\ result !! "changed" = Some (PBool (0 <? count_calls is_delete made))
  /\ exists ev datacenter_id volumes rest ids n id,
       made = ev :: (datacenters_volumes_get datacenter_id 1, inr volumes) :: rest
       /\ params_get module "instance_ids" = PList ids
       /\ last ids = Some n
       /\ get_resource_id module volumes n None = Ret id
       /\ result !! "id" = Some id.
Proof.
  cbv zeta.
  enough (post (volume.delete_volume module) history (fun o made =>
    forall result, o = Ret result ->
    result !! "action" = Some (PStr "delete")
    /\ result !! "changed" = Some (PBool (0 <? count_calls is_delete made))
    /\ exists ev datacenter_id volumes rest ids n id,
         made = ev :: (datacenters_volumes_get datacenter_id 1, inr volumes) :: rest
         /\ params_get module "instance_ids" = PList ids
         /\ last ids = Some n
         /\ get_resource_id module volumes n None = Ret id
         /\ result !! "id" = Some id)) as Hpost.
  { intros Hret. exact (Hpost result Hret). }
  unfold volume.delete_volume.
  destruct (params_get module "instance_ids") as [| | | |ids| | |] eqn:Hids;
    cbn [volume.is_list negb orb]; try (run_all; first [discriminate | intros ? [=]]).
  destruct (last ids) as [n|] eqn:Hlast;
    [|apply last_None in Hlast as ->; run_all; first [discriminate | intros ? [=]]].
  assert (Nat.ltb (length ids) 1 = false) as Hlen
    by (destruct ids; [discriminate | reflexivity]).
  cbn [volume.len]. rewrite Hlen.
  run_all; try discriminate; try (intros ? [=]).
  match goal with
  | |- context [(datacenters_volumes_get ?datacenter_id 1, inr ?volumes)] =>
      eapply post_mono;
        [apply (post_for_each
                  (fun visited '(changed, id) made =>
                     changed = (0 <? count_calls is_delete made)
                     /\ match last visited with
                        | Some n => get_resource_id module volumes n None = Ret id
                        | None => True
                        end)
                  (fun _ => True)) with (visited := []) (made := [])|]
  end.
  - intros visited x [changed id] h made _ [Hchanged _]. do 2 step.
    destruct (get_resource_id module _ x None) as [v|e|ex] eqn:Hv; [|done..].
    destruct (is_none v); cbn [negb].
    + step. rewrite app_nil_r, last_snoc. done.
    + step. eapply post_mono; [apply _delete_volume_deletes|].
      intros [[]|e|ex] made' Hmade'; [|done..]. step.
      cbn [app]. rewrite app_nil_r, last_snoc, count_calls_app, (Hmade' I). split; [|done].
      symmetry. apply Nat.ltb_lt. lia.
  - done.
  - intros [[changed id]|e|ex] made; [|intros _ ? [=]..].
    cbn [app]. intros [-> Hid]. step. intros result' [= <-].
    cbn [app] in Hid. rewrite Hlast in Hid.
    cbn [run mret M_mret M_ret lift snd app]. rewrite !app_nil_r.
    split; [reflexivity|]. split; [reflexivity|].
    eexists _, _, _, _, _, _, _.
    split; [reflexivity|]. split; [reflexivity|]. split; [exact Hlast|].
    split; [exact Hid|]. reflexivity.
Qed.
Lemma count_calls_created (made : trace) :
  count_calls is_create made = length (omap created made).
Proof.
  unfold count_calls. induction made as [|[c r] made IH]; [reflexivity|].
  destruct c; cbn; by rewrite ?IH.
Qed.

(** X13: the result of [create_volume] has [action] "create" and [failed]
    false; its [changed] is true exactly when a create request was made (an
    existing volume that is only attached leaves it false); [instance_ids]
    and [volumes] hold one entry for each name. *)
Theorem create_volume_result module history result :
  (run (volume.create_volume module) history).1 = Ret result ->
  let made := (run (volume.create_volume module) history).2 in
  result !! "action" = Some (PStr "create")
  /\ result !! "failed" = Some (PBool false)
  /\ result !! "changed" = Some (PBool (0 <? count_calls is_create made))
  /\ exists names instance_ids volumes,
       volume.create_volume_names module (params_get module "name")
         (params_get module "count") = Ret names
       /\ result !! "instance_ids" = Some (PList instance_ids)
       /\ result !! "volumes" = Some (PList volumes)
       /\ length instance_ids = length names
       /\ length volumes = length names.
Proof.
  cbv zeta.
  enough (post (volume.create_volume module) history (fun o made =>
    forall result, o = Ret result ->
    result !! "action" = Some (PStr "create")
    /\ result !! "failed" = Some (PBool false)
    /\ result !! "changed" = Some (PBool (0 <? count_calls is_create made))
    /\ exists names instance_ids volumes,
         volume.create_volume_names module (params_get module "name")
           (params_get module "count") = Ret names
         /\ result !! "instance_ids" = Some (PList instance_ids)
         /\ result !! "volumes" = Some (PList volumes)
         /\ length instance_ids = length names
         /\ length volumes = length names)) as Hpost.
  { intros Hret. exact (Hpost result Hret). }
  unfold volume.create_volume.
  run_all; try discriminate; try (intros ? [=]).
  eapply post_mono;
    [apply (post_for_each
              (fun visited '(volumes, instance_ids, changed) made =>
                 changed = (0 <? count_calls is_create made)
                 /\ length volumes = length visited
                 /\ length instance_ids = length visited)
              (fun _ => True)) with (visited := []) (made := [])|].
  - intros visited x [[volumes instance_ids] changed] h made _ (Hchanged & Hvolumes & Hids).
    do 2 step.
    destruct (get_resource_id module _ x None) as [v|e|ex] eqn:Hv; [|done..].
    destruct (is_none v); cbn [negb].
    + step. eapply post_mono; [apply _create_volume_requests|].
      intros [create_response|e|ex] made1 [_ Hmade1]; [|done..].
      do 2 step. destruct (getattr create_response "id") as [id|e|ex]; [|done..].
      step. eapply post_mono; [apply _attach_volume_requests|].
      intros [?|e|ex] made2 Hmade2; [|done..]. step.
      rewrite !length_app, Hvolumes, Hids. split; [|done].
      rewrite !count_calls_app, !count_calls_created, (Hmade1 I), Hmade2.
      symmetry. apply Nat.ltb_lt. cbn. lia.
    + step. step; [done|]. step.
      eapply post_mono; [apply _attach_volume_requests|].
      intros [?|e|ex] made2 Hmade2; [|done..]. step.
      rewrite !length_app, Hvolumes, Hids. split; [|done].
      rewrite Hchanged, !count_calls_app, (count_calls_created made2), Hmade2.
      cbn. by rewrite !Nat.add_0_r.
  - done.
  - intros [[[volumes instance_ids] changed]|e|ex] made; [|intros _ ? [=]..].
    cbn [app]. intros (-> & Hvolumes & Hids). run_all; try (intros ? [=]).
    subst.
    match goal with H : for_append _ volumes = Ret _ |- _ =>
      apply for_append_length in H; rename H into Hdicts end.
    cbn [run mret M_mret M_ret lift snd app]. rewrite ?app_nil_r.
    split; [reflexivity|]. split; [reflexivity|]. split; [reflexivity|].
    eexists _, _, _. split; [reflexivity|]. split; [reflexivity|]. split; [reflexivity|].
    split; [exact Hids | by rewrite Hdicts].
Qed.
End results.

Lemma delete_volume_result_witness :
  exists result,
    (run (volume.delete_volume (py := ref_python) (sdk := scripted_sdk tardis)
            (a_module false (("instance_ids", PList [PStr "vol01"; PStr "nothing"])
                             :: credentials))) []).1 = Ret result
    /\ result !! "changed" = Some (PBool true)
    /\ result !! "id" = Some PNone.
Proof.
  eexists. split; [reflexivity|].
  match goal with
  | |- ?result !! "changed" = _ /\ _ =>
      destruct (delete_volume_result (py := ref_python) (sdk := scripted_sdk tardis)
                  (a_module false (("instance_ids", PList [PStr "vol01"; PStr "nothing"])
                                   :: credentials)) [] result eq_refl)
        as (_ & Hchanged & _)
  end.
  split; [exact Hchanged | reflexivity].
Defined.

Lemma create_volume_result_witness :
  exists result,
    (run (volume.create_volume (py := ref_python) (sdk := scripted_sdk accepting)
            (a_module false (("name", PStr "vol") :: ("count", PInt 2) :: credentials)))
         []).1 = Ret result
    /\ result !! "changed" = Some (PBool true)
    /\ result !! "instance_ids" = Some (PList [PStr "v-2"; PStr "v-2"]).
Proof.
  eexists. split; [reflexivity|].
  match goal with
  | |- ?result !! "changed" = _ /\ _ =>
      destruct (create_volume_result (py := ref_python) (sdk := scripted_sdk accepting)
                  (a_module false (("name", PStr "vol") :: ("count", PInt 2)
                                   :: credentials)) [] result eq_refl)
        as (_ & _ & Hchanged & _)
  end.
  split; [exact Hchanged | reflexivity].
Defined.

(** ** Looking a volume up by a model *)

Lemma py_eq_model (a v : pyval) : is_model a = true -> py_eq a v = true -> is_model v = true.
Proof. destruct a; try discriminate. destruct v; cbn; try discriminate. done. Qed.

Lemma py_filter_elem {A : Type} (f : A -> outcome bool) (xs l : list A) (r : A) :
  py_filter f xs = Ret l -> r ∈ l -> r ∈ xs /\ f r = Ret true.
Proof.
  revert l. induction xs as [|x xs IH]; intros l; cbn [py_filter].
  - intros [= <-] Hr. by apply elem_of_nil in Hr.
  - destruct (f x) as [keep| |] eqn:Hx; cbn; try discriminate.
    destruct (py_filter f xs) as [ys| |]; cbn; try discriminate.
    intros [= <-] Hr. destruct keep.
    + apply elem_of_cons in Hr as [->|Hr]; [split; [left | exact Hx]|].
      destruct (IH ys eq_refl Hr). split; [by right | done].
    + destruct (IH ys eq_refl Hr). split; [by right | done].
Qed.

Lemma for_append_elem {A B : Type} (f : A -> outcome B) (xs : list A) (ys : list B) (y : B) :
  for_append f xs = Ret ys -> y ∈ ys -> exists x, x ∈ xs /\ f x = Ret y.
Proof.
  revert ys. induction xs as [|x xs IH]; intros ys; cbn [for_append].
  - intros [= <-] Hy. by apply elem_of_nil in Hy.
  - destruct (f x) as [y'| |] eqn:Hx; cbn; try discriminate.
    destruct (for_append f xs) as [ys'| |]; cbn; try discriminate.
    intros [= <-] [->|Hy]%elem_of_cons.
    + exists x. split; [left | exact Hx].
    + destruct (IH ys' eq_refl Hy) as (x' & Hx' & Hfx'). exists x'. split; [by right | done].
Qed.

Lemma check_identity_method_true identity identity_paths resource :
  check_identity_method identity identity_paths resource = Ret true ->
  exists path v, path ∈ identity_paths /\ getattr_path resource path = Ret v
                 /\ py_eq identity v = true.
Proof.
  unfold check_identity_method.
  destruct (for_append (getattr_path resource) identity_paths) as [vals| |] eqn:Hvals;
    cbn; try discriminate.
  intros [= Hin]. unfold py_in in Hin. apply existsb_exists in Hin as (v & Hv & Heq).
  apply list_elem_of_In in Hv.
  destruct (for_append_elem _ _ _ _ Hvals Hv) as (path & Hpath & Hget).
  by exists path, v.
Qed.

Section lookup.
Context {py : Python}.

Lemma get_resource_elem (module : AnsibleModule)
    (resource_list identity : pyval) (identity_paths : option (list (list string)))
    (resource : pyval) :
  get_resource module resource_list identity identity_paths = Ret resource ->
  is_none resource = false ->
  exists items path v,
    items_of resource_list = Ret items /\ resource ∈ items
    /\ path ∈ default default_identity_paths identity_paths
    /\ getattr_path resource path = Ret v /\ py_eq identity v = true.
Proof.
  unfold get_resource, _get_matched_resources, items_of.
  destruct (getattr resource_list "items") as [items'| |]; cbn; try discriminate.
  destruct (py_iter items') as [items| |]; cbn; try discriminate.
  destruct (py_filter _ items) as [matched| |] eqn:Hmatched; cbn; try discriminate.
  destruct matched as [|r [|r' matched]]; cbn.
  - intros [= <-]. discriminate.
  - intros [= <-] _.
    destruct (py_filter_elem _ _ _ r Hmatched) as [Hr Hcheck]; [left|].
    destruct (check_identity_method_true _ _ _ Hcheck) as (path & v & ? & ? & ?).
    by exists items, path, v.
  - destruct (getattr resource_list "id"); discriminate.
Qed.

Lemma check_identity_method_model identity resource :
  check_identity_method identity default_identity_paths resource = Ret true ->
  is_model resource = true.
Proof.
  unfold check_identity_method, default_identity_paths. cbn [for_append getattr_path].
  destruct resource; try discriminate. reflexivity.
Qed.

Lemma py_filter_model identity items matched :
  is_model identity = true ->
  (forall r path v, r ∈ items -> path ∈ default_identity_paths ->
     getattr_path r path = Ret v -> is_model v = false) ->
  py_filter (check_identity_method identity default_identity_paths) items = Ret matched ->
  matched = [].
Proof.
  intros Hmodel Hplain Hmatched. destruct matched as [|r matched]; [reflexivity|].
  destruct (py_filter_elem _ _ _ r Hmatched) as [Hr Hcheck]; [left|].
  destruct (check_identity_method_true _ _ _ Hcheck) as (path & v & Hpath & Hv & Heq).
  pose proof (Hplain r path v Hr Hpath Hv) as Hv'.
  rewrite (py_eq_model _ _ Hmodel Heq) in Hv'. discriminate.
Qed.

Lemma get_resource_model module resource_list identity resource :
  plain_identities resource_list -> is_model identity = true ->
  get_resource module resource_list identity None = Ret resource -> resource = PNone.
Proof.
  intros Hplain Hmodel. unfold get_resource, _get_matched_resources.
  unfold plain_identities, items_of in Hplain.
  destruct (getattr resource_list "items") as [items'| |]; cbn; try discriminate.
  destruct (py_iter items') as [items| |] eqn:Hitems; cbn in *; try discriminate.
  destruct (py_filter _ items) as [matched| |] eqn:Hmatched; cbn; try discriminate.
  rewrite (py_filter_model _ _ _ Hmodel (fun r path v => Hplain items r path v Hitems) Hmatched).
  cbn. by intros [= <-].
Qed.

End lookup.

Lemma for_append_Forall {A B : Type} (P : B -> Prop) (f : A -> outcome B) (xs : list A)
    (ys : list B) :
  (forall x y, f x = Ret y -> P y) -> for_append f xs = Ret ys -> Forall P ys.
Proof.
  intros Hf Hys. apply Forall_forall. intros y Hy.
  destruct (for_append_elem _ _ _ _ Hys Hy) as (x & _ & Hx). by apply (Hf x).
Qed.

Section update.
Context {py : Python} {sdk : VendorSdk}.

Lemma update_volume_loop module volume_list datacenter_id (first : outcome pyval)
    (msg : string) checked_instances history :
  plain_identities volume_list ->
  Forall (fun v => is_model v = true) checked_instances ->
  post
    (for_each
       (fun instance '(updated_volumes, changed) =>
          existing_volume_by_name ← lift first;
          (if negb (is_none existing_volume_by_name)
           then lift (fail_json msg)
           else mret tt);;
          volume ← lift (get_resource module volume_list instance None);
          if negb (is_none volume) then
            update_response ← volume._update_volume module datacenter_id volume;
            mret (updated_volumes ++ [update_response], true)
          else mret (updated_volumes, changed))
       checked_instances ([], false))
    history
    (fun o made => made = [] /\ forall s, o = Ret s -> s = ([], false)).
Proof.
  intros Hplain Hmodels.
  eapply post_mono;
    [apply (post_for_each (fun _ s made => s = ([], false) /\ made = [])
              (fun made => made = [])) with (visited := []) (made := [])|].
  - intros visited x s h made Hx [-> ->]. rewrite Forall_forall in Hmodels.
    run_all; try discriminate;
      try match goal with
          | H : get_resource _ _ _ None = Ret _ |- _ =>
              apply (get_resource_model _ _ _ _ Hplain (Hmodels x Hx)) in H; subst
          end;
      try discriminate; done.
  - done.
  - intros [s|e|x] made; cbn [app]; [intros [-> ->]; split; [done | by intros ? [= <-]]|..];
      intros ->; split; done.
Qed.

Lemma checked_instances_models module volume_list instances checked_instances :
  for_append
    (fun instance =>
       volume ← get_resource module volume_list instance None;
       if is_none volume
       then fail_json ("Volume '" +:+ py_str instance +:+ "' not found.")
       else Ret volume)
    instances = Ret checked_instances ->
  Forall (fun v => is_model v = true) checked_instances.
Proof.
  apply for_append_Forall. intros instance v.
  destruct (get_resource module volume_list instance None) as [r| |] eqn:Hr;
    cbn; try discriminate.
  destruct (is_none r) eqn:Hnone; [discriminate|]. intros [= <-].
  destruct (get_resource_elem _ _ _ _ _ Hr Hnone) as (items & path & w & _ & _ & Hpath & Hw & _).
  cbn [default] in Hpath. unfold default_identity_paths in Hpath.
  assert (path = ["id"] \/ path = ["properties"; "name"]) as [-> | ->].
  { apply elem_of_cons in Hpath as [->|Hpath]; [by left|].
    apply elem_of_cons in Hpath as [->|Hpath]; [by right|].
    by apply elem_of_nil in Hpath. }
  all: destruct r; first [reflexivity | discriminate].
Qed.

(** What the second loop of [update_volume] did, from its run. *)
Ltac use_update_volume_loop :=
  match goal with
  | Hplain : plain_identities _, Hmodels : Forall _ _,
    Hrun : run (for_each _ ?xs _) ?h = _ |- _ =>
      let Hloop := fresh "Hloop" in
      epose proof (update_volume_loop _ _ _ _ _ xs h Hplain Hmodels) as Hloop;
      unfold post in Hloop; rewrite Hrun in Hloop; cbn [fst snd] in Hloop;
      destruct Hloop as [-> ?]
  end.

(** X14: when the ids and names of the listed volumes are not models (they
    are the strings of the API), [update_volume] makes no update request: its
    second loop looks each volume up by the volume itself, which equals no id
    and no name.  If it returns, the result is [changed] false with an empty
    [volume] list. *)
Theorem update_volume_updates_nothing module history :
  let o := (run (volume.update_volume module) history).1 in
  let made := (run (volume.update_volume module) history).2 in
  (forall ev datacenter_id volume_list rest,
     made = ev :: (datacenters_volumes_get datacenter_id 1, inr volume_list) :: rest ->
     plain_identities volume_list) ->
  count_calls is_operation made = 0
  /\ forall result, o = Ret result ->
       result = <[ "changed" := PBool false ]> (<[ "failed" := PBool false ]>
                (<[ "volume" := PList [] ]> {[ "action" := PStr "update" ]})).
Proof.
  cbv zeta.
  change (post (volume.update_volume module) history (fun o made =>
    (forall ev datacenter_id volume_list rest,
       made = ev :: (datacenters_volumes_get datacenter_id 1, inr volume_list) :: rest ->
       plain_identities volume_list) ->
    count_calls is_operation made = 0
    /\ forall result, o = Ret result ->
         result = <[ "changed" := PBool false ]> (<[ "failed" := PBool false ]>
                  (<[ "volume" := PList [] ]> {[ "action" := PStr "update" ]})))).
  unfold volume.update_volume.
  run_all; try discriminate; try solve [intros _; split; [reflexivity | intros ? [=]]];
    match goal with
    | H : for_append _ _ = Ret _ |- _ => apply checked_instances_models in H
    end;
    unfold post at 1;
    match goal with
    | |- context [run (for_each ?b ?xs ?s) ?h] =>
        destruct (run (for_each b xs s) h) as [[[updated changed]|e|x] made'] eqn:Hrun
    end;
    cbn [fst snd] in *; run_all;
    cbn [run mret M_mret M_ret lift snd app]; intros Hyp;
    pose proof (Hyp _ _ _ _ eq_refl) as Hplain;
    use_update_volume_loop;
    try solve [split; [reflexivity | intros ? [=]]];
    match goal with
    | Hs : forall s, Ret _ = Ret s -> s = _ |- _ => injection (Hs _ eq_refl) as -> ->
    end;
    match goal with H : for_append _ [] = Ret _ |- _ => injection H as <- end;
    (split; [reflexivity | intros ? [= <-]; reflexivity]).
Qed.

End update.

Lemma update_volume_updates_nothing_witness :
  let module := a_module false (("instance_ids", PList [PStr "vol01"])
                                :: ("size", PInt 50) :: credentials) in
  count_calls is_operation
    (run (volume.update_volume (py := ref_python) (sdk := scripted_sdk accepting) module)
         []).2 = 0
  /\ (run (volume.update_volume (py := ref_python) (sdk := scripted_sdk accepting) module)
          []).1
     = Ret (<[ "changed" := PBool false ]> (<[ "failed" := PBool false ]>
            (<[ "volume" := PList [] ]> {[ "action" := PStr "update" ]}))).
Proof.
  cbv zeta.
  destruct (update_volume_updates_nothing (py := ref_python) (sdk := scripted_sdk accepting)
              (a_module false (("instance_ids", PList [PStr "vol01"])
                               :: ("size", PInt 50) :: credentials)) [])
    as [Hcount Hresult].
  - intros ev datacenter_id volume_list rest Hmade. vm_compute in Hmade.
    injection Hmade as _ _ <- _. intros items r path v [= <-] Hr Hpath Hv.
    apply list_elem_of_singleton in Hr as ->.
    apply elem_of_cons in Hpath as [->|Hpath];
      [|apply list_elem_of_singleton in Hpath as ->];
      vm_compute in Hv; by injection Hv as <-.
  - split; [exact Hcount|].
    destruct (run _ _).1 as [result| |] eqn:Hrun; [|vm_compute in Hrun; discriminate..].
    by rewrite (Hresult result eq_refl).
Defined.

(** ** Resource identity resolution, in general *)

Lemma getattr_path_cases resource path :
  is_Ret (getattr_path resource path)
  \/ exists e, getattr_path resource path = Raise e /\ exn_class e = "AttributeError".
Proof.
  revert resource. induction path as [|el path IH]; intros resource; cbn [getattr_path].
  - by left.
  - unfold getattr. destruct resource; try (right; eexists; split; reflexivity).
    destruct (assoc el attrs) as [v|]; [|right; eexists; split; reflexivity].
    cbn. apply IH.
Qed.

Lemma has_fields_dec identity_paths resource :
  has_fields identity_paths resource \/ ~ has_fields identity_paths resource.
Proof.
  unfold has_fields. induction identity_paths as [|path paths [IH|IH]].
  - left. constructor.
  - destruct (getattr_path_cases resource path) as [Hpath | (e & He & _)].
    + left. by constructor.
    + right. intros Hfields. inversion Hfields as [|? ? Hpath _]. by rewrite He in Hpath.
  - right. intros Hfields. inversion Hfields. by apply IH.
Qed.

Lemma for_append_getattr_path resource identity_paths :
  has_fields identity_paths resource ->
  for_append (getattr_path resource) identity_paths =
    Ret (omap (fun path => match getattr_path resource path with
                           | Ret v => Some v
                           | _ => None
                           end) identity_paths).
Proof.
  induction 1 as [|path paths Hpath _ IH]; [reflexivity|].
  cbn [for_append omap list_omap]. rewrite IH.
  destruct (getattr_path resource path); [reflexivity | contradiction..].
Qed.

Lemma check_identity_method_matches identity identity_paths resource :
  has_fields identity_paths resource ->
  check_identity_method identity identity_paths resource
    = Ret (matches identity identity_paths resource).
Proof.
  intros Hfields. unfold check_identity_method, matches.
  rewrite (for_append_getattr_path _ _ Hfields). cbn. f_equal. unfold py_in.
  induction Hfields as [|path paths Hpath _ IH]; [reflexivity|].
  cbn [omap list_omap existsb].
  destruct (getattr_path resource path); [|contradiction..].
  cbn [existsb]. by rewrite IH.
Qed.

Lemma check_identity_method_raises identity identity_paths resource :
  ~ has_fields identity_paths resource ->
  exists e, check_identity_method identity identity_paths resource = Raise e
            /\ exn_class e = "AttributeError".
Proof.
  intros Hfields. unfold check_identity_method.
  induction identity_paths as [|path paths IH].
  - destruct Hfields. constructor.
  - cbn [for_append].
    destruct (getattr_path_cases resource path) as [Hpath | (e & -> & He)];
      [|by exists e].
    destruct (getattr_path resource path) as [v| |] eqn:Hv; try contradiction.
    destruct IH as (e & He & Hclass).
    { intros Hpaths. apply Hfields. constructor; [by rewrite Hv | exact Hpaths]. }
    exists e. split; [|exact Hclass]. cbn.
    destruct (for_append (getattr_path resource) paths); cbn in *; congruence.
Qed.

Lemma py_filter_matches identity identity_paths items :
  Forall (has_fields identity_paths) items ->
  py_filter (check_identity_method identity identity_paths) items
    = Ret (List.filter (matches identity identity_paths) items).
Proof.
  induction 1 as [|r rs Hr _ IH]; [reflexivity|].
  cbn [py_filter List.filter]. rewrite (check_identity_method_matches _ _ _ Hr), IH.
  cbn. by destruct (matches identity identity_paths r).
Qed.

Lemma py_filter_raises identity identity_paths items :
  ~ Forall (has_fields identity_paths) items ->
  exists e, py_filter (check_identity_method identity identity_paths) items = Raise e
            /\ exn_class e = "AttributeError".
Proof.
  induction items as [|r rs IH]; intros Hitems.
  - destruct Hitems. constructor.
  - cbn [py_filter].
    destruct (check_identity_method identity identity_paths r) as [keep|e|x] eqn:Hr.
    + destruct IH as (e & He & Hclass).
      { intros Hrs. apply Hitems. constructor; [|exact Hrs].
        destruct (has_fields_dec identity_paths r) as [|Hnot]; [done|].
        destruct (check_identity_method_raises identity _ _ Hnot) as (e & He & _).
        congruence. }
      exists e. cbn. rewrite He. by split.
    + assert (~ has_fields identity_paths r) as Hnot.
      { intros Hfields. rewrite (check_identity_method_matches _ _ _ Hfields) in Hr.
        discriminate. }
      destruct (check_identity_method_raises identity _ _ Hnot) as (e' & He' & Hclass).
      exists e. split; [reflexivity|]. congruence.
    + assert (~ has_fields identity_paths r) as Hnot.
      { intros Hfields. rewrite (check_identity_method_matches _ _ _ Hfields) in Hr.
        discriminate. }
      destruct (check_identity_method_raises identity _ _ Hnot) as (e' & He' & Hclass).
      congruence.
Qed.

(** X16: for any identity and any identity paths (the default ones if none
    is given), when every resource of the list has the fields of the paths,
    the matched resources are the resources one of whose fields equals the
    identity, in the order of the list. *)
Theorem matched_resources_any_paths (resource_list identity : pyval)
    (identity_paths : option (list (list string))) (items : list pyval) :
  let paths := default default_identity_paths identity_paths in
  items_of resource_list = Ret items ->
  Forall (has_fields paths) items ->
  _get_matched_resources resource_list identity identity_paths
    = Ret (List.filter (matches identity paths) items).
Proof.
  cbv zeta. unfold items_of, _get_matched_resources. intros Hitems Hfields.
  destruct (getattr resource_list "items") as [items'| |]; cbn in *; try discriminate.
  rewrite Hitems. cbn. by apply py_filter_matches.
Qed.

(** X17: when some resource of the list lacks a field of the identity
    paths, the lookup raises [AttributeError], whether or not another
    resource matches. *)
Theorem matched_resources_missing_field (resource_list identity : pyval)
    (identity_paths : option (list (list string))) (items : list pyval) :
  let paths := default default_identity_paths identity_paths in
  items_of resource_list = Ret items ->
  ~ Forall (has_fields paths) items ->
  exists e, _get_matched_resources resource_list identity identity_paths = Raise e
            /\ exn_class e = "AttributeError".
Proof.
  cbv zeta. unfold items_of, _get_matched_resources. intros Hitems Hfields.
  destruct (getattr resource_list "items") as [items'| |]; cbn in *; try discriminate.
  rewrite Hitems. cbn. by apply py_filter_raises.
Qed.

Section single_match.
Context {py : Python}.

(** X18: when exactly one resource matches, [get_resource] returns it and
    [get_resource_id] returns its [id]. *)
Theorem get_resource_single_match (module : AnsibleModule) (resource_list identity : pyval)
    (identity_paths : option (list (list string))) (items : list pyval) (resource : pyval) :
  let paths := default default_identity_paths identity_paths in
  items_of resource_list = Ret items ->
  Forall (has_fields paths) items ->
  List.filter (matches identity paths) items = [resource] ->
  get_resource module resource_list identity identity_paths = Ret resource
  /\ (is_none resource = false ->
      get_resource_id module resource_list identity identity_paths
        = getattr resource "id").
Proof.
  cbv zeta. intros Hitems Hfields Hmatch.
  assert (get_resource module resource_list identity identity_paths = Ret resource) as Hr.
  { unfold get_resource, _get_matched_resources. unfold items_of in Hitems.
    destruct (getattr resource_list "items") as [items'| |]; cbn in *; try discriminate.
    rewrite Hitems. cbn. rewrite (py_filter_matches _ _ _ Hfields), Hmatch. reflexivity. }
  split; [exact Hr|]. intros Hnone. unfold get_resource_id. rewrite Hr. cbn.
  by rewrite Hnone.
Qed.

(** X19: an id that [get_resource_id] returns is the [id] of a resource of
    the list one of whose identity fields equals the identity. *)
Theorem get_resource_id_of_a_match (module : AnsibleModule) (resource_list identity : pyval)
    (identity_paths : option (list (list string))) (id : pyval) :
  get_resource_id module resource_list identity identity_paths = Ret id ->
  is_none id = false ->
  exists items resource path v,
    items_of resource_list = Ret items /\ resource ∈ items
    /\ getattr resource "id" = Ret id
    /\ path ∈ default default_identity_paths identity_paths
    /\ getattr_path resource path = Ret v /\ py_eq identity v = true.
Proof.
  unfold get_resource_id.
  destruct (get_resource module resource_list identity identity_paths)
    as [resource| |] eqn:Hr; cbn; try discriminate.
  destruct (is_none resource) eqn:Hnone; cbn.
  - intros [= <-]. discriminate.
  - intros Hid _.
    destruct (get_resource_elem _ _ _ _ _ Hr Hnone) as (items & path & v & ? & ? & ? & ? & ?).
    by exists items, resource, path, v.
Qed.

End single_match.

Lemma matched_resources_any_paths_witness :
  _get_matched_resources two_clusters (PStr "billing")
    (Some [["id"]; ["properties"; "display_name"]])
  = Ret [PObj "ClusterResponse"
           [("id", PStr "c-2");
            ("properties", PObj "ClusterProperties" [("display_name", PStr "billing")])]].
Proof.
  apply (matched_resources_any_paths two_clusters (PStr "billing")
           (Some [["id"]; ["properties"; "display_name"]])
           [PObj "ClusterResponse"
              [("id", PStr "c-1");
               ("properties", PObj "ClusterProperties" [("display_name", PStr "orders")])];
            PObj "ClusterResponse"
              [("id", PStr "c-2");
               ("properties",
                PObj "ClusterProperties" [("display_name", PStr "billing")])]]).
  - reflexivity.
  - repeat constructor.
Defined.

Lemma matched_resources_missing_field_witness :
  exists e,
    _get_matched_resources
      (a_collection "volumes" [a_resource "Volume" "v-1" "data"; PStr "v-2"])
      (PStr "data") None = Raise e
    /\ exn_class e = "AttributeError".
Proof.
  apply (matched_resources_missing_field
           (a_collection "volumes" [a_resource "Volume" "v-1" "data"; PStr "v-2"])
           (PStr "data") None
           [a_resource "Volume" "v-1" "data"; PStr "v-2"]).
  - reflexivity.
  - intros Hfields. inversion Hfields as [|? ? _ Hrest]. inversion Hrest as [|? ? Hbad _].
    inversion Hbad as [|? ? Hid _]. exact Hid.
Defined.

Lemma get_resource_single_match_witness :
  get_resource (py := ref_python) (a_module false [])
    (a_collection "volumes"
       [a_resource "Volume" "v-1" "data"; a_resource "Volume" "v-2" "logs"])
    (PStr "logs") None = Ret (a_resource "Volume" "v-2" "logs")
  /\ (is_none (a_resource "Volume" "v-2" "logs") = false ->
      get_resource_id (py := ref_python) (a_module false [])
        (a_collection "volumes"
           [a_resource "Volume" "v-1" "data"; a_resource "Volume" "v-2" "logs"])
        (PStr "logs") None = getattr (a_resource "Volume" "v-2" "logs") "id").
Proof.
  apply (get_resource_single_match (py := ref_python) (a_module false [])
           (a_collection "volumes"
              [a_resource "Volume" "v-1" "data"; a_resource "Volume" "v-2" "logs"])
           (PStr "logs") None
           [a_resource "Volume" "v-1" "data"; a_resource "Volume" "v-2" "logs"]).
  - reflexivity.
  - repeat constructor.
  - reflexivity.
Defined.

Lemma get_resource_id_of_a_match_witness :
  exists items resource path v,
    items_of (a_collection "volumes" [a_resource "Volume" "v-1" "data"]) = Ret items
    /\ resource ∈ items
    /\ getattr resource "id" = Ret (PStr "v-1")
    /\ path ∈ default default_identity_paths None
    /\ getattr_path resource path = Ret v /\ py_eq (PStr "data") v = true.
Proof.
  apply (get_resource_id_of_a_match (py := ref_python) (a_module false [])
           (a_collection "volumes" [a_resource "Volume" "v-1" "data"]) (PStr "data") None
           (PStr "v-1")); reflexivity.
Defined.

(** ** The calls of [postgres_backup_info], of [_attach_volume] and of [_update_volume] *)

Section calls_of_helpers.
Context {py : Python} {sdk : VendorSdk}.

(** X20: an invocation of [postgres_backup_info] makes at most two SDK calls,
    all of them reads: [clusters_backups_get] alone when no cluster is named;
    otherwise [clusters_get] and then [cluster_backups_get] for the id that
    [postgres_cluster] resolves to by id or display name. *)
Theorem postgres_main_calls HAS_SDK module history :
  backups_calls module (run (postgres_backup_info.main HAS_SDK module) history).2.
Proof.
  change (post (postgres_backup_info.main HAS_SDK module) history
            (fun _ made => backups_calls module made)).
  unfold postgres_backup_info.main, backups_calls.
  destruct (truthy (params_get module "postgres_cluster")).
  all: run_all; cbn [app]; eauto 10.
Qed.

(** X21: [_attach_volume] makes no SDK call when [server] is not given;
    otherwise it lists the servers of the datacenter and, if the server
    resolves (be it to [None]), posts the volume to that server id.  It does
    so in check mode as well: the module's [check_mode] is not read. *)
Theorem _attach_volume_calls module datacenter volume_id history :
  let made := (run (volume._attach_volume module datacenter volume_id) history).2 in
  let server := params_get module "server" in
  if truthy server then
    exists r rest,
      made = (datacenters_servers_get datacenter 1, r) :: rest
      /\ forall server_list server_id,
           r = inr server_list ->
           get_resource_id module server_list server None = Ret server_id ->
           exists r',
             rest = [(datacenters_servers_volumes_post datacenter server_id
                        (volume.Volume volume_id PNone), r')]
  else made = [].
Proof.
  cbv zeta.
  change (post (volume._attach_volume module datacenter volume_id) history (fun _ made =>
    if truthy (params_get module "server") then
      exists r rest,
        made = (datacenters_servers_get datacenter 1, r) :: rest
        /\ forall server_list server_id,
             r = inr server_list ->
             get_resource_id module server_list (params_get module "server") None
               = Ret server_id ->
             exists r',
               rest = [(datacenters_servers_volumes_post datacenter server_id
                          (volume.Volume volume_id PNone), r')]
    else made = [])).
  unfold volume._attach_volume.
  destruct (truthy (params_get module "server")); [|by apply post_ret].
  run_all; cbn [app]; eexists _, _; (split; [reflexivity|]);
    intros server_list server_id Hr Hid; simplify_eq; try congruence;
    match goal with
    | H : get_resource_id _ _ _ None = Ret ?a |- _ =>
        rewrite H in Hid; injection Hid as <-
    end; eauto.
Qed.

(** X22: every update request of [_update_volume] is made for the given
    datacenter and for the volume id [None]: the id is read from the model
    that the function has just built, not from the volume to update. *)
Theorem _update_volume_request module datacenter volume history :
  forall c r, (c, r) ∈ (run (volume._update_volume module datacenter volume) history).2 ->
    is_update c = true ->
    exists properties,
      c = datacenters_volumes_put_with_http_info datacenter PNone
            (volume.Volume PNone properties).
Proof.
  change (post (volume._update_volume module datacenter volume) history (fun _ made =>
    forall c r, (c, r) ∈ made -> is_update c = true ->
      exists properties,
        c = datacenters_volumes_put_with_http_info datacenter PNone
              (volume.Volume PNone properties))).
  unfold volume._update_volume.
  run_all; cbn [app]; intros c r Hin Hc;
    repeat (apply elem_of_cons in Hin as [Hin|Hin]; [simplify_eq|]);
    try (by apply elem_of_nil in Hin); try discriminate; eauto.
Qed.

(** X23: outside check mode and without a [name] parameter,
    [_update_volume] reads [volume.name]; when the volume has no such
    attribute it fails with "failed to update the volume: ..." and makes no
    SDK call. *)
Theorem _update_volume_needs_a_name module datacenter volume history e :
  check_mode module = false ->
  params_get module "name" = PNone ->
  getattr volume "name" = Raise e ->
  run (volume._update_volume module datacenter volume) history
    = (Exit (FailJson ("failed to update the volume: " +:+ to_native e)), []).
Proof.
  intros Hcheck Hname Hvolume. unfold volume._update_volume.
  rewrite Hcheck, Hname. cbn [is_none negb]. rewrite Hvolume.
  rewrite run_try_except, run_bind. reflexivity.
Qed.

(** X24: a [count] of 1 or less (0, negative) gives the supplied name alone;
    a missing [count] raises [TypeError]; with [count] greater than 1 and no
    name, the handler of the formatting error reads [e.message], which raises
    [AttributeError]. *)
Theorem create_volume_names_edges module name :
  (forall c, (c <= 1)%Z -> volume.create_volume_names module name (PInt c) = Ret [name])
  /\ volume.create_volume_names module name PNone
     = Raise (TypeError "'>' not supported between instances of 'NoneType' and 'int'")
  /\ (forall c, (1 < c)%Z ->
      volume.create_volume_names module PNone (PInt c)
        = Raise (AttributeError "TypeError" "message")).
Proof.
  split; [|split].
  - intros c Hc. unfold volume.create_volume_names. cbn.
    by rewrite (proj2 (Z.ltb_ge 1 c) Hc).
  - reflexivity.
  - intros c Hc. unfold volume.create_volume_names. cbn.
    by rewrite (proj2 (Z.ltb_lt 1 c) Hc).
Qed.

End calls_of_helpers.

Lemma create_volume_names_edges_witness :
  volume.create_volume_names (py := ref_python) (a_module false []) (PStr "data") (PInt 0)
    = Ret [PStr "data"]
  /\ volume.create_volume_names (py := ref_python) (a_module false []) PNone (PInt 2)
     = Raise (AttributeError "TypeError" "message").
Proof.
  destruct (create_volume_names_edges (py := ref_python) (a_module false []) (PStr "data"))
    as (Hsingle & _ & _).
  destruct (create_volume_names_edges (py := ref_python) (a_module false []) PNone)
    as (_ & _ & Hmessage).
  split; [apply Hsingle | apply Hmessage]; lia.
Defined.

Lemma _update_volume_needs_a_name_witness :
  run (volume._update_volume (sdk := scripted_sdk tardis)
         (a_module false credentials) (PStr "dc-1") (a_resource "Volume" "v-1" "vol01")) []
  = (Exit (FailJson ("failed to update the volume: "
                     +:+ to_native (AttributeError "Volume" "name"))), []).
Proof.
  apply (_update_volume_needs_a_name (sdk := scripted_sdk tardis));
    reflexivity.
Defined.

Lemma _update_volume_request_witness :
  exists properties,
    datacenters_volumes_put_with_http_info (PStr "dc-1") PNone
      (volume.Volume PNone
         (volume.VolumeProperties
            [("name", PStr "renamed"); ("size", PNone); ("availability_zone", PNone);
             ("bus", PNone); ("cpu_hot_plug", PNone); ("ram_hot_plug", PNone);
             ("nic_hot_plug", PNone); ("nic_hot_unplug", PNone);
             ("disc_virtio_hot_plug", PNone); ("disc_virtio_hot_unplug", PNone)]))
    = datacenters_volumes_put_with_http_info (PStr "dc-1") PNone
        (volume.Volume PNone properties).
Proof.
  apply (_update_volume_request (sdk := scripted_sdk accepting)
           (a_module false [("name", PStr "renamed")]) (PStr "dc-1")
           (a_resource "Volume" "v-1" "vol01") [] _
           (accepting (datacenters_volumes_put_with_http_info PNone PNone PNone))).
  - vm_compute. apply list_elem_of_here.
  - reflexivity.
Defined.

(** In check mode too, the volume is attached. *)
Lemma _attach_volume_calls_witness :
  exists r r',
    (run (volume._attach_volume (py := ref_python) (sdk := scripted_sdk accepting)
            (a_module true [("server", PStr "web")]) (PStr "dc-1") (PStr "v-1")) []).2
    = [(datacenters_servers_get (PStr "dc-1") 1, r);
       (datacenters_servers_volumes_post (PStr "dc-1") (PStr "s-1")
          (volume.Volume (PStr "v-1") PNone), r')].
Proof.
  destruct (_attach_volume_calls (py := ref_python) (sdk := scripted_sdk accepting)
              (a_module true [("server", PStr "web")]) (PStr "dc-1") (PStr "v-1") [])
    as (r & rest & Hmade & Hrest).
  destruct (Hrest (a_collection "servers" [a_resource "Server" "s-1" "web"]) (PStr "s-1"))
    as [r' Hr'].
  - pose proof Hmade as Hr. vm_compute in Hr. by injection Hr as <- _.
  - reflexivity.
  - exists r, r'. by rewrite Hmade, Hr'.
Defined.

(** ** The image of a new volume, and unknown instances *)

Lemma for_append_exit {A B : Type} (f : A -> outcome B) (before after : list A) (x : A)
    (ex : exit_call) :
  Forall (fun a => is_Ret (f a)) before -> f x = Exit ex ->
  for_append f (before ++ x :: after) = Exit ex.
Proof.
  intros Hbefore Hx. induction Hbefore as [|a before Ha _ IH]; cbn [app for_append].
  - by rewrite Hx.
  - destruct (f a); try contradiction. cbn. by rewrite IH.
Qed.

Section image_and_instances.
Context {py : Python} {sdk : VendorSdk}.

(** X25: every create request of [_create_volume] is made for the given
    datacenter with a volume without id, whose properties hold the given
    name; a non-empty [image] that begins like a UUID is sent as [image], any
    other as [image_alias], never both, and neither when no image is given. *)
Theorem _create_volume_image module datacenter name history :
  forall dc volume r,
    (datacenters_volumes_post_with_http_info dc volume, r)
      ∈ (run (volume._create_volume module datacenter name) history).2 ->
    exists properties,
      dc = datacenter /\ volume = volume.Volume PNone properties
      /\ attr properties "name" = Some name
      /\ match params_get module "image" with
         | PStr s =>
             if String.eqb s "" then
               attr properties "image" = None /\ attr properties "image_alias" = None
             else if uuid_match re_w s then
               attr properties "image" = Some (PStr s)
               /\ attr properties "image_alias" = None
             else
               attr properties "image" = None
               /\ attr properties "image_alias" = Some (PStr s)
         | _ => attr properties "image" = None /\ attr properties "image_alias" = None
         end.
Proof.
  change (post (volume._create_volume module datacenter name) history (fun _ made =>
    forall dc volume r,
      (datacenters_volumes_post_with_http_info dc volume, r) ∈ made ->
      exists properties,
        dc = datacenter /\ volume = volume.Volume PNone properties
        /\ attr properties "name" = Some name
        /\ match params_get module "image" with
           | PStr s =>
               if String.eqb s "" then
                 attr properties "image" = None /\ attr properties "image_alias" = None
               else if uuid_match re_w s then
                 attr properties "image" = Some (PStr s)
                 /\ attr properties "image_alias" = None
               else
                 attr properties "image" = None
                 /\ attr properties "image_alias" = Some (PStr s)
           | _ => attr properties "image" = None /\ attr properties "image_alias" = None
           end)).
  unfold volume._create_volume.
  run_all; cbn [app]; intros dc volume r Hin;
    repeat (apply elem_of_cons in Hin as [Hin|Hin]; [simplify_eq|]);
    try (by apply elem_of_nil in Hin); try discriminate;
    match goal with
    | H : (if truthy _ then _ else _) = Ret _ |- _ => rename H into Hprops
    end;
    destruct (params_get module "image") as [| | |s| | | |];
    cbn [truthy] in Hprops;
    try destruct (String.eqb s "") eqn:Hs; cbn [negb] in Hprops;
    try destruct (uuid_match re_w s) eqn:Huuid;
    repeat match type of Hprops with
           | (if ?b then _ else _) = _ => destruct b
           end;
    try discriminate; injection Hprops as <-;
    (eexists; split; [reflexivity|]; split; [reflexivity|]; split; [reflexivity|];
     split; reflexivity).
Qed.

(** X15: [update_volume] fails with "Volume '<entry>' not found." for the
    first entry of [instance_ids] that names no volume of the list, and the
    list of the volumes is its last SDK call. *)
Theorem update_volume_unknown_instance module history ev datacenter_id volume_list rest
    before n after :
  (run (volume.update_volume module) history).2
    = ev :: (datacenters_volumes_get datacenter_id 1, inr volume_list) :: rest ->
  params_get module "instance_ids" = PList (before ++ n :: after) ->
  Forall (fun x => exists v, get_resource module volume_list x None = Ret v
                             /\ is_none v = false) before ->
  get_resource module volume_list n None = Ret PNone ->
  run (volume.update_volume module) history
    = (Exit (FailJson ("Volume '" +:+ py_str n +:+ "' not found.")),
       [ev; (datacenters_volumes_get datacenter_id 1, inr volume_list)]).
Proof.
  enough (post (volume.update_volume module) history (fun o made =>
    forall rest,
      made = ev :: (datacenters_volumes_get datacenter_id 1, inr volume_list) :: rest ->
      params_get module "instance_ids" = PList (before ++ n :: after) ->
      Forall (fun x => exists v, get_resource module volume_list x None = Ret v
                                 /\ is_none v = false) before ->
      get_resource module volume_list n None = Ret PNone ->
      (o, made) = (Exit (FailJson ("Volume '" +:+ py_str n +:+ "' not found.")),
                   [ev; (datacenters_volumes_get datacenter_id 1, inr volume_list)])))
    as Hpost.
  { intros Hmade Hids Hbefore Hn. rewrite <- (Hpost rest Hmade Hids Hbefore Hn).
    by destruct (run _ _). }
  unfold volume.update_volume.
  repeat first [step | run_case | skip_loop];
    cbn [run mret M_mret M_ret lift snd app];
    intros rest' Hmade Hids Hbefore Hn; try discriminate;
    try rewrite Hids in *; cbn [py_iter] in *; simplify_eq;
    match goal with
    | H : for_append _ _ = _ |- _ =>
        rewrite (for_append_exit _ before after n
                   (FailJson ("Volume '" +:+ py_str n +:+ "' not found."))) in H;
        [by simplify_eq | |by rewrite Hn]
    end;
    (eapply Forall_impl; [exact Hbefore|]; intros instance (v & -> & Hv); cbn; by rewrite Hv).
Qed.

End image_and_instances.

Lemma _create_volume_image_witness :
  exists properties,
    PStr "dc-1" = PStr "dc-1"
    /\ volume.Volume PNone
         (volume.VolumeProperties
            [("name", PStr "data"); ("type", PNone); ("size", PNone);
             ("availability_zone", PNone); ("image_password", PNone);
             ("ssh_keys", PNone); ("bus", PNone); ("licence_type", PNone);
             ("cpu_hot_plug", PNone); ("ram_hot_plug", PNone);
             ("nic_hot_plug", PNone); ("nic_hot_unplug", PNone);
             ("disc_virtio_hot_plug", PNone); ("disc_virtio_hot_unplug", PNone);
             ("backupunit_id", PNone); ("user_data", PNone);
             ("image_alias", PStr "ubuntu:latest")])
       = volume.Volume PNone properties
    /\ attr properties "name" = Some (PStr "data")
    /\ attr properties "image" = None
    /\ attr properties "image_alias" = Some (PStr "ubuntu:latest").
Proof.
  apply (_create_volume_image (py := ref_python) (sdk := scripted_sdk refusing)
           (a_module false [("image", PStr "ubuntu:latest")]) (PStr "dc-1") (PStr "data") []
           _ _ (refusing clusters_get)).
  vm_compute. apply list_elem_of_here.
Defined.

Lemma update_volume_unknown_instance_witness :
  run (volume.update_volume (py := ref_python) (sdk := scripted_sdk tardis)
         (a_module false (("instance_ids", PList [PStr "vol01"; PStr "vol02"])
                          :: credentials))) []
  = (Exit (FailJson ("Volume '" +:+ "vol02" +:+ "' not found.")),
     [(datacenters_get 2,
       inr (a_collection "datacenters" [a_resource "Datacenter" "dc-1" "Tardis One"]));
      (datacenters_volumes_get (PStr "dc-1") 1,
       inr (a_collection "volumes" [a_resource "Volume" "v-1" "vol01"]))]).
Proof.
  apply (update_volume_unknown_instance (py := ref_python) (sdk := scripted_sdk tardis)
           (a_module false (("instance_ids", PList [PStr "vol01"; PStr "vol02"])
                            :: credentials)) []
           (datacenters_get 2,
            inr (a_collection "datacenters" [a_resource "Datacenter" "dc-1" "Tardis One"]))
           (PStr "dc-1") (a_collection "volumes" [a_resource "Volume" "v-1" "vol01"]) []
           [PStr "vol01"] (PStr "vol02") []).
  - reflexivity.
  - reflexivity.
  - repeat constructor. exists (a_resource "Volume" "v-1" "vol01"). by split.
  - reflexivity.
Defined.

(** ** Argument specification and documentation *)

Lemma copy_keys_lookup (option : gmap string pyval) (keys : list string)
    (argument : gmap string pyval) (key : string) :
  foldl (fun argument key =>
           if negb (is_none (default PNone (option !! key)))
           then <[ key := default PNone (option !! key) ]> argument
           else argument) argument keys !! key
  = if bool_decide (key ∈ keys)
    then match (v ← option !! key; if is_none v then None else Some v) with
         | Some v => Some v
         | None => argument !! key
         end
    else argument !! key.
Proof.
  revert argument. induction keys as [|k keys IH]; intros argument; [reflexivity|].
  cbn [foldl]. rewrite IH. clear IH.
  destruct (decide (key = k)) as [->|Hne].
  - rewrite (bool_decide_eq_true_2 (k ∈ k :: keys)) by left.
    destruct (option !! k) as [v|] eqn:Hv; cbn [default mbind option_bind id];
      [destruct (is_none v) eqn:Hnone; cbn [negb]|]; rewrite ?lookup_insert_eq;
      by destruct (bool_decide (k ∈ keys)).
  - assert (bool_decide (key ∈ k :: keys) = bool_decide (key ∈ keys)) as ->.
    { apply bool_decide_ext. rewrite elem_of_cons.
      split; [intros [?|?]; [congruence | done] | by right]. }
    destruct (negb (is_none (default PNone (option !! k)))); [|reflexivity].
    by rewrite lookup_insert_ne.
Qed.

Lemma argument_of_loop_body (STATES : list string) (option_name : string)
    (option : gmap string pyval) (arguments arguments' : gmap string (gmap string pyval)) :
  (type ← dict_getitem option "type";
   let argument : gmap string pyval := {[ "type" := type ]} in
   let argument :=
     foldl (fun argument key =>
              if negb (is_none (default PNone (option !! key)))
              then <[ key := default PNone (option !! key) ]> argument
              else argument)
           argument ["choices"; "default"; "aliases"; "no_log"; "elements"] in
   argument ←
     (if truthy (default PNone (option !! "env_fallback")) then
        fallback ← dict_getitem option "env_fallback";
        Ret (<[ "fallback" := PTuple [env_fallback; PList [fallback]] ]> argument)
      else Ret argument);
   n ← py_len (default (PList []) (option !! "required"));
   let argument :=
     if Nat.eqb n (length STATES)
     then <[ "required" := PBool true ]> argument
     else argument in
   Ret (<[ option_name := argument ]> arguments)) = Ret arguments' ->
  exists argument,
    arguments' = <[ option_name := argument ]> arguments
    /\ argument_of STATES option argument.
Proof.
  unfold dict_getitem, argument_of.
  destruct (option !! "type") as [type|] eqn:Htype;
    cbn [mbind outcome_mbind outcome_bind]; [|discriminate].
  cbv zeta. fold copied_keys.
  set (copy := foldl _ _ copied_keys).
  assert (forall key, copy !! key
            = if bool_decide (key ∈ copied_keys)
              then match (v ← option !! key; if is_none v then None else Some v) with
                   | Some v => Some v
                   | None => ({[ "type" := type ]} : gmap string pyval) !! key
                   end
              else ({[ "type" := type ]} : gmap string pyval) !! key) as Hcopy.
  { intros key. apply copy_keys_lookup. }
  clearbody copy.
  set (with_fallback :=
         if truthy (default PNone (option !! "env_fallback"))
         then <[ "fallback" := PTuple [env_fallback;
                                       PList [default PNone (option !! "env_fallback")]] ]>
                copy
         else copy).
  assert ((if truthy (default PNone (option !! "env_fallback")) then
             fallback ← match option !! "env_fallback" with
                        | Some v => Ret v
                        | None => Raise (KeyError "env_fallback")
                        end;
             Ret (<[ "fallback" := PTuple [env_fallback; PList [fallback]] ]> copy)
           else Ret copy) = Ret with_fallback) as ->.
  { unfold with_fallback. destruct (option !! "env_fallback") as [fallback|]; [|reflexivity].
    cbn [default id]. destruct (truthy fallback); reflexivity. }
  cbn [mbind outcome_mbind outcome_bind].
  destruct (py_len (default (PList []) (option !! "required"))) as [n| |];
    cbn [mbind outcome_mbind outcome_bind]; [|discriminate..].
  intros [= <-]. eexists. split; [reflexivity|].
  assert (forall key, with_fallback !! key
            = if decide (key = "fallback")
              then (v ← option !! "env_fallback";
                    if truthy v then Some (PTuple [env_fallback; PList [v]]) else None)
              else copy !! key) as Hwith.
  { intros key. unfold with_fallback.
    destruct (decide (key = "fallback")) as [->|Hne].
    - destruct (option !! "env_fallback") as [fallback|];
        cbn [default truthy mbind option_bind id].
      + destruct (truthy fallback); [by rewrite lookup_insert_eq | by rewrite Hcopy].
      + by rewrite Hcopy.
    - destruct (truthy _); [by rewrite lookup_insert_ne | reflexivity]. }
  set (argument := if Nat.eqb n (length STATES)
                  then <[ "required" := PBool true ]> with_fallback
                  else with_fallback).
  assert (forall key, argument !! key
            = if decide (key = "required")
              then (if Nat.eqb n (length STATES) then Some (PBool true) else None)
              else with_fallback !! key) as Hargument.
  { intros key. unfold argument.
    destruct (decide (key = "required")) as [->|Hne].
    - destruct (Nat.eqb n (length STATES)); [by rewrite lookup_insert_eq|].
      rewrite Hwith, Hcopy. destruct (decide _) as [?|_]; [discriminate | reflexivity].
    - destruct (Nat.eqb n (length STATES)); [by rewrite lookup_insert_ne | reflexivity]. }
  clearbody argument with_fallback.
  split; [|split; [|split; [|split]]].
  - rewrite Hargument, Hwith, Hcopy, Htype.
    repeat (destruct (decide _) as [?|_]; [discriminate|]). reflexivity.
  - intros key Hkey. rewrite Hargument, Hwith, Hcopy.
    rewrite (bool_decide_eq_true_2 _ Hkey).
    unfold copied_keys in Hkey. rewrite !elem_of_cons, elem_of_nil in Hkey.
    destruct Hkey as [->|[->|[->|[->|[->|[]]]]]];
      repeat (destruct (decide _) as [?|_]; [discriminate|]);
      match goal with |- match ?o with _ => _ end = _ => destruct o end; reflexivity.
  - rewrite Hargument, Hwith.
    destruct (decide _) as [?|_]; [discriminate|].
    destruct (decide _) as [_|?]; [reflexivity | done].
  - rewrite Hargument. destruct (decide _) as [_|?]; [reflexivity | done].
  - intros key. rewrite Hargument, Hwith, Hcopy.
    destruct (decide (key = "required")) as [->|_]; [intros _; right; right; left|].
    destruct (decide (key = "fallback")) as [->|_]; [intros _; right; left|].
    destruct (bool_decide (key ∈ copied_keys)) eqn:Hkey.
    + apply bool_decide_eq_true in Hkey. intros _. by do 3 right.
    + intros [v Hv]. apply lookup_singleton_Some in Hv as [<- _]. left.
Qed.

(** X26: the argument specification has one entry for each option; the entry
    holds the type of the option, its [choices], [default], [aliases],
    [no_log] and [elements] when they are not [None], a [fallback] when the
    option has an [env_fallback], [required] true when the [required] list
    of the option has as many entries as there are states, and nothing else
    (no [description], no [available]). *)
Theorem get_module_arguments_spec (OPTIONS : list (string * gmap string pyval))
    (STATES : list string) (arguments : gmap string (gmap string pyval)) :
  get_module_arguments OPTIONS STATES = Ret arguments ->
  NoDup OPTIONS.*1 ->
  dom arguments = list_to_set OPTIONS.*1
  /\ forall option_name option, (option_name, option) ∈ OPTIONS ->
       exists argument, arguments !! option_name = Some argument
                        /\ argument_of STATES option argument.
Proof.
  unfold get_module_arguments.
  enough (forall arguments0 : gmap string (gmap string pyval),
    for_fold
      (fun '(option_name, option) arguments =>
         type ← dict_getitem option "type";
         let argument : gmap string pyval := {[ "type" := type ]} in
         let argument :=
           foldl (fun argument key =>
                    if negb (is_none (default PNone (option !! key)))
                    then <[ key := default PNone (option !! key) ]> argument
                    else argument)
                 argument ["choices"; "default"; "aliases"; "no_log"; "elements"] in
         argument ←
           (if truthy (default PNone (option !! "env_fallback")) then
              fallback ← dict_getitem option "env_fallback";
              Ret (<[ "fallback" := PTuple [env_fallback; PList [fallback]] ]> argument)
            else Ret argument);
         n ← py_len (default (PList []) (option !! "required"));
         let argument :=
           if Nat.eqb n (length STATES)
           then <[ "required" := PBool true ]> argument
           else argument in
         Ret (<[ option_name := argument ]> arguments))
      OPTIONS arguments0 = Ret arguments ->
    NoDup OPTIONS.*1 ->
    dom arguments = list_to_set OPTIONS.*1 ∪ dom arguments0
    /\ (forall option_name option, (option_name, option) ∈ OPTIONS ->
          exists argument, arguments !! option_name = Some argument
                           /\ argument_of STATES option argument)
    /\ (forall option_name, option_name ∉ OPTIONS.*1 ->
          arguments !! option_name = arguments0 !! option_name)) as Hloop.
  { intros Hrun Hnodup. destruct (Hloop ∅ Hrun Hnodup) as (Hdom & Hoptions & _).
    split; [|exact Hoptions]. by rewrite Hdom, dom_empty_L, (right_id_L ∅ (∪)). }
  induction OPTIONS as [|[option_name option] OPTIONS IH]; intros arguments0;
    cbn [for_fold].
  - intros [= <-] _. split; [cbn; by rewrite (left_id_L ∅ (∪))|]. split; [|done].
    intros ? ? Hin. by apply elem_of_nil in Hin.
  - match goal with
    | |- (?body ≫= _) = _ -> _ => destruct body as [arguments1| |] eqn:Hbody
    end; cbn [mbind outcome_mbind outcome_bind]; try discriminate.
    apply argument_of_loop_body in Hbody as (argument & -> & Hargument).
    intros Hrun Hnodup. cbn [fmap list_fmap fst] in Hnodup.
    apply NoDup_cons in Hnodup as [Hfresh Hnodup].
    destruct (IH _ Hrun Hnodup) as (Hdom & Hoptions & Hothers).
    split; [|split].
    + rewrite Hdom, dom_insert_L. cbn [fmap list_fmap fst list_to_set].
      by rewrite (assoc_L (∪)), (comm_L (∪) (list_to_set _)).
    + intros name option' [[= -> ->]|Hin]%elem_of_cons.
      * exists argument. rewrite (Hothers _ Hfresh), lookup_insert_eq. by split.
      * by apply Hoptions.
    + intros name Hname. cbn [fmap list_fmap fst] in Hname.
      apply not_elem_of_cons in Hname as [Hne Hname].
      rewrite (Hothers _ Hname). by rewrite lookup_insert_ne.
Qed.

(** X27: [transform_for_documentation] replaces [required] by a boolean
    (whether the list has as many entries as there are states), removes
    [available] and [type] and leaves the other keys; it raises [KeyError]
    when [available] or [type] is missing and [TypeError] when [required]
    has no length. *)
Theorem transform_for_documentation_spec (STATES : list string) (val : gmap string pyval) :
  match transform_for_documentation STATES val with
  | Ret val' =>
      (exists n, py_len (default (PList []) (val !! "required")) = Ret n
                 /\ val' !! "required" = Some (PBool (Nat.eqb n (length STATES))))
      /\ val' !! "available" = None /\ val' !! "type" = None
      /\ is_Some (val !! "available") /\ is_Some (val !! "type")
      /\ forall key, key ∉ ["required"; "available"; "type"] -> val' !! key = val !! key
  | Raise e =>
      (exn_class e = "TypeError"
       /\ ~ is_Ret (py_len (default (PList []) (val !! "required"))))
      \/ (e = KeyError "available" /\ val !! "available" = None)
      \/ (e = KeyError "type" /\ val !! "type" = None)
  | Exit _ => False
  end.
Proof.
  unfold transform_for_documentation, dict_del.
  destruct (py_len (default (PList []) (val !! "required"))) as [n|e|x] eqn:Hlen;
    cbn [mbind outcome_mbind outcome_bind].
  - rewrite lookup_insert_ne by done.
    destruct (val !! "available") as [available|] eqn:Havailable;
      cbn [mbind outcome_mbind outcome_bind]; [|right; left; by split].
    rewrite lookup_delete_ne, lookup_insert_ne by done.
    destruct (val !! "type") as [type|] eqn:Htype;
      cbn [mbind outcome_mbind outcome_bind]; [|right; right; by split].
    split; [|split; [|split; [|split; [|split]]]].
    + exists n. split; [reflexivity|].
      by rewrite !lookup_delete_ne, lookup_insert_eq by done.
    + by rewrite lookup_delete_ne, lookup_delete_eq by done.
    + by rewrite lookup_delete_eq.
    + by eexists.
    + by eexists.
    + intros key Hkey. rewrite !not_elem_of_cons in Hkey. destruct Hkey as (? & ? & ? & _).
      by rewrite !lookup_delete_ne, lookup_insert_ne by done.
  - left. split; [|by intros []].
    unfold py_len in Hlen. destruct (default _ _); by simplify_eq.
  - unfold py_len in Hlen. destruct (default _ _); discriminate.
Qed.

Lemma get_module_arguments_spec_witness :
  exists arguments,
    get_module_arguments three_options volume.STATES = Ret arguments
    /\ dom arguments = list_to_set three_options.*1
    /\ forall option_name option, (option_name, option) ∈ three_options ->
         exists argument, arguments !! option_name = Some argument
                          /\ argument_of volume.STATES option argument.
Proof.
  eexists. split; [reflexivity|].
  apply (get_module_arguments_spec three_options volume.STATES); [reflexivity|].
  apply (bool_decide_unpack _). vm_compute. exact I.
Defined.
